(** * chrono: Date, Time and DateTime wrappers over Go's [time.Time]

    A shallow embedding of the Go package [github.com/aarondl/chrono]
    (files [date.go], [time.go], [date_time.go]) together with the part of
    the Go standard library it delegates to ([time], [encoding/binary],
    [fmt], [database/sql/driver]).

    Conventions.
    - Go [int], [int64] are modelled on [Z]; the calendar arithmetic of the
      [time] package is assumed to stay inside 64 bits (its documented
      range).  The [uint32] arithmetic of the binary codec has its
      wrap-around written out.
    - [[]byte] is [list byte]; [string] is [string].
    - A [*time.Location] is a zone with one fixed offset, as [time.UTC]
      and the zones of [time.FixedZone] are.  Zones whose offset changes
      over the year are outside the model: what is proved of a value in
      an arbitrary zone is proved of the values in zones of fixed offset.
    - A method with a pointer receiver that assigns to the receiver
      ([Scan], [UnmarshalX]) takes the old receiver and returns the new one
      together with the optional error. *)

From Stdlib Require Import ZArith Lia List String Ascii Bool.
From Stdlib Require Import Floats.SpecFloat.
From Stdlib Require Import Btauto.
From coqutil Require Import Byte Word.LittleEndianList Z.bitblast.
Import ListNotations.
Local Open Scope Z_scope.

(** [lia] with Euclidean division by constants. *)
Ltac Zify.zify_post_hook ::= Z.to_euclidean_division_equations.

(* ================================================================= *)
(** ** Errors *)

(** Go [error] values, as far as chrono produces them.  The message of a
    [fmt.Errorf] is kept as its format string and operands: [args] holds
    the operands of the verbs other than [%w], a value under [%s] or [%q]
    as its text and a value under [%T] as the name of its dynamic type;
    [wrapped] is the operand of [%w], when the format has one. *)
Inductive error : Type :=
| ParseError (Layout Value : string)       (* *time.ParseError *)
| errorsNew (text : string)                (* errors.New *)
| fmtErrorf (format : string) (args : list string)
| fmtErrorfWrap (format : string) (args : list string) (wrapped : error).

(* ================================================================= *)
(** ** Go's [time] package (the part chrono composes) *)

Module time.

(** A [*time.Location].  Only zones with one fixed offset are modelled
    ([time.UTC] and [time.FixedZone]); zones with transitions are not. *)
Record Location : Type := mkLocation {
  zoneName : string;
  zoneOffset : Z            (* seconds east of UTC *)
}.

Definition UTC : Location := mkLocation "UTC" 0.
Definition FixedZone (name : string) (offset : Z) : Location :=
  mkLocation name offset.

(** A [time.Time]: an instant, counted in seconds and nanoseconds since
    January 1, year 1, 00:00:00 UTC (Go's internal epoch), and the zone
    it is presented in.  The monotonic clock reading is not modelled. *)
Record Time : Type := mkTime {
  sec : Z;
  nsec : Z;
  loc : Location
}.

(** [time.Time{}], the zero value. *)
Definition zero : Time := mkTime 0 0 UTC.

Definition secondsPerMinute : Z := 60.
Definition secondsPerHour : Z := 60 * secondsPerMinute.
Definition secondsPerDay : Z := 24 * secondsPerHour.
Definition daysPer400Years : Z := 365 * 400 + 97.
Definition daysPer100Years : Z := 365 * 100 + 24.
Definition daysPer4Years : Z := 365 * 4 + 1.
Definition unixToInternal : Z :=
  (1969 * 365 + 1969 / 4 - 1969 / 100 + 1969 / 400) * secondsPerDay.

(** [daysBefore[m]]: days in a non-leap year before month [m+1]. *)
Definition daysBeforeTab : list Z :=
  [0; 31; 59; 90; 120; 151; 181; 212; 243; 273; 304; 334; 365].
Definition daysBefore (m : Z) : Z := nth (Z.to_nat m) daysBeforeTab 0.

Definition isLeap (year : Z) : bool :=
  (Z.rem year 4 =? 0) && (negb (Z.rem year 100 =? 0) || (Z.rem year 400 =? 0)).

Definition daysIn (m year : Z) : Z :=
  if (m =? 2) && isLeap year then 29
  else daysBefore m - daysBefore (m - 1).

(** [daysSinceEpoch]: days from the epoch to January 1 of [year].  Go
    counts from an absolute epoch placed a multiple of 400 years before
    year 1 so that unsigned arithmetic suffices; here the count starts at
    year 1 and the floor division of [Z] plays that role. *)
Definition daysSinceEpoch (year : Z) : Z :=
  let y := year - 1 in
  let n := y / 400 in
  let y := y - 400 * n in
  let d := daysPer400Years * n in
  let n := y / 100 in
  let y := y - 100 * n in
  let d := d + daysPer100Years * n in
  let n := y / 4 in
  let y := y - 4 * n in
  let d := d + daysPer4Years * n in
  let n := y in
  d + 365 * n.

(** [norm]: [nhi, nlo] with [hi * base + lo = nhi * base + nlo] and
    [0 <= nlo < base]. *)
Definition norm (hi lo base : Z) : Z * Z :=
  let '(hi, lo) :=
    if lo <? 0 then
      let n := (- lo - 1) / base + 1 in (hi - n, lo + n * base)
    else (hi, lo) in
  if lo >=? base then
    let n := lo / base in (hi + n, lo - n * base)
  else (hi, lo).

(** [time.Date]: the instant of the given wall-clock reading in [loc],
    every field normalised. *)
Definition Date (year month day hour min sec nsec : Z) (loc : Location) : Time :=
  let m := month - 1 in
  let '(year, m) := norm year m 12 in
  let month := m + 1 in
  let '(sec, nsec) := norm sec nsec 1000000000 in
  let '(min, sec) := norm min sec 60 in
  let '(hour, min) := norm hour min 60 in
  let '(day, hour) := norm day hour 24 in
  let d := daysSinceEpoch year in
  let d := d + daysBefore (month - 1) in
  let d := if isLeap year && (month >=? 3) then d + 1 else d in
  let d := d + (day - 1) in
  let abs := d * secondsPerDay in
  let abs := abs + (hour * secondsPerHour + min * secondsPerMinute + sec) in
  let unix := abs - zoneOffset loc in
  mkTime unix nsec loc.

(** [t.abs()]: seconds since the epoch of the wall clock shown in [t]'s zone. *)
Definition abs (t : Time) : Z := sec t + zoneOffset (loc t).

(** First half of [absDate]: the year and the zero-based day of the year. *)
Definition absYear (d : Z) : Z * Z :=
  let n := d / daysPer400Years in
  let y := 400 * n in
  let d := d - daysPer400Years * n in
  let n := d / daysPer100Years in
  let n := n - Z.shiftr n 2 in
  let y := y + 100 * n in
  let d := d - daysPer100Years * n in
  let n := d / daysPer4Years in
  let y := y + 4 * n in
  let d := d - daysPer4Years * n in
  let n := d / 365 in
  let n := n - Z.shiftr n 2 in
  let y := y + n in
  let d := d - 365 * n in
  (y + 1, d).

(** Second half of [absDate]: month and day of the month from the day of
    the year. *)
Definition absMonthDay (leap : bool) (yday : Z) : Z * Z :=
  if leap && (yday =? 31 + 29 - 1) then (2, 29)
  else
    let day := if leap && (yday >? 31 + 29 - 1) then yday - 1 else yday in
    let month := day / 31 in
    let end_ := daysBefore (month + 1) in
    let '(month, begin) :=
      if day >=? end_ then (month + 1, end_) else (month, daysBefore month) in
    (month + 1, day - begin + 1).

Definition absDate (abs : Z) : Z * Z * Z :=
  let '(year, yday) := absYear (abs / secondsPerDay) in
  let '(month, day) := absMonthDay (isLeap year) yday in
  (year, month, day).

(** Accessors of [time.Time]. *)
Definition Time_Date (t : Time) : Z * Z * Z := absDate (abs t).
Definition Time_Year (t : Time) : Z := fst (fst (Time_Date t)).
Definition Time_Month (t : Time) : Z := snd (fst (Time_Date t)).
Definition Time_Day (t : Time) : Z := snd (Time_Date t).
Definition Time_Hour (t : Time) : Z := (abs t mod secondsPerDay) / secondsPerHour.
Definition Time_Minute (t : Time) : Z := (abs t mod secondsPerHour) / secondsPerMinute.
Definition Time_Second (t : Time) : Z := abs t mod secondsPerMinute.
Definition Time_Nanosecond (t : Time) : Z := nsec t.
Definition Time_Clock (t : Time) : Z * Z * Z :=
  (Time_Hour t, Time_Minute t, Time_Second t).
Definition Time_Location (t : Time) : Location := loc t.
Definition Time_Unix (t : Time) : Z := sec t - unixToInternal.

Definition Time_UTC (t : Time) : Time := mkTime (sec t) (nsec t) UTC.
Definition Time_In (t : Time) (l : Location) : Time := mkTime (sec t) (nsec t) l.

Definition Time_Equal (t u : Time) : bool :=
  (sec t =? sec u) && (nsec t =? nsec u).
Definition Time_After (t u : Time) : bool :=
  (sec t >? sec u) || ((sec t =? sec u) && (nsec t >? nsec u)).
Definition Time_Before (t u : Time) : bool :=
  (sec t <? sec u) || ((sec t =? sec u) && (nsec t <? nsec u)).

Definition Time_AddDate (t : Time) (years months days : Z) : Time :=
  let '(year, month, day) := Time_Date t in
  let '(hour, min, sec) := Time_Clock t in
  Date (year + years) (month + months) (day + days) hour min sec
       (Time_Nanosecond t) (Time_Location t).

(** [time.Unix]: the instant [sec] seconds and [nsec] nanoseconds after
    the Unix epoch, presented in the local zone.  Go's [/] truncates. *)
Definition Unix (Local : Location) (sec nsec : Z) : Time :=
  let '(sec, nsec) :=
    if (nsec <? 0) || (nsec >=? 1000000000) then
      let n := Z.quot nsec 1000000000 in
      let sec := sec + n in
      let nsec := nsec - n * 1000000000 in
      if nsec <? 0 then (sec - 1, nsec + 1000000000) else (sec, nsec)
    else (sec, nsec) in
  mkTime (sec + unixToInternal) nsec Local.

Definition UnixMicro (Local : Location) (usec : Z) : Time :=
  Unix Local (Z.quot usec 1000000) (Z.rem usec 1000000 * 1000).

Definition UnixMilli (Local : Location) (msec : Z) : Time :=
  Unix Local (Z.quot msec 1000) (Z.rem msec 1000 * 1000000).

(** [t.Add(d)], [d] a [time.Duration] in nanoseconds. *)
Definition Time_Add (t : Time) (d : Z) : Time :=
  let dsec := Z.quot d 1000000000 in
  let nsec' := nsec t + Z.rem d 1000000000 in
  let '(dsec, nsec') :=
    if nsec' >=? 1000000000 then (dsec + 1, nsec' - 1000000000)
    else if nsec' <? 0 then (dsec - 1, nsec' + 1000000000)
    else (dsec, nsec') in
  mkTime (sec t + dsec) nsec' (loc t).

(** [t.Sub(u)], without the saturation at the ends of [int64]. *)
Definition Time_Sub (t u : Time) : Z :=
  (sec t - sec u) * 1000000000 + (nsec t - nsec u).

(** Arithmetic on [int64] wraps around. *)
Definition int64 (z : Z) : Z := (z + 2 ^ 63) mod 2 ^ 64 - 2 ^ 63.

(** [t.UnixMilli()], [t.UnixMicro()], [t.UnixNano()]. *)
Definition Time_UnixMilli (t : Time) : Z :=
  int64 (int64 (Time_Unix t * 1000) + Z.quot (nsec t) 1000000).
Definition Time_UnixMicro (t : Time) : Z :=
  int64 (int64 (Time_Unix t * 1000000) + Z.quot (nsec t) 1000).
Definition Time_UnixNano (t : Time) : Z :=
  int64 (int64 (Time_Unix t * 1000000000) + nsec t).

(** [t.Weekday()], through [absWeekday]: Sunday is 0, and January 1 of
    the epoch year was a Monday. *)
Definition secondsPerWeek : Z := 7 * secondsPerDay.
Definition Monday : Z := 1.
Definition Time_Weekday (t : Time) : Z :=
  let sec := (abs t + Monday * secondsPerDay) mod secondsPerWeek in
  sec / secondsPerDay.

(** [t.YearDay()]: the day of the year, from 1. *)
Definition Time_YearDay (t : Time) : Z :=
  snd (absYear (abs t / secondsPerDay)) + 1.

(* ----------------------------------------------------------------- *)
(** *** Layout strings ([format.go]) *)

Definition isDigitChar (c : ascii) : bool :=
  (Ascii.leb "0" c) && (Ascii.leb c "9").

(** [isDigit(s, 0)] *)
Definition isDigit0 (s : string) : bool :=
  match s with
  | String c _ => isDigitChar c
  | EmptyString => false
  end.

Definition digitVal (c : ascii) : Z := Z.of_nat (nat_of_ascii c) - 48.
Definition digitChar (n : Z) : ascii := ascii_of_nat (Z.to_nat (48 + n)).

(** [cut p s]: the rest of [s] after its prefix [p], when [p] is one. *)
Fixpoint cut (p s : string) : option string :=
  match p with
  | EmptyString => Some s
  | String a p' =>
      match s with
      | String b s' => if Ascii.eqb a b then cut p' s' else None
      | EmptyString => None
      end
  end.

(** The layout elements of [nextStdChunk]. *)
Inductive std : Type :=
| stdLongMonth | stdMonth | stdNumMonth | stdZeroMonth
| stdLongWeekDay | stdWeekDay
| stdDay | stdUnderDay | stdZeroDay | stdUnderYearDay | stdZeroYearDay
| stdHour | stdHour12 | stdZeroHour12
| stdMinute | stdZeroMinute | stdSecond | stdZeroSecond
| stdLongYear | stdYear | stdPM | stdpm | stdTZ
| stdISO8601TZ | stdISO8601SecondsTZ | stdISO8601ShortTZ
| stdISO8601ColonTZ | stdISO8601ColonSecondsTZ
| stdNumTZ | stdNumSecondsTz | stdNumShortTZ
| stdNumColonTZ | stdNumColonSecondsTZ
| stdFracSecond0 (digits : nat) (sep : ascii)
| stdFracSecond9 (digits : nat) (sep : ascii).

Definition startsWithLowerCase (s : string) : bool :=
  match s with
  | String c _ => (Ascii.leb "a" c) && (Ascii.leb c "z")
  | EmptyString => false
  end.

(** The first match of a list of alternatives. *)
Fixpoint firstCut (alts : list (string * std)) (s : string) : option (std * string) :=
  match alts with
  | [] => None
  | (p, sd) :: rest =>
      match cut p s with
      | Some r => Some (sd, r)
      | None => firstCut rest s
      end
  end.

(** The run of [ch] at the head of [s]: its length and what follows. *)
Fixpoint run (ch : ascii) (s : string) : nat * string :=
  match s with
  | String c s' =>
      if Ascii.eqb c ch then let '(n, r) := run ch s' in (S n, r) else (O, s)
  | EmptyString => (O, s)
  end.

(** The layout element that starts at the head of [layout], with the
    layout after it: one arm of the [switch] in [nextStdChunk]. *)
Definition stdAt (layout : string) : option (std * string) :=
  match layout with
  | EmptyString => None
  | String c rest =>
      if Ascii.eqb c "J" then
        match cut "Jan" layout with
        | Some r =>
            match cut "January" layout with
            | Some r' => Some (stdLongMonth, r')
            | None => if startsWithLowerCase r then None else Some (stdMonth, r)
            end
        | None => None
        end
      else if Ascii.eqb c "M" then
        match cut "Mon" layout with
        | Some r =>
            match cut "Monday" layout with
            | Some r' => Some (stdLongWeekDay, r')
            | None => if startsWithLowerCase r then None else Some (stdWeekDay, r)
            end
        | None => firstCut [("MST", stdTZ)]%string layout
        end
      else if Ascii.eqb c "0" then
        firstCut [("01", stdZeroMonth); ("02", stdZeroDay); ("03", stdZeroHour12);
                  ("04", stdZeroMinute); ("05", stdZeroSecond); ("06", stdYear);
                  ("002", stdZeroYearDay)]%string layout
      else if Ascii.eqb c "1" then
        firstCut [("15", stdHour); ("1", stdNumMonth)]%string layout
      else if Ascii.eqb c "2" then
        firstCut [("2006", stdLongYear); ("2", stdDay)]%string layout
      else if Ascii.eqb c "_" then
        match cut "_2" layout with
        | Some r =>
            match cut "_2006" layout with
            | Some _ => None      (* a literal _, then stdLongYear *)
            | None => Some (stdUnderDay, r)
            end
        | None => firstCut [("__2", stdUnderYearDay)]%string layout
        end
      else if Ascii.eqb c "3" then Some (stdHour12, rest)
      else if Ascii.eqb c "4" then Some (stdMinute, rest)
      else if Ascii.eqb c "5" then Some (stdSecond, rest)
      else if Ascii.eqb c "P" then firstCut [("PM", stdPM)]%string layout
      else if Ascii.eqb c "p" then firstCut [("pm", stdpm)]%string layout
      else if Ascii.eqb c "-" then
        firstCut [("-070000", stdNumSecondsTz); ("-07:00:00", stdNumColonSecondsTZ);
                  ("-0700", stdNumTZ); ("-07:00", stdNumColonTZ);
                  ("-07", stdNumShortTZ)]%string layout
      else if Ascii.eqb c "Z" then
        firstCut [("Z070000", stdISO8601SecondsTZ); ("Z07:00:00", stdISO8601ColonSecondsTZ);
                  ("Z0700", stdISO8601TZ); ("Z07:00", stdISO8601ColonTZ);
                  ("Z07", stdISO8601ShortTZ)]%string layout
      else if Ascii.eqb c "." || Ascii.eqb c "," then
        match rest with
        | String ch _ =>
            if Ascii.eqb ch "0" || Ascii.eqb ch "9" then
              let '(n, after) := run ch rest in
              if isDigit0 after then None
              else if Ascii.eqb ch "9" then Some (stdFracSecond9 n c, after)
              else Some (stdFracSecond0 n c, after)
            else None
        | EmptyString => None
        end
      else None
  end.

(** [nextStdChunk]: the literal prefix before the first layout element,
    the element (if any) and the layout after it. *)
Fixpoint nextStdChunk (layout : string) : string * option std * string :=
  match stdAt layout with
  | Some (sd, suffix) => (EmptyString, Some sd, suffix)
  | None =>
      match layout with
      | EmptyString => (EmptyString, None, EmptyString)
      | String c rest =>
          let '(prefix, sd, suffix) := nextStdChunk rest in
          (String c prefix, sd, suffix)
      end
  end.

(** The elements whose formatting and parsing are modelled below: the
    numeric date and clock fields, the numeric zone offsets without
    seconds, and fractional seconds.  Month and weekday names, zone
    abbreviations, the 12-hour clock, two-digit years and the day of the
    year are recognised by [nextStdChunk] but not interpreted. *)
Definition stdModelled (sd : std) : bool :=
  match sd with
  | stdLongYear | stdNumMonth | stdZeroMonth | stdDay | stdZeroDay
  | stdHour | stdMinute | stdZeroMinute | stdSecond | stdZeroSecond
  | stdISO8601TZ | stdISO8601ShortTZ | stdISO8601ColonTZ
  | stdNumTZ | stdNumShortTZ | stdNumColonTZ
  | stdFracSecond0 _ _ | stdFracSecond9 _ _ => true
  | _ => false
  end.

Fixpoint layoutModelledFuel (fuel : nat) (layout : string) : bool :=
  match fuel with
  | O => true
  | S fuel' =>
      match nextStdChunk layout with
      | (_, None, _) => true
      | (_, Some sd, suffix) => stdModelled sd && layoutModelledFuel fuel' suffix
      end
  end.

Definition layoutModelled (layout : string) : bool :=
  layoutModelledFuel (S (String.length layout)) layout.

(* ----------------------------------------------------------------- *)
(** *** Formatting *)

(** The [w] low decimal digits of [u], most significant first. *)
Fixpoint fixedDigits (w : nat) (u : Z) : string :=
  match w with
  | O => EmptyString
  | S w' => (fixedDigits w' (u / 10) ++ String (digitChar (u mod 10)) EmptyString)%string
  end.

(** The number of decimal digits of [u >= 0] (one for zero). *)
Fixpoint countDigits (fuel : nat) (u : Z) : nat :=
  match fuel with
  | O => O
  | S fuel' => if u <=? 0 then O else S (countDigits fuel' (u / 10))
  end.

Definition digitsLen (u : Z) : nat :=
  if u =? 0 then 1%nat else countDigits (S (Z.to_nat (Z.log2 u))) u.

(** [appendInt(b, x, width)]: the decimal form of [x], zero-padded to
    [width] digits, the sign in front. *)
Definition appendInt (b : string) (x : Z) (width : nat) : string :=
  let u := Z.abs x in
  let b := if x <? 0 then (b ++ "-")%string else b in
  (b ++ fixedDigits (Nat.max width (digitsLen u)) u)%string.

(** Drop the zeros at the end of [s]: the loop of [appendNano]. *)
Fixpoint trimZeros (s : string) : string :=
  match s with
  | EmptyString => EmptyString
  | String c s' =>
      match trimZeros s' with
      | EmptyString => if Ascii.eqb c "0" then EmptyString else String c EmptyString
      | r => String c r
      end
  end.

Definition dropLast (s : string) : string :=
  substring 0 (String.length s - 1) s.

Definition lastChar (s : string) : option ascii :=
  get (String.length s - 1) s.

(** [appendNano(b, nanosec, std)]: the fractional second with [n] digits
    after the separator; with [trim], zeros at the end are removed, and
    the separator with them if nothing is left. *)
Definition appendNano (b : string) (nanosec : Z) (n : nat) (sep : ascii)
    (trim : bool) : string :=
  if trim && ((n =? 0)%nat || (nanosec =? 0)) then b
  else
    let b := (b ++ String sep EmptyString)%string in
    let b := appendInt b nanosec 9 in
    let b := if (n <? 9)%nat
             then substring 0 (String.length b - 9 + n) b else b in
    if trim then
      let b := trimZeros b in
      match lastChar b with
      | Some c =>
          if Ascii.eqb c "." || Ascii.eqb c "," then dropLast b else b
      | None => b
      end
    else b.

(** The numeric zone offset: sign, hours, and with [minutes] the minutes,
    with [colon] a colon between them. *)
Definition appendZone (b : string) (offset : Z) (colon minutes : bool) : string :=
  let zone := Z.quot offset 60 in
  let '(b, zone) :=
    if zone <? 0 then ((b ++ "-")%string, - zone) else ((b ++ "+")%string, zone) in
  let b := appendInt b (Z.quot zone 60) 2 in
  let b := if colon then (b ++ ":")%string else b in
  if minutes then appendInt b (Z.rem zone 60) 2 else b.

(** One layout element appended to [b]: an arm of the [switch] in
    [appendFormat].  Elements outside [stdModelled] append nothing. *)
Definition appendStd (t : Time) (b : string) (sd : std) : string :=
  let offset := zoneOffset (loc t) in
  match sd with
  | stdLongYear => appendInt b (Time_Year t) 4
  | stdNumMonth => appendInt b (Time_Month t) 0
  | stdZeroMonth => appendInt b (Time_Month t) 2
  | stdDay => appendInt b (Time_Day t) 0
  | stdZeroDay => appendInt b (Time_Day t) 2
  | stdHour => appendInt b (Time_Hour t) 2
  | stdMinute => appendInt b (Time_Minute t) 0
  | stdZeroMinute => appendInt b (Time_Minute t) 2
  | stdSecond => appendInt b (Time_Second t) 0
  | stdZeroSecond => appendInt b (Time_Second t) 2
  | stdISO8601TZ => if offset =? 0 then (b ++ "Z")%string else appendZone b offset false true
  | stdISO8601ColonTZ => if offset =? 0 then (b ++ "Z")%string else appendZone b offset true true
  | stdISO8601ShortTZ => if offset =? 0 then (b ++ "Z")%string else appendZone b offset false false
  | stdNumTZ => appendZone b offset false true
  | stdNumColonTZ => appendZone b offset true true
  | stdNumShortTZ => appendZone b offset false false
  | stdFracSecond0 n sep => appendNano b (Time_Nanosecond t) n sep false
  | stdFracSecond9 n sep => appendNano b (Time_Nanosecond t) n sep true
  | _ => b
  end.

(** The loop of [appendFormat]; every round consumes a layout element,
    so [S (length layout)] rounds are enough. *)
Fixpoint appendFormat (fuel : nat) (t : Time) (b layout : string) : string :=
  match fuel with
  | O => b
  | S fuel' =>
      match layout with
      | EmptyString => b
      | _ =>
          let '(prefix, sd, suffix) := nextStdChunk layout in
          let b := (b ++ prefix)%string in
          match sd with
          | None => b
          | Some sd => appendFormat fuel' t (appendStd t b sd) suffix
          end
      end
  end.

(** [t.Format(layout)] *)
Definition Time_Format (t : Time) (layout : string) : string :=
  appendFormat (S (String.length layout)) t EmptyString layout.

(* ----------------------------------------------------------------- *)
(** *** Parsing *)

(** [leadingInt]: the digits at the head of [s] as a number, and the
    rest (the overflow test is left out: at most ten digits are read). *)
Fixpoint leadingInt (acc : Z) (s : string) : Z * string :=
  match s with
  | String c s' =>
      if isDigitChar c then leadingInt (acc * 10 + digitVal c) s' else (acc, s)
  | EmptyString => (acc, s)
  end.

(** [atoi]: an optional sign, then digits to the end. *)
Definition atoi (s : string) : option Z :=
  let '(neg, s) :=
    match s with
    | String c s' =>
        if Ascii.eqb c "-" then (true, s')
        else if Ascii.eqb c "+" then (false, s')
        else (false, s)
    | EmptyString => (false, s)
    end in
  match leadingInt 0 s with
  | (q, EmptyString) => Some (if neg then - q else q)
  | _ => None
  end.

(** [getnum]: one or two digits; exactly two when [fixed]. *)
Definition getnum (s : string) (fixed : bool) : option (Z * string) :=
  match s with
  | String c0 s1 =>
      if isDigitChar c0 then
        match s1 with
        | String c1 s2 =>
            if isDigitChar c1 then Some (digitVal c0 * 10 + digitVal c1, s2)
            else if fixed then None else Some (digitVal c0, s1)
        | EmptyString => if fixed then None else Some (digitVal c0, s1)
        end
      else None
  | EmptyString => None
  end.

Definition commaOrPeriod (c : ascii) : bool :=
  Ascii.eqb c "." || Ascii.eqb c ",".

Fixpoint cutspace (s : string) : string :=
  match s with
  | String c s' => if Ascii.eqb c " " then cutspace s' else s
  | EmptyString => s
  end.

(** [skip(value, prefix)]: [value] after the literal [prefix]; a run of
    spaces in [prefix] matches any run of spaces.  [afterSpace] says that
    the run of spaces of [prefix] being read has been matched already. *)
Fixpoint skipFrom (afterSpace : bool) (prefix value : string) : option string :=
  match prefix with
  | EmptyString => Some value
  | String p prefix' =>
      if Ascii.eqb p " " then
        if afterSpace then skipFrom true prefix' value
        else
          match value with
          | String v _ =>
              if Ascii.eqb v " " then skipFrom true prefix' (cutspace value)
              else None
          | EmptyString => skipFrom true prefix' value
          end
      else
        match value with
        | String v value' =>
            if Ascii.eqb v p then skipFrom false prefix' value' else None
        | EmptyString => None
        end
  end.

Definition skip (value prefix : string) : option string :=
  skipFrom false prefix value.

Fixpoint pow10 (n : nat) (x : Z) : Z :=
  match n with
  | O => x
  | S n' => pow10 n' (x * 10)
  end.

(** [parseNanoseconds(value, nbytes)]: the separator and [nbytes - 1]
    digits at the head of [value] as nanoseconds. *)
Definition parseNanoseconds (value : string) (nbytes : nat) : option Z :=
  match value with
  | String c _ =>
      if commaOrPeriod c then
        let '(value, nbytes) :=
          if (10 <? nbytes)%nat then (substring 0 10 value, 10%nat)
          else (value, nbytes) in
        match atoi (substring 1 (nbytes - 1) value) with
        | Some ns =>
            if ns <? 0 then None else Some (pow10 (10 - nbytes) ns)
        | None => None
        end
      else None
  | EmptyString => None
  end.

(** The fields [parse] collects. *)
Record parsed : Type := mkParsed {
  p_year : Z; p_month : Z; p_day : Z;
  p_hour : Z; p_min : Z; p_sec : Z; p_nsec : Z;
  p_z : option Location;
  p_zoneOffset : Z
}.

Definition parsed0 : parsed := mkParsed 0 (-1) (-1) 0 0 0 0 None (-1).

(** The number of digits at the head of [s]. *)
Fixpoint digitRun (s : string) : nat :=
  match s with
  | String c s' => if isDigitChar c then S (digitRun s') else O
  | EmptyString => O
  end.

Definition dropn (n : nat) (s : string) : string :=
  substring n (String.length s - n) s.

(** A numeric zone offset at the head of [value]: sign, two digits of
    hours, and with [minutes] two digits of minutes, after a colon with
    [colon]. *)
Definition parseZone (value : string) (colon minutes : bool) : option (Z * string) :=
  let fields :=
    if colon then
      if (String.length value <? 6)%nat then None
      else
        match get 3 value with
        | Some c =>
            if Ascii.eqb c ":" then
              Some (substring 0 1 value, substring 1 2 value,
                    substring 4 2 value, dropn 6 value)
            else None
        | None => None
        end
    else if minutes then
      if (String.length value <? 5)%nat then None
      else Some (substring 0 1 value, substring 1 2 value,
                 substring 3 2 value, dropn 5 value)
    else
      if (String.length value <? 3)%nat then None
      else Some (substring 0 1 value, substring 1 2 value, "00"%string, dropn 3 value) in
  match fields with
  | Some (sign, hour, min, value) =>
      match getnum hour true with
      | Some (hr, _) =>
          match getnum min true with
          | Some (mm, _) =>
              if (hr >? 24) || (mm >? 60) then None
              else
                let zoneOffset := (hr * 60 + mm) * 60 + 0 in
                match sign with
                | String c _ =>
                    if Ascii.eqb c "+" then Some (zoneOffset, value)
                    else if Ascii.eqb c "-" then Some (- zoneOffset, value)
                    else None
                | EmptyString => None
                end
          | None => None
          end
      | None => None
      end
  | None => None
  end.

Definition set_zone (st : parsed) (r : option (Z * string)) : option (parsed * string) :=
  match r with
  | Some (off, value) =>
      Some (mkParsed (p_year st) (p_month st) (p_day st) (p_hour st) (p_min st)
                     (p_sec st) (p_nsec st) (p_z st) off, value)
  | None => None
  end.

Definition set_UTC (st : parsed) (value : string) : option (parsed * string) :=
  Some (mkParsed (p_year st) (p_month st) (p_day st) (p_hour st) (p_min st)
                 (p_sec st) (p_nsec st) (Some UTC) (p_zoneOffset st), value).

Definition set_nsec (st : parsed) (ns : Z) : parsed :=
  mkParsed (p_year st) (p_month st) (p_day st) (p_hour st) (p_min st)
           (p_sec st) ns (p_z st) (p_zoneOffset st).

Definition startsWithZ (value : string) : option string :=
  match value with
  | String c value' => if Ascii.eqb c "Z" then Some value' else None
  | EmptyString => None
  end.

Definition isFracSecond (sd : option std) : bool :=
  match sd with
  | Some (stdFracSecond0 _ _) | Some (stdFracSecond9 _ _) => true
  | _ => false
  end.

(** One layout element read from [value]: an arm of the [switch] in
    [parse]; [layout] is the layout after the element.  [None] is a
    failure ([errBad] or a value out of range).  Elements outside
    [stdModelled] fail. *)
Definition parseStd (sd : std) (layout value : string) (st : parsed)
    : option (parsed * string) :=
  match sd with
  | stdLongYear =>
      if (String.length value <? 4)%nat || negb (isDigit0 value) then None
      else
        match atoi (substring 0 4 value) with
        | Some year =>
            Some (mkParsed year (p_month st) (p_day st) (p_hour st) (p_min st)
                           (p_sec st) (p_nsec st) (p_z st) (p_zoneOffset st),
                  dropn 4 value)
        | None => None
        end
  | stdNumMonth | stdZeroMonth =>
      match getnum value (match sd with stdZeroMonth => true | _ => false end) with
      | Some (month, value) =>
          if (month <=? 0) || (12 <? month) then None
          else Some (mkParsed (p_year st) month (p_day st) (p_hour st) (p_min st)
                              (p_sec st) (p_nsec st) (p_z st) (p_zoneOffset st), value)
      | None => None
      end
  | stdDay | stdZeroDay =>
      match getnum value (match sd with stdZeroDay => true | _ => false end) with
      | Some (day, value) =>
          Some (mkParsed (p_year st) (p_month st) day (p_hour st) (p_min st)
                         (p_sec st) (p_nsec st) (p_z st) (p_zoneOffset st), value)
      | None => None
      end
  | stdHour =>
      match getnum value false with
      | Some (hour, value) =>
          if (hour <? 0) || (24 <=? hour) then None
          else Some (mkParsed (p_year st) (p_month st) (p_day st) hour (p_min st)
                              (p_sec st) (p_nsec st) (p_z st) (p_zoneOffset st), value)
      | None => None
      end
  | stdMinute | stdZeroMinute =>
      match getnum value (match sd with stdZeroMinute => true | _ => false end) with
      | Some (min, value) =>
          if (min <? 0) || (60 <=? min) then None
          else Some (mkParsed (p_year st) (p_month st) (p_day st) (p_hour st) min
                              (p_sec st) (p_nsec st) (p_z st) (p_zoneOffset st), value)
      | None => None
      end
  | stdSecond | stdZeroSecond =>
      match getnum value (match sd with stdZeroSecond => true | _ => false end) with
      | Some (sec, value) =>
          if (sec <? 0) || (60 <=? sec) then None
          else
            let st := mkParsed (p_year st) (p_month st) (p_day st) (p_hour st)
                               (p_min st) sec (p_nsec st) (p_z st) (p_zoneOffset st) in
            (* a fractional second in the input but none in the layout *)
            match value with
            | String c0 (String c1 _) =>
                if commaOrPeriod c0 && isDigitChar c1 then
                  if isFracSecond (snd (fst (nextStdChunk layout))) then Some (st, value)
                  else
                    let n := (1 + digitRun (dropn 1 value))%nat in
                    match parseNanoseconds value n with
                    | Some ns => Some (set_nsec st ns, dropn n value)
                    | None => None
                    end
                else Some (st, value)
            | _ => Some (st, value)
            end
      | None => None
      end
  | stdISO8601TZ =>
      match startsWithZ value with
      | Some value' => set_UTC st value'
      | None => set_zone st (parseZone value false true)
      end
  | stdISO8601ColonTZ =>
      match startsWithZ value with
      | Some value' => set_UTC st value'
      | None => set_zone st (parseZone value true true)
      end
  | stdISO8601ShortTZ =>
      match startsWithZ value with
      | Some value' => set_UTC st value'
      | None => set_zone st (parseZone value false false)
      end
  | stdNumTZ => set_zone st (parseZone value false true)
  | stdNumColonTZ => set_zone st (parseZone value true true)
  | stdNumShortTZ => set_zone st (parseZone value false false)
  | stdFracSecond0 n _ =>
      let ndigit := (1 + n)%nat in
      if (String.length value <? ndigit)%nat then None
      else
        match parseNanoseconds value ndigit with
        | Some ns => Some (set_nsec st ns, dropn ndigit value)
        | None => None
        end
  | stdFracSecond9 _ _ =>
      match value with
      | String c0 (String c1 _) =>
          if commaOrPeriod c0 && isDigitChar c1 then
            let i := digitRun (dropn 1 value) in
            match parseNanoseconds value (1 + i) with
            | Some ns => Some (set_nsec st ns, dropn (1 + i) value)
            | None => None
            end
          else Some (st, value)          (* fractional second omitted *)
      | _ => Some (st, value)
      end
  | _ => None
  end.

(** The loop of [parse]: literal text, then one element, until the
    layout is used up; text left over in [value] is an error. *)
Fixpoint parseLoop (fuel : nat) (layout value : string) (st : parsed)
    : option parsed :=
  match fuel with
  | O => None
  | S fuel' =>
      let '(prefix, sd, suffix) := nextStdChunk layout in
      match skip value prefix with
      | None => None
      | Some value =>
          match sd with
          | None =>
              match value with
              | EmptyString => Some st
              | _ => None                        (* extra text *)
              end
          | Some sd =>
              match parseStd sd suffix value st with
              | Some (st, value) => parseLoop fuel' suffix value st
              | None => None
              end
          end
      end
  end.

(** [parse(layout, value, defaultLocation, local)] *)
Definition parse (layout value : string) (defaultLocation local : Location)
    : Time * option error :=
  match parseLoop (S (String.length layout)) layout value parsed0 with
  | None => (zero, Some (ParseError layout value))
  | Some st =>
      let month := if p_month st <? 0 then 1 else p_month st in
      let day := if p_day st <? 0 then 1 else p_day st in
      if (day <? 1) || (day >? daysIn month (p_year st)) then
        (zero, Some (ParseError layout value))       (* day out of range *)
      else
        match p_z st with
        | Some z =>
            (Date (p_year st) month day (p_hour st) (p_min st) (p_sec st)
                  (p_nsec st) z, None)
        | None =>
            if negb (p_zoneOffset st =? -1) then
              let t := Date (p_year st) month day (p_hour st) (p_min st)
                            (p_sec st) (p_nsec st) UTC in
              let t := mkTime (sec t - p_zoneOffset st) (nsec t) (loc t) in
              (* the local zone when it has this offset, else a fabricated one *)
              if zoneOffset local =? p_zoneOffset st
              then (mkTime (sec t) (nsec t) local, None)
              else (mkTime (sec t) (nsec t)
                           (FixedZone EmptyString (p_zoneOffset st)), None)
            else
              (Date (p_year st) month day (p_hour st) (p_min st) (p_sec st)
                    (p_nsec st) defaultLocation, None)
        end
  end.

(** [time.Parse] and [time.ParseInLocation]; [Local] is the zone of the
    system the program runs on. *)
Definition Parse (Local : Location) (layout value : string) : Time * option error :=
  parse layout value UTC Local.

Definition ParseInLocation (layout value : string) (loc : Location)
    : Time * option error :=
  parse layout value loc loc.

Definition RFC3339 : string := "2006-01-02T15:04:05Z07:00".
Definition RFC3339Nano : string := "2006-01-02T15:04:05.999999999Z07:00".

(** [Time.MarshalText], [Time.MarshalJSON] and their inverses, as in Go
    up to 1.19: the year is checked, then the RFC 3339 layouts are used
    (later releases also refuse zone offsets of 24 hours and more and
    parse more strictly). *)
Definition dquote : ascii := "034".

Definition quoted (s : string) : string :=
  String dquote (s ++ String dquote EmptyString)%string.

Definition Time_MarshalText (t : Time) : string * option error :=
  if (Time_Year t <? 0) || (Time_Year t >=? 10000) then
    (EmptyString, Some (errorsNew "Time.MarshalText: year outside of range [0,9999]"))
  else (Time_Format t RFC3339Nano, None).

Definition Time_MarshalJSON (t : Time) : string * option error :=
  if (Time_Year t <? 0) || (Time_Year t >=? 10000) then
    (EmptyString, Some (errorsNew "Time.MarshalJSON: year outside of range [0,9999]"))
  else (quoted (Time_Format t RFC3339Nano), None).

Definition Time_UnmarshalText (Local : Location) (t : Time) (data : string)
    : Time * option error :=
  Parse Local RFC3339 data.

Definition Time_UnmarshalJSON (Local : Location) (t : Time) (data : string)
    : Time * option error :=
  if String.eqb data "null" then (t, None)
  else Parse Local (quoted RFC3339) data.

Definition Time_IsZero (t : Time) : bool := (sec t =? 0) && (nsec t =? 0).

End time.

(* ================================================================= *)
(** ** Values of interface type and conversions *)

(** A [float64], as its sign, mantissa and exponent. *)
Definition float64 : Type := spec_float.

Definition minInt64 : Z := - 2 ^ 63.
Definition maxInt64 : Z := 2 ^ 63 - 1.

(** [int64(v)] for a [float64]: the fraction is discarded.  What a value
    outside [int64] converts to is left to the implementation by the
    language; the model takes the smallest [int64], as amd64 does. *)
Definition int64_of_float64 (v : float64) : Z :=
  match v with
  | S754_zero _ => 0
  | S754_finite s m e =>
      let mag := if e >=? 0 then Z.pos m * 2 ^ e else Z.pos m / 2 ^ (- e) in
      let z := if s then - mag else mag in
      if (minInt64 <=? z) && (z <=? maxInt64) then z else minInt64
  | _ => minInt64
  end.

(** [[]byte(s)] and [string(b)] *)
Definition bytes_of_string (s : string) : list byte := list_byte_of_string s.
Definition string_of_bytes (b : list byte) : string := string_of_list_byte b.

(** A value of type [any] as [Scan] tells them apart: [nil], the five
    dynamic types of the type switches, or a value of another type,
    given by the name [%T] prints for it. *)
Inductive any : Type :=
| any_nil
| any_int64 (v : Z)
| any_float64 (v : float64)
| any_string (v : string)
| any_bytes (v : list byte)
| any_Time (v : time.Time)
| any_other (T : string).

(** What [%T] prints. *)
Definition typeName (value : any) : string :=
  match value with
  | any_nil => "<nil>"
  | any_int64 _ => "int64"
  | any_float64 _ => "float64"
  | any_string _ => "string"
  | any_bytes _ => "[]uint8"
  | any_Time _ => "time.Time"
  | any_other T => T
  end.

(** [encoding/binary]: [LittleEndian.PutUint32] and [LittleEndian.Uint32]. *)
Definition uint32 (z : Z) : Z := z mod 2 ^ 32.
Definition PutUint32 (v : Z) : list byte := le_split 4 v.
Definition Uint32 (b : list byte) : Z := le_combine (firstn 4 b).

(* ================================================================= *)
(** ** chrono *)

Section chrono.

(** The zone of the system ([time.Local]). *)
Variable Local : time.Location.

(* ----------------------------------------------------------------- *)
(** *** date.go *)

Definition dateLayout : string := "2006-01-02".
Definition quotedDateLayout : string := time.quoted dateLayout.

Record Date : Type := mkDate { Date_t : time.Time }.

Definition NewDate (year month day : Z) : Date :=
  mkDate (time.Date year month day 0 0 0 0 time.UTC).

Definition DateFromStdTime (t : time.Time) : Date :=
  mkDate (time.Date (time.Time_Year t) (time.Time_Month t) (time.Time_Day t)
                    0 0 0 0 time.UTC).


Definition DateFromString (str : string) : Date * option error :=
  let '(t, err) := time.ParseInLocation dateLayout str time.UTC in
  match err with
  | Some err => (mkDate time.zero, Some (fmtErrorfWrap "failed to parse date: %w" [] err))
  | None => (DateFromStdTime t, None)
  end.

Definition DateFromLayout (layout str : string) : Date * option error :=
  let '(t, err) := time.ParseInLocation layout str time.UTC in
  match err with
  | Some err => (mkDate time.zero, Some (fmtErrorfWrap "failed to parse date: %w" [] err))
  | None => (DateFromStdTime t, None)
  end.

Definition DateFromUnix (sec nsec : Z) : Date :=
  DateFromStdTime (time.Time_UTC (time.Unix Local sec nsec)).

Definition DateFromUnixMicro (usec : Z) : Date :=
  DateFromStdTime (time.Time_UTC (time.UnixMicro Local usec)).

Definition DateFromUnixMilli (msec : Z) : Date :=
  DateFromStdTime (time.Time_UTC (time.UnixMilli Local msec)).

Definition Date_ToStdTime (d : Date) : time.Time :=
  time.Date (time.Time_Year (Date_t d)) (time.Time_Month (Date_t d))
            (time.Time_Day (Date_t d)) 0 0 0 0 time.UTC.

Definition Date_AddDate (d : Date) (years months days : Z) : Date :=
  DateFromStdTime (time.Time_AddDate (Date_t d) years months days).

Definition Date_Date (d : Date) : Z * Z * Z := time.Time_Date (Date_t d).
Definition Date_Day (d : Date) : Z := time.Time_Day (Date_t d).
Definition Date_Month (d : Date) : Z := time.Time_Month (Date_t d).
Definition Date_Year (d : Date) : Z := time.Time_Year (Date_t d).

Definition Date_PreviousMonthLastDay (d : Date) : Date :=
  let '(year, month, _) := Date_Date d in
  NewDate year month 0.

Definition Date_AddMonthsNoOverflow (d : Date) (m : Z) : Date :=
  let addedDate := Date_AddDate d 0 m 0 in
  if negb (Date_Day d =? Date_Day addedDate) then
    Date_PreviousMonthLastDay addedDate
  else addedDate.

Definition Date_After (d rhs : Date) : bool := time.Time_After (Date_t d) (Date_t rhs).
Definition Date_AfterOrEqual (d rhs : Date) : bool :=
  time.Time_After (Date_t d) (Date_t rhs) || time.Time_Equal (Date_t d) (Date_t rhs).
Definition Date_Before (d rhs : Date) : bool := time.Time_Before (Date_t d) (Date_t rhs).
Definition Date_BeforeOrEqual (d rhs : Date) : bool :=
  time.Time_Before (Date_t d) (Date_t rhs) || time.Time_Equal (Date_t d) (Date_t rhs).
Definition Date_Between (d start end_ : Date) : bool :=
  time.Time_After (Date_t d) (Date_t start) && time.Time_Before (Date_t d) (Date_t end_).
Definition Date_BetweenOrEqual (d start end_ : Date) : bool :=
  Date_AfterOrEqual d start && Date_BeforeOrEqual d end_.
Definition Date_Equal (d rhs : Date) : bool := time.Time_Equal (Date_t d) (Date_t rhs).

Definition Date_Format (d : Date) (layout : string) : string :=
  time.Time_Format (Date_t d) layout.
Definition Date_IsZero (d : Date) : bool := time.Time_IsZero (Date_t d).
Definition Date_String (d : Date) : string := time.Time_Format (Date_t d) dateLayout.
Definition Date_Unix (d : Date) : Z := time.Time_Unix (Date_t d).
Definition Date_UnixMicro (d : Date) : Z := time.Time_UnixMicro (Date_t d).
Definition Date_UnixMilli (d : Date) : Z := time.Time_UnixMilli (Date_t d).
Definition Date_UnixNano (d : Date) : Z := time.Time_UnixNano (Date_t d).
Definition Date_Weekday (d : Date) : Z := time.Time_Weekday (Date_t d).
Definition Date_YearDay (d : Date) : Z := time.Time_YearDay (Date_t d).

Definition Date_MarshalBinary (d : Date) : list byte * option error :=
  let out := 0 in
  let '(y, m, day) := time.Time_Date (Date_t d) in
  (* Year = 14 bits, Month = 4 bits, Day = 5 bits *)
  let out := Z.lor out (uint32 y) in
  let out := Z.lor out (uint32 (Z.shiftl (uint32 m) 14)) in
  let out := Z.lor out (uint32 (Z.shiftl (uint32 day) (14 + 4))) in
  (PutUint32 out, None).

Definition Date_MarshalJSON (d : Date) : list byte * option error :=
  (bytes_of_string (time.quoted (Date_String d)), None).

Definition Date_MarshalText (d : Date) : list byte * option error :=
  (bytes_of_string (Date_String d), None).

Definition Date_UnmarshalBinary (d : Date) (data : list byte) : Date * option error :=
  if negb (List.length data =? 4)%nat then
    (d, Some (errorsNew "failed to unmarshal date, incorrect number of bytes"))
  else
    let in_ := Uint32 data in
    let y := Z.land in_ 16383 in
    let m := Z.land (Z.shiftr in_ 14) 15 in
    let day := Z.land (Z.shiftr in_ (14 + 4)) 31 in
    (NewDate y m day, None).

Definition Date_UnmarshalJSON (d : Date) (data : list byte) : Date * option error :=
  let '(t, err) := time.Parse Local quotedDateLayout (string_of_bytes data) in
  match err with
  | Some err =>
      (d, Some (fmtErrorfWrap "failed to unmarshal date (%q): %w"
                              [string_of_bytes data] err))
  | None => (DateFromStdTime t, None)
  end.

Definition Date_UnmarshalText (d : Date) (data : list byte) : Date * option error :=
  let '(t, err) := time.Parse Local dateLayout (string_of_bytes data) in
  match err with
  | Some err =>
      (d, Some (fmtErrorfWrap "failed to unmarshal date (%q): %w"
                              [string_of_bytes data] err))
  | None => (DateFromStdTime t, None)
  end.

Definition Date_Value (d : Date) : any * option error :=
  (any_string (time.Time_Format (Date_t d) dateLayout), None).

Definition Date_Scan (d : Date) (value : any) : Date * option error :=
  match value with
  | any_nil => (mkDate time.zero, None)
  | any_int64 v => (DateFromUnix v 0, None)
  | any_float64 v => (DateFromUnix (int64_of_float64 v) 0, None)
  | any_string v =>
      let '(t, err) := time.Parse Local dateLayout v in
      match err with
      | Some err => (d, Some (fmtErrorfWrap "failed to scan date (%q): %w" [v] err))
      | None => (mkDate t, None)
      end
  | any_bytes v =>
      let '(t, err) := time.Parse Local dateLayout (string_of_bytes v) in
      match err with
      | Some err =>
          (d, Some (fmtErrorfWrap "failed to scan date (%q): %w" [string_of_bytes v] err))
      | None => (mkDate t, None)
      end
  | any_Time v => (DateFromStdTime v, None)
  | any_other _ =>
      (d, Some (fmtErrorf "failed to scan type '%T' into date" [typeName value]))
  end.

(* ----------------------------------------------------------------- *)
(** *** time.go *)

Definition timeLayout : string := "15:04:05Z07:00".
Definition quotedTimeLayout : string := time.quoted timeLayout.
Definition TimeSQLLayout : string := "15:04:05.999999-07".

Record Time : Type := mkTimeOfDay { Time_t : time.Time }.

Definition NewTime (hour min sec nsec : Z) (loc : time.Location) : Time :=
  mkTimeOfDay (time.Date 0 1 1 hour min sec nsec time.UTC).

Definition TimeFromNow (now : time.Time) : Time := mkTimeOfDay now.

Definition TimeFromString (str : string) : Time * option error :=
  let '(t, err) := time.Parse Local timeLayout str in
  match err with
  | Some err =>
      (mkTimeOfDay time.zero, Some (fmtErrorfWrap "failed to parse time (%s): %w" [str] err))
  | None => (mkTimeOfDay t, None)
  end.

Definition TimeFromStringLocation (str : string) (loc : time.Location)
    : Time * option error :=
  let '(t, err) := time.ParseInLocation timeLayout str loc in
  match err with
  | Some err =>
      (mkTimeOfDay time.zero, Some (fmtErrorfWrap "failed to parse time (%s): %w" [str] err))
  | None => (mkTimeOfDay t, None)
  end.

Definition TimeFromLayout (layout str : string) : Time * option error :=
  let '(t, err) := time.Parse Local layout str in
  match err with
  | Some err =>
      (mkTimeOfDay time.zero, Some (fmtErrorfWrap "failed to parse time (%s): %w" [str] err))
  | None => (mkTimeOfDay t, None)
  end.

Definition TimeFromLayoutLocation (layout str : string) (loc : time.Location)
    : Time * option error :=
  let '(t, err) := time.ParseInLocation timeLayout str loc in
  match err with
  | Some err =>
      (mkTimeOfDay time.zero, Some (fmtErrorfWrap "failed to parse time (%s): %w" [str] err))
  | None => (mkTimeOfDay t, None)
  end.

Definition TimeFromStdTime (t : time.Time) : Time :=
  mkTimeOfDay (time.Date 0 1 1 (time.Time_Hour t) (time.Time_Minute t)
                         (time.Time_Second t) (time.Time_Nanosecond t)
                         (time.Time_Location t)).

Definition TimeFromUnix (sec nsec : Z) : Time :=
  TimeFromStdTime (time.Time_UTC (time.Unix Local sec nsec)).

Definition TimeFromUnixMicro (usec : Z) : Time :=
  TimeFromStdTime (time.Time_UTC (time.UnixMicro Local usec)).

Definition TimeFromUnixMilli (msec : Z) : Time :=
  TimeFromStdTime (time.Time_UTC (time.UnixMilli Local msec)).

Definition Time_ToStdTime (t : Time) : time.Time :=
  time.Date 0 1 1 (time.Time_Hour (Time_t t)) (time.Time_Minute (Time_t t))
            (time.Time_Second (Time_t t)) (time.Time_Nanosecond (Time_t t))
            (time.Time_Location (Time_t t)).

Definition Time_Add (t : Time) (dur : Z) : Time :=
  TimeFromStdTime (time.Time_Add (Time_t t) dur).

Definition Time_After (t rhs : Time) : bool := time.Time_After (Time_t t) (Time_t rhs).
Definition Time_AfterOrEqual (t rhs : Time) : bool :=
  time.Time_After (Time_t t) (Time_t rhs) || time.Time_Equal (Time_t t) (Time_t rhs).
Definition Time_Before (t rhs : Time) : bool := time.Time_Before (Time_t t) (Time_t rhs).
Definition Time_BeforeOrEqual (t rhs : Time) : bool :=
  time.Time_Before (Time_t t) (Time_t rhs) || time.Time_Equal (Time_t t) (Time_t rhs).
Definition Time_Between (t start end_ : Time) : bool :=
  time.Time_After (Time_t t) (Time_t start) && time.Time_Before (Time_t t) (Time_t end_).
Definition Time_BetweenOrEqual (t start end_ : Time) : bool :=
  Time_AfterOrEqual t start && Time_BeforeOrEqual t end_.
Definition Time_Equal (t rhs : Time) : bool := time.Time_Equal (Time_t t) (Time_t rhs).

Definition Time_String (t : Time) : string := time.Time_Format (Time_t t) timeLayout.

Definition Time_MarshalJSON (t : Time) : list byte * option error :=
  (bytes_of_string (time.Time_Format (Time_t t) quotedTimeLayout), None).

Definition Time_MarshalText (t : Time) : list byte * option error :=
  (bytes_of_string (Time_String t), None).

Definition Time_UnmarshalJSON (d : Time) (data : list byte) : Time * option error :=
  let '(t, err) := time.Parse Local quotedTimeLayout (string_of_bytes data) in
  match err with
  | Some err =>
      (d, Some (fmtErrorfWrap "failed to unmarshal time (%q): %w"
                              [string_of_bytes data] err))
  | None => (mkTimeOfDay t, None)
  end.

Definition Time_UnmarshalText (d : Time) (data : list byte) : Time * option error :=
  let '(t, err) := time.Parse Local timeLayout (string_of_bytes data) in
  match err with
  | Some err =>
      (d, Some (fmtErrorfWrap "failed to unmarshal time (%q): %w"
                              [string_of_bytes data] err))
  | None => (mkTimeOfDay t, None)
  end.

Definition Time_Clock (t : Time) : Z * Z * Z := time.Time_Clock (Time_t t).
Definition Time_Format (t : Time) (layout : string) : string :=
  time.Time_Format (Time_t t) layout.
Definition Time_Hour (t : Time) : Z := time.Time_Hour (Time_t t).
Definition Time_In (t : Time) (loc : time.Location) : Time :=
  mkTimeOfDay (time.Time_In (Time_t t) loc).
Definition Time_IsZero (t : Time) : bool := time.Time_IsZero (Time_t t).
Definition Time_Local (t : Time) : Time := mkTimeOfDay (time.Time_In (Time_t t) Local).
Definition Time_Location (t : Time) : time.Location := time.Time_Location (Time_t t).
Definition Time_Minute (t : Time) : Z := time.Time_Minute (Time_t t).
Definition Time_Nanosecond (t : Time) : Z := time.Time_Nanosecond (Time_t t).
Definition Time_Second (t : Time) : Z := time.Time_Second (Time_t t).
Definition Time_Sub (t u : Time) : Z := time.Time_Sub (Time_t t) (Time_t u).
Definition Time_UTC (t : Time) : Time := mkTimeOfDay (time.Time_UTC (Time_t t)).

Definition Time_Value (t : Time) : any * option error :=
  (any_string (time.Time_Format (Time_t t) TimeSQLLayout), None).

Definition Time_Scan (t : Time) (value : any) : Time * option error :=
  match value with
  | any_nil => (mkTimeOfDay time.zero, None)
  | any_int64 v => (TimeFromUnix v 0, None)
  | any_float64 v => (TimeFromUnix (int64_of_float64 v) 0, None)
  | any_string v =>
      let '(newt, err) := time.Parse Local TimeSQLLayout v in
      match err with
      | Some err => (t, Some (fmtErrorfWrap "failed to scan time (%q): %w" [v] err))
      | None => (mkTimeOfDay newt, None)
      end
  | any_bytes v =>
      let '(newt, err) := time.Parse Local TimeSQLLayout (string_of_bytes v) in
      match err with
      | Some err =>
          (t, Some (fmtErrorfWrap "failed to scan time (%q): %w" [string_of_bytes v] err))
      | None => (mkTimeOfDay newt, None)
      end
  | any_Time v => (TimeFromStdTime v, None)
  | any_other _ =>
      (t, Some (fmtErrorf "failed to scan type '%T' into time" [typeName value]))
  end.

(* ----------------------------------------------------------------- *)
(** *** date_time.go *)

Definition dateTimeSQLLayout : string := "2006-01-02 15:04:05-07".

Record DateTime : Type := mkDateTime { DateTime_t : time.Time }.

Definition NewDateTime (year month day hour min sec nsec : Z)
    (loc : time.Location) : DateTime :=
  mkDateTime (time.Date year month day hour min sec nsec loc).

Definition DateTimeFromNow (now : time.Time) : DateTime := mkDateTime now.

Definition DateTimeFromString (str : string) : DateTime * option error :=
  let '(t, err) := time.Parse Local time.RFC3339 str in
  match err with
  | Some err =>
      (mkDateTime time.zero,
       Some (fmtErrorfWrap "failed to parse datetime (%s): %w" [str] err))
  | None => (mkDateTime t, None)
  end.

Definition DateTimeFromStringLocation (str : string) (loc : time.Location)
    : DateTime * option error :=
  let '(t, err) := time.ParseInLocation time.RFC3339 str loc in
  match err with
  | Some err =>
      (mkDateTime time.zero,
       Some (fmtErrorfWrap "failed to parse datetime (%s): %w" [str] err))
  | None => (mkDateTime t, None)
  end.

Definition DateTimeFromLayout (layout str : string) : DateTime * option error :=
  let '(t, err) := time.Parse Local layout str in
  match err with
  | Some err =>
      (mkDateTime time.zero,
       Some (fmtErrorfWrap "failed to parse datetime (%s): %w" [str] err))
  | None => (mkDateTime t, None)
  end.

Definition DateTimeFromLayoutLocation (layout str : string) (loc : time.Location)
    : DateTime * option error :=
  let '(t, err) := time.ParseInLocation layout str loc in
  match err with
  | Some err =>
      (mkDateTime time.zero,
       Some (fmtErrorfWrap "failed to parse datetime (%s): %w" [str] err))
  | None => (mkDateTime t, None)
  end.

Definition DateTimeFromUnix (sec nsec : Z) : DateTime :=
  mkDateTime (time.Unix Local sec nsec).
Definition DateTimeFromUnixMicro (usec : Z) : DateTime :=
  mkDateTime (time.UnixMicro Local usec).
Definition DateTimeFromUnixMilli (msec : Z) : DateTime :=
  mkDateTime (time.UnixMilli Local msec).
Definition DateTimeFromStdTime (t : time.Time) : DateTime := mkDateTime t.
Definition DateTime_ToStdTime (d : DateTime) : time.Time := DateTime_t d.

Definition DateTime_Add (d : DateTime) (dur : Z) : DateTime :=
  mkDateTime (time.Time_Add (DateTime_t d) dur).
Definition DateTime_AddDate (d : DateTime) (years months days : Z) : DateTime :=
  mkDateTime (time.Time_AddDate (DateTime_t d) years months days).

Definition DateTime_After (d rhs : DateTime) : bool :=
  time.Time_After (DateTime_t d) (DateTime_t rhs).
Definition DateTime_AfterOrEqual (d rhs : DateTime) : bool :=
  time.Time_After (DateTime_t d) (DateTime_t rhs)
  || time.Time_Equal (DateTime_t d) (DateTime_t rhs).
Definition DateTime_Before (d rhs : DateTime) : bool :=
  time.Time_Before (DateTime_t d) (DateTime_t rhs).
Definition DateTime_BeforeOrEqual (d rhs : DateTime) : bool :=
  time.Time_Before (DateTime_t d) (DateTime_t rhs)
  || time.Time_Equal (DateTime_t d) (DateTime_t rhs).
Definition DateTime_Equal (d rhs : DateTime) : bool :=
  time.Time_Equal (DateTime_t d) (DateTime_t rhs).

Definition DateTime_Date (d : DateTime) : Z * Z * Z := time.Time_Date (DateTime_t d).
Definition DateTime_Year (d : DateTime) : Z := time.Time_Year (DateTime_t d).
Definition DateTime_Month (d : DateTime) : Z := time.Time_Month (DateTime_t d).
Definition DateTime_Day (d : DateTime) : Z := time.Time_Day (DateTime_t d).
Definition DateTime_Clock (d : DateTime) : Z * Z * Z := time.Time_Clock (DateTime_t d).
Definition DateTime_Hour (d : DateTime) : Z := time.Time_Hour (DateTime_t d).
Definition DateTime_Minute (d : DateTime) : Z := time.Time_Minute (DateTime_t d).
Definition DateTime_Second (d : DateTime) : Z := time.Time_Second (DateTime_t d).
Definition DateTime_Nanosecond (d : DateTime) : Z := time.Time_Nanosecond (DateTime_t d).
Definition DateTime_Location (d : DateTime) : time.Location :=
  time.Time_Location (DateTime_t d).
Definition DateTime_Unix (d : DateTime) : Z := time.Time_Unix (DateTime_t d).
Definition DateTime_UnixMicro (d : DateTime) : Z := time.Time_UnixMicro (DateTime_t d).
Definition DateTime_UnixMilli (d : DateTime) : Z := time.Time_UnixMilli (DateTime_t d).
Definition DateTime_UnixNano (d : DateTime) : Z := time.Time_UnixNano (DateTime_t d).
Definition DateTime_Weekday (d : DateTime) : Z := time.Time_Weekday (DateTime_t d).
Definition DateTime_YearDay (d : DateTime) : Z := time.Time_YearDay (DateTime_t d).
Definition DateTime_IsZero (d : DateTime) : bool := time.Time_IsZero (DateTime_t d).
Definition DateTime_In (d : DateTime) (loc : time.Location) : DateTime :=
  mkDateTime (time.Time_In (DateTime_t d) loc).
Definition DateTime_Local (d : DateTime) : DateTime :=
  mkDateTime (time.Time_In (DateTime_t d) Local).
Definition DateTime_UTC (d : DateTime) : DateTime :=
  mkDateTime (time.Time_UTC (DateTime_t d)).
Definition DateTime_Sub (d u : DateTime) : Z :=
  time.Time_Sub (DateTime_t d) (DateTime_t u).
Definition DateTime_Format (d : DateTime) (layout : string) : string :=
  time.Time_Format (DateTime_t d) layout.
Definition DateTime_String (d : DateTime) : string :=
  time.Time_Format (DateTime_t d) time.RFC3339.

Definition DateTime_MarshalJSON (d : DateTime) : list byte * option error :=
  let '(s, err) := time.Time_MarshalJSON (DateTime_t d) in
  (bytes_of_string s, err).

Definition DateTime_MarshalText (d : DateTime) : list byte * option error :=
  let '(s, err) := time.Time_MarshalText (DateTime_t d) in
  (bytes_of_string s, err).

Definition DateTime_UnmarshalJSON (d : DateTime) (data : list byte)
    : DateTime * option error :=
  let '(t, err) := time.Time_UnmarshalJSON Local time.zero (string_of_bytes data) in
  match err with
  | Some err =>
      (d, Some (fmtErrorfWrap "failed to unmarshal DateTime (%q): %w"
                              [string_of_bytes data] err))
  | None => (mkDateTime t, None)
  end.

Definition DateTime_UnmarshalText (d : DateTime) (data : list byte)
    : DateTime * option error :=
  let '(t, err) := time.Time_UnmarshalText Local time.zero (string_of_bytes data) in
  match err with
  | Some err =>
      (d, Some (fmtErrorfWrap "failed to unmarshal DateTime (%q): %w"
                              [string_of_bytes data] err))
  | None => (mkDateTime t, None)
  end.

Definition DateTime_Value (d : DateTime) : any * option error :=
  (any_string (time.Time_Format (DateTime_t d) dateTimeSQLLayout), None).

Definition DateTime_Scan (d : DateTime) (value : any) : DateTime * option error :=
  match value with
  | any_int64 v => (mkDateTime (time.Time_UTC (time.Unix Local v 0)), None)
  | any_float64 v =>
      (mkDateTime (time.Time_UTC (time.Unix Local (int64_of_float64 v) 0)), None)
  | any_string v =>
      let '(t, err) := time.Parse Local dateTimeSQLLayout v in
      match err with
      | Some err => (d, Some (fmtErrorfWrap "failed to scan datetime (%q): %w" [v] err))
      | None => (mkDateTime t, None)
      end
  | any_bytes v =>
      let '(t, err) := time.Parse Local dateTimeSQLLayout (string_of_bytes v) in
      match err with
      | Some err =>
          (d, Some (fmtErrorfWrap "failed to scan datetime (%q): %w"
                                  [string_of_bytes v] err))
      | None => (mkDateTime t, None)
      end
  | _ => (d, Some (fmtErrorf "failed to scan type '%T' into datetime" [typeName value]))
  end.

End chrono.

(* ================================================================= *)
(** ** Definitions used to state the properties *)

Module aux.
Import time.

Definition yearLen (y : Z) : Z := if isLeap y then 366 else 365.

(** The leap-year rule on the cycle coordinates of a year. *)
Definition leapCycles (q100 q4 n1 : Z) : bool :=
  (n1 =? 3) && (negb (q4 =? 24) || (q100 =? 3)).

Definition leapAdj (leap : bool) (m : Z) : Z :=
  if leap && (m >=? 3) then 1 else 0.

Definition monthLen (leap : bool) (m : Z) : Z :=
  if (m =? 2) && leap then 29 else daysBefore m - daysBefore (m - 1).

Definition ydayOf (leap : bool) (m d : Z) : Z :=
  daysBefore (m - 1) + leapAdj leap m + (d - 1).

Definition Zrange (lo : Z) (n : nat) : list Z :=
  map (fun i => lo + Z.of_nat i) (seq 0 n).

Definition pairEqb (a b : Z * Z) : bool :=
  (fst a =? fst b) && (snd a =? snd b).

(** The day number of a calendar date, as [time.Date] computes it. *)
Definition civilDays (y m d : Z) : Z :=
  daysSinceEpoch y + ydayOf (isLeap y) m d.

(** A [time.Time] as Go builds them: the nanoseconds are below a second. *)
Definition wf (t : Time) : Prop := 0 <= nsec t < 1000000000.


Definition sameDate (a b : parsed) : Prop :=
  p_year a = p_year b /\ p_month a = p_month b /\ p_day a = p_day b.

Definition clockRange (a : parsed) : Prop :=
  0 <= p_hour a < 24 /\ 0 <= p_min a < 60 /\ 0 <= p_sec a < 60 /\
  0 <= p_nsec a < 1000000000.


Definition isClockStd (sd : std) : bool :=
  match sd with
  | stdHour | stdMinute | stdZeroMinute | stdSecond | stdZeroSecond
  | stdISO8601TZ | stdISO8601ShortTZ | stdISO8601ColonTZ
  | stdNumTZ | stdNumShortTZ | stdNumColonTZ
  | stdFracSecond0 _ _ | stdFracSecond9 _ _ => true
  | _ => false
  end.

(** Every element of the layout satisfies [P]. *)
Fixpoint layoutAll (P : std -> bool) (fuel : nat) (layout : string) : bool :=
  match fuel with
  | O => true
  | S fuel' =>
      match nextStdChunk layout with
      | (_, None, _) => true
      | (_, Some sd, suffix) => P sd && layoutAll P fuel' suffix
      end
  end.

(** Two and four digits, as strings. *)
Definition fmt2 (x : Z) : string :=
  String (digitChar (x / 10)) (String (digitChar (x mod 10)) EmptyString).

Definition fmt4 (x : Z) : string :=
  String (digitChar (x / 1000))
    (String (digitChar (x / 100 mod 10))
       (String (digitChar (x / 10 mod 10))
          (String (digitChar (x mod 10)) EmptyString))).

(** A text that does not go on with a fractional second. *)
Definition noFraction (rest : string) : Prop :=
  match rest with
  | String c _ => commaOrPeriod c = false
  | EmptyString => True
  end.

(** The text of a numeric zone offset. *)
Definition fmtZone (off : Z) (colon minutes : bool) : string :=
  let zone := Z.quot off 60 in
  let az := Z.abs zone in
  String (if zone <? 0 then "-"%char else "+"%char)
    (fmt2 (az / 60) ++
       ((if colon then ":" else EmptyString) ++
          (if minutes then fmt2 (az mod 60) else EmptyString)))%string.

(** The zone as the [Z07:00] element writes it. *)
Definition fmtZoneISO (off : Z) : string :=
  if off =? 0 then "Z"%string else fmtZone off true true.

(** The texts of the date and of the clock. *)
Definition fmtDate (y m d : Z) (rest : string) : string :=
  (fmt4 y ++ String "-" (fmt2 m ++ String "-" (fmt2 d ++ rest)))%string.

Definition fmtClock (h mi s : Z) (rest : string) : string :=
  (fmt2 h ++ String ":" (fmt2 mi ++ String ":" (fmt2 s ++ rest)))%string.

Fixpoint allDigits (s : string) : bool :=
  match s with
  | EmptyString => true
  | String c s' => isDigitChar c && allDigits s'
  end.

(** The last character of a trimmed digit string is not a separator. *)
Fixpoint lastOf (s : string) : option ascii :=
  match s with
  | EmptyString => None
  | String c EmptyString => Some c
  | String _ s' => lastOf s'
  end.

(** The text [appendNano] adds for a layout with [n] nines. *)
Definition fracText (n : nat) (ns : Z) : string :=
  if (n =? 0)%nat || (ns =? 0) then EmptyString
  else
    match trimZeros (substring 0 n (fixedDigits 9 ns)) with
    | EmptyString => EmptyString
    | ds => String "." ds
    end.

(** What [parse] makes of the fields it read. *)
Definition reparsed (y m d h mi s ns off : Z) (utc : bool) (dl local : Location) : Time :=
  if utc then Date y m d h mi s ns UTC
  else
    let t := Date y m d h mi s ns UTC in
    if zoneOffset local =? off then mkTime (sec t - off) (nsec t) local
    else mkTime (sec t - off) (nsec t) (FixedZone EmptyString off).

(** The wall clock of an instant, in nanoseconds since midnight. *)
Definition clockNanos (t : Time) : Z :=
  (Time_Hour t * 3600 + Time_Minute t * 60 + Time_Second t) * 1000000000
  + Time_Nanosecond t.

End aux.

(** The 32-bit word [Date.MarshalBinary] packs. *)
Definition packDate (y m day : Z) : Z :=
  Z.lor (Z.lor (Z.lor 0 (uint32 y)) (uint32 (Z.shiftl (uint32 m) 14)))
        (uint32 (Z.shiftl (uint32 day) (14 + 4))).

(** A calendar date that exists. *)
Definition validDate (y m d : Z) : Prop :=
  1 <= m <= 12 /\ 1 <= d <= time.daysIn m y.

(** The year and month [n] months after month [m] of year [y]. *)
Definition targetYear (y m n : Z) : Z := y + (m + n - 1) / 12.
Definition targetMonth (m n : Z) : Z := (m + n - 1) mod 12 + 1.

(** The clock of a [Date]: midnight, in UTC. *)
Definition DateInv (d : Date) : Prop :=
  time.Time_Hour (Date_t d) = 0 /\ time.Time_Minute (Date_t d) = 0 /\
  time.Time_Second (Date_t d) = 0 /\ time.Time_Nanosecond (Date_t d) = 0 /\
  time.Time_Location (Date_t d) = time.UTC.

(** The calendar date of a [Time]: January 1 of year 0. *)
Definition TimeInv (t : Time) : Prop :=
  time.Time_Year (Time_t t) = 0 /\ time.Time_Month (Time_t t) = 1 /\
  time.Time_Day (Time_t t) = 1.



(* ================================================================= *)
(** ** Properties *)

Module timeFacts.
Import time aux.

Lemma isLeap_mod y :
  isLeap y = (y mod 4 =? 0) && (negb (y mod 100 =? 0) || (y mod 400 =? 0)).
Proof.
  unfold isLeap.
  repeat match goal with |- context [?a =? ?b] => destruct (Z.eqb_spec a b) end;
    simpl; auto; lia.
Qed.

Lemma div_eq a b q : 0 < b -> b * q <= a < b * (q + 1) -> a / b = q.
Proof. intros Hb H. symmetry. apply (Z.div_unique a b q (a - b * q)); lia. Qed.

Lemma isLeap_cycles q400 q100 q4 n1 :
  0 <= q100 <= 3 -> 0 <= q4 <= 24 -> 0 <= n1 <= 3 ->
  isLeap (400 * q400 + 100 * q100 + 4 * q4 + n1 + 1) = leapCycles q100 q4 n1.
Proof.
  intros. rewrite isLeap_mod. unfold leapCycles.
  repeat match goal with |- context [?a =? ?b] => destruct (Z.eqb_spec a b) end;
    simpl; auto; lia.
Qed.

Lemma daysSinceEpoch_cycles q400 q100 q4 n1 :
  0 <= q100 <= 3 -> 0 <= q4 <= 24 -> 0 <= n1 <= 3 ->
  daysSinceEpoch (400 * q400 + 100 * q100 + 4 * q4 + n1 + 1)
  = 146097 * q400 + 36524 * q100 + 1461 * q4 + 365 * n1.
Proof.
  intros H100 H4 H1. unfold daysSinceEpoch, daysPer400Years, daysPer100Years, daysPer4Years.
  cbv zeta.
  replace (400 * q400 + 100 * q100 + 4 * q4 + n1 + 1 - 1)
    with (400 * q400 + 100 * q100 + 4 * q4 + n1) by lia.
  rewrite (div_eq _ 400 q400) by lia.
  replace (400 * q400 + 100 * q100 + 4 * q4 + n1 - 400 * q400)
    with (100 * q100 + 4 * q4 + n1) by lia.
  rewrite (div_eq _ 100 q100) by lia.
  replace (100 * q100 + 4 * q4 + n1 - 100 * q100) with (4 * q4 + n1) by lia.
  rewrite (div_eq _ 4 q4) by lia.
  lia.
Qed.

Lemma year_cycles y :
  exists q400 q100 q4 n1,
    0 <= q100 <= 3 /\ 0 <= q4 <= 24 /\ 0 <= n1 <= 3 /\
    y = 400 * q400 + 100 * q100 + 4 * q4 + n1 + 1.
Proof.
  exists ((y - 1) / 400), ((y - 1) mod 400 / 100),
         ((y - 1) mod 400 mod 100 / 4), ((y - 1) mod 400 mod 100 mod 4).
  lia.
Qed.

Lemma absYear_cycles q400 q100 q4 n1 yd :
  0 <= q100 <= 3 -> 0 <= q4 <= 24 -> 0 <= n1 <= 3 ->
  0 <= yd < (if leapCycles q100 q4 n1 then 366 else 365) ->
  absYear (146097 * q400 + 36524 * q100 + 1461 * q4 + 365 * n1 + yd)
  = (400 * q400 + 100 * q100 + 4 * q4 + n1 + 1, yd).
Proof.
  intros H100 H4 H1 Hyd.
  unfold absYear, daysPer400Years, daysPer100Years, daysPer4Years; cbv zeta.
  assert (Hb : 0 <= yd <= 365 /\ (n1 = 3 /\ (q4 <> 24 \/ q100 = 3) \/ yd < 365)).
  { unfold leapCycles in Hyd.
    repeat match type of Hyd with context [?a =? ?b] => destruct (Z.eqb_spec a b) end;
      simpl in Hyd; lia. }
  clear Hyd.
  change (365 * 400 + 97) with 146097. change (365 * 100 + 24) with 36524.
  change (365 * 4 + 1) with 1461.
  rewrite (div_eq _ 146097 q400) by lia.
  replace (146097 * q400 + 36524 * q100 + 1461 * q4 + 365 * n1 + yd - 146097 * q400)
    with (36524 * q100 + 1461 * q4 + 365 * n1 + yd) by lia.
  assert (E1 : (36524 * q100 + 1461 * q4 + 365 * n1 + yd) / 36524
               - Z.shiftr ((36524 * q100 + 1461 * q4 + 365 * n1 + yd) / 36524) 2 = q100).
  { rewrite Z.shiftr_div_pow2 by lia. change (2 ^ 2) with 4. lia. }
  rewrite E1.
  replace (36524 * q100 + 1461 * q4 + 365 * n1 + yd - 36524 * q100)
    with (1461 * q4 + 365 * n1 + yd) by lia.
  assert (E2 : (1461 * q4 + 365 * n1 + yd) / 1461 = q4) by lia.
  rewrite E2.
  replace (1461 * q4 + 365 * n1 + yd - 1461 * q4) with (365 * n1 + yd) by lia.
  assert (E3 : (365 * n1 + yd) / 365 - Z.shiftr ((365 * n1 + yd) / 365) 2 = n1).
  { rewrite Z.shiftr_div_pow2 by lia. change (2 ^ 2) with 4. lia. }
  rewrite E3. f_equal; lia.
Qed.

(** civil year -> days -> civil year *)
Lemma absYear_daysSinceEpoch y yd :
  0 <= yd < yearLen y -> absYear (daysSinceEpoch y + yd) = (y, yd).
Proof.
  destruct (year_cycles y) as (q400 & q100 & q4 & n1 & H100 & H4 & H1 & ->).
  unfold yearLen. rewrite isLeap_cycles, daysSinceEpoch_cycles by assumption.
  apply absYear_cycles; assumption.
Qed.

(** days -> civil year -> days *)
Lemma absYear_inv d :
  0 <= snd (absYear d) < yearLen (fst (absYear d)) /\
  daysSinceEpoch (fst (absYear d)) + snd (absYear d) = d.
Proof.
  set (q400 := d / 146097).
  set (r := d mod 146097).
  set (q100 := Z.min (r / 36524) 3).
  set (r2 := r - 36524 * q100).
  set (q4 := r2 / 1461).
  set (r3 := r2 - 1461 * q4).
  set (n1 := Z.min (r3 / 365) 3).
  set (yd := r3 - 365 * n1).
  assert (Hr : 0 <= r < 146097) by (subst r; lia).
  assert (H100 : 0 <= q100 <= 3) by (subst q100; lia).
  assert (Hr2 : 0 <= r2 <= 36524 /\ (r2 = 36524 -> q100 = 3)) by (subst r2 q100; lia).
  assert (H4 : 0 <= q4 <= 24) by (subst q4; lia).
  assert (Hr3 : 0 <= r3 <= 1460 /\ (q4 = 24 -> q100 <> 3 -> r3 < 1460)) by (subst r3 q4; lia).
  assert (H1 : 0 <= n1 <= 3) by (subst n1; lia).
  assert (Hyd : 0 <= yd < (if leapCycles q100 q4 n1 then 366 else 365)).
  { unfold leapCycles.
    repeat match goal with |- context [?a =? ?b] => destruct (Z.eqb_spec a b) end;
      simpl; subst yd n1; lia. }
  assert (Hd : d = 146097 * q400 + 36524 * q100 + 1461 * q4 + 365 * n1 + yd).
  { subst yd r3 r2 r q400. lia. }
  clearbody yd n1 q4 q100 q400. clear Hr Hr2 Hr3. clear r3 r2 r. subst d.
  rewrite absYear_cycles by assumption. cbn [fst snd].
  unfold yearLen. rewrite isLeap_cycles, daysSinceEpoch_cycles by assumption.
  split; [assumption | lia].
Qed.

Lemma norm_spec hi lo base :
  0 < base -> norm hi lo base = (hi + lo / base, lo mod base).
Proof.
  intros Hb. unfold norm.
  destruct (Z.ltb_spec lo 0) as [Hneg|Hpos].
  - set (q := (- lo - 1) / base).
    assert (Hq : base * q <= - lo - 1 < base * (q + 1)).
    { pose proof (Z.div_mod (- lo - 1) base ltac:(lia)) as E.
      pose proof (Z.mod_pos_bound (- lo - 1) base Hb) as B.
      fold q in E. nia. }
    assert (Hlo : lo / base = - (q + 1)) by (apply div_eq; nia).
    assert (Hm : lo mod base = lo + (q + 1) * base).
    { rewrite Z.mod_eq by lia. rewrite Hlo. nia. }
    destruct (Z.geb_spec (lo + (q + 1) * base) base) as [Hge|Hlt].
    + exfalso. nia.
    + rewrite Hlo, Hm. f_equal; lia.
  - destruct (Z.geb_spec lo base) as [Hge|Hlt].
    + rewrite Z.mod_eq by lia. f_equal; nia.
    + rewrite Z.div_small, Z.mod_small by lia. f_equal; lia.
Qed.

Lemma norm_id hi lo base : 0 <= lo < base -> norm hi lo base = (hi, lo).
Proof.
  intros H. rewrite norm_spec by lia.
  rewrite Z.div_small, Z.mod_small by lia. f_equal; lia.
Qed.

(** Case analysis on a month number. *)
Ltac month_cases m :=
  let H := fresh in
  assert (H : m = 1 \/ m = 2 \/ m = 3 \/ m = 4 \/ m = 5 \/ m = 6 \/
              m = 7 \/ m = 8 \/ m = 9 \/ m = 10 \/ m = 11 \/ m = 12) by lia;
  repeat (destruct H as [H|H]; [subst m|]); [..|subst m].

Lemma daysIn_monthLen m y : daysIn m y = monthLen (isLeap y) m.
Proof. reflexivity. Qed.

Lemma monthLen_bounds leap m : 1 <= m <= 12 -> 28 <= monthLen leap m <= 31.
Proof. intros H. month_cases m; destruct leap; cbv; split; discriminate. Qed.

(** Evaluate the calendar tables at closed arguments. *)
Ltac eval_tab :=
  repeat match goal with
  | |- context [daysBefore ?x] =>
      let v := eval vm_compute in (daysBefore x) in
      progress change (daysBefore x) with v
  | |- context [monthLen ?l ?x] =>
      let v := eval vm_compute in (monthLen l x) in
      progress change (monthLen l x) with v
  | |- context [leapAdj ?l ?x] =>
      let v := eval vm_compute in (leapAdj l x) in
      progress change (leapAdj l x) with v
  end.

Lemma forallb_Zrange (P : Z -> bool) lo n :
  forallb P (Zrange lo n) = true ->
  forall z, lo <= z < lo + Z.of_nat n -> P z = true.
Proof.
  intros H z Hz. rewrite forallb_forall in H. apply H.
  unfold Zrange. apply in_map_iff. exists (Z.to_nat (z - lo)). split.
  - lia.
  - apply in_seq. lia.
Qed.

Lemma pairEqb_eq a b : pairEqb a b = true -> a = b.
Proof.
  destruct a, b. unfold pairEqb. cbn [fst snd]. intros H.
  apply andb_prop in H. destruct H as [H1 H2].
  apply Z.eqb_eq in H1. apply Z.eqb_eq in H2. congruence.
Qed.

(** month and day -> day of the year -> month and day *)
Lemma absMonthDay_ydayOf leap m d :
  1 <= m <= 12 -> 1 <= d <= monthLen leap m ->
  absMonthDay leap (ydayOf leap m d) = (m, d).
Proof.
  intros Hm Hd.
  pose (P := fun leap m d =>
    if d <=? monthLen leap m then pairEqb (absMonthDay leap (ydayOf leap m d)) (m, d)
    else true).
  assert (Hall : forall leap,
    forallb (fun m => forallb (P leap m) (Zrange 1 31)) (Zrange 1 12) = true).
  { intros [|]; vm_compute; reflexivity. }
  pose proof (forallb_Zrange _ _ _ (Hall leap) m ltac:(lia)) as H1.
  cbv beta in H1.
  pose proof (monthLen_bounds leap m Hm).
  pose proof (forallb_Zrange _ _ _ H1 d ltac:(lia)) as H2.
  unfold P in H2.
  destruct (Z.leb_spec d (monthLen leap m)); [|lia].
  apply pairEqb_eq. exact H2.
Qed.

Lemma ydayOf_range leap m d :
  1 <= m <= 12 -> 1 <= d <= monthLen leap m ->
  0 <= ydayOf leap m d < (if leap then 366 else 365).
Proof.
  intros Hm Hd. unfold ydayOf.
  revert Hd. month_cases m; destruct leap; eval_tab; lia.
Qed.

(** day of the year -> month and day -> day of the year *)
Lemma absMonthDay_inv (leap : bool) (yday : Z) :
  0 <= yday < (if leap then 366 else 365) ->
  exists m d, absMonthDay leap yday = (m, d) /\
    1 <= m <= 12 /\ 1 <= d <= monthLen leap m /\ ydayOf leap m d = yday.
Proof.
  intros Hy.
  pose (P := fun leap yday =>
    let m := fst (absMonthDay leap yday) in
    let d := snd (absMonthDay leap yday) in
    (1 <=? m) && (m <=? 12) && (1 <=? d) && (d <=? monthLen leap m)
    && (ydayOf leap m d =? yday)).
  assert (Hall : forallb (P true) (Zrange 0 366) = true
                 /\ forallb (P false) (Zrange 0 365) = true).
  { split; vm_compute; reflexivity. }
  assert (H : P leap yday = true).
  { destruct leap; [apply (forallb_Zrange _ 0 366) | apply (forallb_Zrange _ 0 365)];
      try apply Hall; lia. }
  unfold P in H. destruct (absMonthDay leap yday) as [m d]. cbn [fst snd] in H.
  exists m, d. rewrite !andb_true_iff in H. repeat split; lia.
Qed.

(** An overflowing day of the month rolls into the next month. *)
Lemma ydayOf_overflow leap m d :
  1 <= m <= 11 ->
  ydayOf leap m d = ydayOf leap (m + 1) (d - monthLen leap m).
Proof.
  intros Hm. unfold ydayOf.
  month_cases m; try lia; destruct leap; eval_tab; lia.
Qed.

(** Day zero is the last day of the month before. *)
Lemma ydayOf_day0 leap m :
  2 <= m <= 12 ->
  ydayOf leap m 0 = ydayOf leap (m - 1) (monthLen leap (m - 1)).
Proof.
  intros Hm. unfold ydayOf.
  month_cases m; try lia; destruct leap; eval_tab; lia.
Qed.

Lemma daysSinceEpoch_succ y :
  daysSinceEpoch (y + 1) = daysSinceEpoch y + yearLen y.
Proof.
  destruct (year_cycles y) as (q400 & q100 & q4 & n1 & H100 & H4 & H1 & ->).
  unfold yearLen.
  rewrite isLeap_cycles, (daysSinceEpoch_cycles q400 q100 q4 n1) by assumption.
  unfold leapCycles.
  destruct (Z.eqb_spec n1 3) as [E1|E1]; cbn [andb].
  - destruct (Z.eqb_spec q4 24) as [E4|E4]; cbn [negb orb].
    + destruct (Z.eqb_spec q100 3) as [E100|E100].
      * replace (400 * q400 + 100 * q100 + 4 * q4 + n1 + 1 + 1)
          with (400 * (q400 + 1) + 100 * 0 + 4 * 0 + 0 + 1) by lia.
        rewrite daysSinceEpoch_cycles by lia. lia.
      * replace (400 * q400 + 100 * q100 + 4 * q4 + n1 + 1 + 1)
          with (400 * q400 + 100 * (q100 + 1) + 4 * 0 + 0 + 1) by lia.
        rewrite daysSinceEpoch_cycles by lia. lia.
    + replace (400 * q400 + 100 * q100 + 4 * q4 + n1 + 1 + 1)
        with (400 * q400 + 100 * q100 + 4 * (q4 + 1) + 0 + 1) by lia.
      rewrite daysSinceEpoch_cycles by lia. lia.
  - replace (400 * q400 + 100 * q100 + 4 * q4 + n1 + 1 + 1)
      with (400 * q400 + 100 * q100 + 4 * q4 + (n1 + 1) + 1) by lia.
    rewrite daysSinceEpoch_cycles by lia. lia.
Qed.

(** *** The calendar round trips of [time.Date] *)

Lemma absDate_civilDays y m d s :
  1 <= m <= 12 -> 1 <= d <= daysIn m y -> 0 <= s < 86400 ->
  absDate (civilDays y m d * 86400 + s) = (y, m, d).
Proof.
  intros Hm Hd Hs. unfold absDate, civilDays, secondsPerDay, secondsPerHour, secondsPerMinute.
  change (24 * (60 * 60)) with 86400.
  rewrite (div_eq _ 86400 (daysSinceEpoch y + ydayOf (isLeap y) m d)) by lia.
  rewrite daysIn_monthLen in Hd.
  pose proof (ydayOf_range (isLeap y) m d Hm Hd) as Hr.
  rewrite absYear_daysSinceEpoch by (unfold yearLen; exact Hr).
  rewrite absMonthDay_ydayOf by assumption. reflexivity.
Qed.

Lemma absDate_inv a :
  exists y m d, absDate a = (y, m, d) /\
    1 <= m <= 12 /\ 1 <= d <= daysIn m y /\
    civilDays y m d = a / 86400.
Proof.
  unfold absDate, secondsPerDay, secondsPerHour, secondsPerMinute.
  change (24 * (60 * 60)) with 86400.
  destruct (absYear_inv (a / 86400)) as [Hr He].
  destruct (absYear (a / 86400)) as [y yd]. cbn [fst snd] in Hr, He.
  destruct (absMonthDay_inv (isLeap y) yd Hr) as (m & d & E & Hm & Hd & Hy).
  rewrite E. exists y, m, d. rewrite daysIn_monthLen. unfold civilDays.
  repeat split; try lia.
Qed.

Lemma Date_sec y m d h mi s ns l :
  1 <= m <= 12 -> 0 <= h < 24 -> 0 <= mi < 60 -> 0 <= s < 60 ->
  0 <= ns < 1000000000 ->
  Date y m d h mi s ns l
  = mkTime (civilDays y m d * 86400 + (h * 3600 + mi * 60 + s) - zoneOffset l) ns l.
Proof.
  intros Hm Hh Hmi Hs Hns. unfold Date.
  rewrite (norm_id y (m - 1) 12) by lia.
  rewrite (norm_id s ns), (norm_id mi s), (norm_id h mi), (norm_id d h) by lia.
  unfold civilDays, ydayOf, leapAdj, secondsPerDay, secondsPerHour, secondsPerMinute.
  replace (m - 1 + 1) with m by lia.
  f_equal. destruct (isLeap y && (m >=? 3)); lia.
Qed.

(** *** Reading back what [time.Date] built *)

Lemma Time_Date_Date y m d h mi s ns l :
  1 <= m <= 12 -> 1 <= d <= daysIn m y ->
  0 <= h < 24 -> 0 <= mi < 60 -> 0 <= s < 60 -> 0 <= ns < 1000000000 ->
  Time_Date (Date y m d h mi s ns l) = (y, m, d).
Proof.
  intros Hm Hd Hh Hmi Hs Hns. rewrite Date_sec by assumption.
  unfold Time_Date, abs. cbn [sec loc].
  replace (civilDays y m d * 86400 + (h * 3600 + mi * 60 + s) - zoneOffset l + zoneOffset l)
    with (civilDays y m d * 86400 + (h * 3600 + mi * 60 + s)) by lia.
  apply absDate_civilDays; lia.
Qed.

Lemma Time_Clock_Date y m d h mi s ns l :
  1 <= m <= 12 ->
  0 <= h < 24 -> 0 <= mi < 60 -> 0 <= s < 60 -> 0 <= ns < 1000000000 ->
  Time_Hour (Date y m d h mi s ns l) = h /\
  Time_Minute (Date y m d h mi s ns l) = mi /\
  Time_Second (Date y m d h mi s ns l) = s /\
  Time_Nanosecond (Date y m d h mi s ns l) = ns /\
  Time_Location (Date y m d h mi s ns l) = l.
Proof.
  intros Hm Hh Hmi Hs Hns. rewrite Date_sec by assumption.
  unfold Time_Hour, Time_Minute, Time_Second, Time_Nanosecond, Time_Location, abs,
    secondsPerDay, secondsPerHour, secondsPerMinute.
  cbn [sec nsec loc].
  replace (civilDays y m d * 86400 + (h * 3600 + mi * 60 + s) - zoneOffset l + zoneOffset l)
    with (civilDays y m d * 86400 + (h * 3600 + mi * 60 + s)) by lia.
  generalize (civilDays y m d). intros c.
  change (24 * (60 * 60)) with 86400. change (60 * 60) with 3600.
  repeat split; lia.
Qed.

(** A month outside 1..12 is carried into the year. *)
Lemma Date_norm_month y mm d h mi s ns l :
  Date y mm d h mi s ns l
  = Date (y + (mm - 1) / 12) ((mm - 1) mod 12 + 1) d h mi s ns l.
Proof.
  unfold Date. rewrite (norm_spec y (mm - 1) 12) by lia.
  replace ((mm - 1) mod 12 + 1 - 1) with ((mm - 1) mod 12) by lia.
  rewrite (norm_id (y + (mm - 1) / 12) ((mm - 1) mod 12) 12) by lia.
  replace ((mm - 1) mod 12 + 1 - 1) with ((mm - 1) mod 12) by lia.
  reflexivity.
Qed.

(** A day past the end of the month is the same instant as a day of the
    next month; day zero is the last day of the month before. *)
Lemma Date_day_overflow y m d l :
  1 <= m <= 11 ->
  Date y m d 0 0 0 0 l = Date y (m + 1) (d - daysIn m y) 0 0 0 0 l.
Proof.
  intros Hm. rewrite !Date_sec by lia. f_equal.
  unfold civilDays. rewrite (ydayOf_overflow (isLeap y) m d Hm), daysIn_monthLen.
  reflexivity.
Qed.

Lemma Date_day_zero y m l :
  2 <= m <= 12 ->
  Date y m 0 0 0 0 0 l = Date y (m - 1) (daysIn (m - 1) y) 0 0 0 0 l.
Proof.
  intros Hm. rewrite !Date_sec by lia. f_equal.
  unfold civilDays. rewrite (ydayOf_day0 (isLeap y) m Hm), daysIn_monthLen.
  reflexivity.
Qed.

End timeFacts.

Ltac bitblast_neg :=
  Z.bitblast; subst;
  repeat match goal with
  | |- context [Z.testbit ?a ?i] =>
      rewrite (Z.testbit_neg_r a i) by lia
  end;
  try btauto.

Lemma packDate_range y m day : 0 <= packDate y m day < 2 ^ 32.
Proof.
  unfold packDate, uint32.
  assert (H : forall a b, 0 <= a < 2 ^ 32 -> 0 <= b < 2 ^ 32 -> 0 <= Z.lor a b < 2 ^ 32).
  { intros a b Ha Hb. split.
    - apply Z.lor_nonneg; lia.
    - destruct (Z.eq_dec (Z.lor a b) 0) as [E|E]; [rewrite E; lia|].
      apply Z.log2_lt_pow2; [pose proof (proj2 (Z.lor_nonneg a b)); lia|].
      rewrite Z.log2_lor by lia.
      destruct (Z.eq_dec a 0), (Z.eq_dec b 0); subst; cbn [Z.log2]; try lia.
      + rewrite Z.max_r; [apply Z.log2_lt_pow2; lia | apply Z.log2_nonneg].
      + rewrite Z.max_l; [apply Z.log2_lt_pow2; lia | apply Z.log2_nonneg].
      + apply Z.max_lub_lt; apply Z.log2_lt_pow2; lia. }
  repeat apply H; try (apply Z.mod_pos_bound; lia). lia.
Qed.

Lemma packDate_year y m day : Z.land (packDate y m day) 16383 = y mod 2 ^ 14.
Proof.
  unfold packDate, uint32. change 16383 with (Z.ones 14). change (14 + 4) with 18.
  bitblast_neg.
Qed.

Lemma packDate_month y m day :
  Z.land (Z.shiftr (packDate y m day) 14) 15
  = Z.lor ((y / 2 ^ 14) mod 2 ^ 4) (m mod 2 ^ 4).
Proof.
  unfold packDate, uint32. change 15 with (Z.ones 4). change (14 + 4) with 18.
  bitblast_neg.
Qed.

Lemma packDate_day y m day :
  Z.land (Z.shiftr (packDate y m day) (14 + 4)) 31
  = Z.lor (Z.lor ((y / 2 ^ 18) mod 2 ^ 5) ((m / 2 ^ 4) mod 2 ^ 5)) (day mod 2 ^ 5).
Proof.
  unfold packDate, uint32. change 31 with (Z.ones 5). change (14 + 4) with 18.
  bitblast_neg.
Qed.

Lemma NewDate_fields y m d :
  1 <= m <= 12 -> 1 <= d <= time.daysIn m y ->
  Date_Date (NewDate y m d) = (y, m, d).
Proof.
  intros Hm Hd. unfold Date_Date, NewDate. cbn [Date_t].
  apply timeFacts.Time_Date_Date; lia.
Qed.

Lemma NewDate_ymd y m d :
  1 <= m <= 12 -> 1 <= d <= time.daysIn m y ->
  Date_Year (NewDate y m d) = y /\ Date_Month (NewDate y m d) = m /\
  Date_Day (NewDate y m d) = d.
Proof.
  intros Hm Hd. pose proof (NewDate_fields y m d Hm Hd) as E.
  unfold Date_Year, Date_Month, Date_Day, time.Time_Year, time.Time_Month,
    time.Time_Day. unfold Date_Date in E. rewrite E. auto.
Qed.

Lemma DateFromStdTime_Date y m d h mi s ns l :
  1 <= m <= 12 -> 1 <= d <= time.daysIn m y ->
  0 <= h < 24 -> 0 <= mi < 60 -> 0 <= s < 60 -> 0 <= ns < 1000000000 ->
  DateFromStdTime (time.Date y m d h mi s ns l) = NewDate y m d.
Proof.
  intros. unfold DateFromStdTime, time.Time_Year, time.Time_Month, time.Time_Day.
  rewrite timeFacts.Time_Date_Date by assumption. reflexivity.
Qed.


(** *** The binary codec of [Date] *)

Lemma Uint32_PutUint32 v : 0 <= v < 2 ^ 32 -> Uint32 (PutUint32 v) = v.
Proof.
  intros Hv. unfold Uint32, PutUint32.
  rewrite <- (length_le_split 4 v) at 1. rewrite firstn_all.
  rewrite le_combine_split. apply Z.mod_small. exact Hv.
Qed.

Lemma Date_MarshalBinary_pack d :
  Date_MarshalBinary d =
  (PutUint32 (packDate (Date_Year d) (Date_Month d) (Date_Day d)), None).
Proof.
  unfold Date_MarshalBinary, Date_Year, Date_Month, Date_Day,
    time.Time_Year, time.Time_Month, time.Time_Day.
  destruct (time.Time_Date (Date_t d)) as [[y m] day]. reflexivity.
Qed.

(** What decoding an encoded date yields, for any date. *)
Lemma Date_binary_decode d0 d :
  Date_UnmarshalBinary d0 (fst (Date_MarshalBinary d)) =
  (NewDate (Date_Year d mod 2 ^ 14)
           (Z.lor ((Date_Year d / 2 ^ 14) mod 2 ^ 4) (Date_Month d mod 2 ^ 4))
           (Z.lor (Z.lor ((Date_Year d / 2 ^ 18) mod 2 ^ 5)
                         ((Date_Month d / 2 ^ 4) mod 2 ^ 5))
                  (Date_Day d mod 2 ^ 5)),
   None).
Proof.
  rewrite Date_MarshalBinary_pack. cbn [fst]. unfold Date_UnmarshalBinary.
  unfold PutUint32 at 1. rewrite length_le_split. cbn [Nat.eqb negb].
  rewrite Uint32_PutUint32 by apply packDate_range.
  rewrite packDate_year, packDate_month, packDate_day. reflexivity.
Qed.

Lemma validDate_day y m d : validDate y m d -> 1 <= d <= 31.
Proof.
  intros [Hm Hd]. rewrite timeFacts.daysIn_monthLen in Hd.
  pose proof (timeFacts.monthLen_bounds (time.isLeap y) m Hm). lia.
Qed.

(** C1: for every valid date with year in [0, 16383], decoding the four
    bytes that [MarshalBinary] produces gives back the same [Date]. *)
Theorem C1_binary_roundtrip (y m d : Z) (d0 : Date) :
  0 <= y <= 16383 -> validDate y m d ->
  snd (Date_MarshalBinary (NewDate y m d)) = None /\
  Date_UnmarshalBinary d0 (fst (Date_MarshalBinary (NewDate y m d)))
  = (NewDate y m d, None).
Proof.
  intros Hy Hv. split; [rewrite Date_MarshalBinary_pack; reflexivity|].
  pose proof (validDate_day y m d Hv) as Hd31. destruct Hv as [Hm Hd].
  rewrite Date_binary_decode.
  destruct (NewDate_ymd y m d Hm Hd) as (-> & -> & ->).
  rewrite (Z.mod_small y), (Z.div_small y (2 ^ 14)), (Z.div_small y (2 ^ 18)),
    (Z.mod_small m), (Z.div_small m), (Z.mod_small d) by lia.
  rewrite !Z.mod_0_l by lia. rewrite !Z.lor_0_l. reflexivity.
Qed.

Lemma C1_binary_roundtrip_witness :
  Date_UnmarshalBinary (NewDate 1 1 1) (fst (Date_MarshalBinary (NewDate 2000 2 29)))
  = (NewDate 2000 2 29, None).
Proof.
  apply (C1_binary_roundtrip 2000 2 29 (NewDate 1 1 1)).
  - lia.
  - unfold validDate. vm_compute. repeat split; discriminate.
Defined.




(** C9 fails on the code at 16384-02-01: encoding and decoding gives
    0000-03-01, so the month is not kept. *)
Lemma C9_counterexample :
  let d := NewDate 16384 2 1 in
  let d' := fst (Date_UnmarshalBinary d (fst (Date_MarshalBinary d))) in
  ~ (Date_Year d' = 16384 mod 16384 /\ Date_Month d' = Date_Month d /\
     Date_Day d' = Date_Day d).
Proof.
  cbv zeta. intros (_ & H & _). vm_compute in H. discriminate.
Qed.

(** C9 fails on the code: [MarshalBinary] writes the year without the
    14-bit mask that its comment and [UnmarshalBinary] assume, so for a
    year of 16384 or more the decoded date is built from the year modulo
    16384, the month OR-ed with bits 14-17 of the year and the day OR-ed
    with bits 18-22 of the year.  The claim holds of the dates for which
    those nine bits of the year are zero and the day exists in that month
    of the wrapped year: then the decoded date has the year modulo 16384
    and the month and day unchanged. *)
Theorem C9_year_out_of_range (y m d : Z) (d0 : Date) :
  16384 <= y -> validDate y m d ->
  Date_UnmarshalBinary d0 (fst (Date_MarshalBinary (NewDate y m d)))
  = (NewDate (y mod 16384)
             (Z.lor ((y / 2 ^ 14) mod 2 ^ 4) m)
             (Z.lor ((y / 2 ^ 18) mod 2 ^ 5) d), None)
  /\ ((y / 2 ^ 14) mod 2 ^ 9 = 0 -> validDate (y mod 16384) m d ->
      let d' := fst (Date_UnmarshalBinary d0 (fst (Date_MarshalBinary (NewDate y m d)))) in
      Date_Year d' = y mod 16384 /\ Date_Month d' = m /\ Date_Day d' = d).
Proof.
  intros Hy Hv.
  pose proof (validDate_day y m d Hv) as Hd31. destruct Hv as [Hm Hd].
  assert (E : Date_UnmarshalBinary d0 (fst (Date_MarshalBinary (NewDate y m d)))
    = (NewDate (y mod 16384) (Z.lor ((y / 2 ^ 14) mod 2 ^ 4) m)
               (Z.lor ((y / 2 ^ 18) mod 2 ^ 5) d), None)).
  { rewrite Date_binary_decode.
    destruct (NewDate_ymd y m d Hm Hd) as (-> & -> & ->).
    rewrite (Z.mod_small m), (Z.div_small m), (Z.mod_small d) by lia.
    rewrite Z.mod_0_l by lia. rewrite Z.lor_0_r. reflexivity. }
  split; [exact E|].
  intros Hbits [Hm' Hd']. cbv zeta. rewrite E. cbn [fst].
  assert (E4 : (y / 2 ^ 14) mod 2 ^ 4 = 0) by lia.
  assert (E5 : (y / 2 ^ 18) mod 2 ^ 5 = 0) by lia.
  rewrite E4, E5, !Z.lor_0_l.
  apply NewDate_ymd; assumption.
Qed.

Lemma C9_year_out_of_range_witness :
  Date_UnmarshalBinary (NewDate 1 1 1) (fst (Date_MarshalBinary (NewDate 8390608 2 28)))
  = (NewDate 2000 2 28, None).
Proof.
  destruct (C9_year_out_of_range 8390608 2 28 (NewDate 1 1 1)) as [H _].
  - lia.
  - unfold validDate. vm_compute. repeat split; discriminate.
  - exact H.
Defined.

(** *** Month arithmetic *)

Lemma daysIn_december y : time.daysIn 12 y = 31.
Proof. reflexivity. Qed.

Lemma Date_AddDate_months y m d n :
  validDate y m d ->
  Date_AddDate (NewDate y m d) 0 n 0
  = if d <=? time.daysIn (targetMonth m n) (targetYear y m n)
    then NewDate (targetYear y m n) (targetMonth m n) d
    else NewDate (targetYear y m n) (targetMonth m n + 1)
                 (d - time.daysIn (targetMonth m n) (targetYear y m n)).
Proof.
  intros Hv. pose proof (validDate_day y m d Hv) as Hd31. destruct Hv as [Hm Hd].
  unfold Date_AddDate, time.Time_AddDate, NewDate at 1. cbn [Date_t].
  rewrite timeFacts.Time_Date_Date by lia.
  destruct (timeFacts.Time_Clock_Date y m d 0 0 0 0 time.UTC) as (Eh & Emi & Es & Ens & El);
    try lia.
  unfold time.Time_Clock.
  change (Date_t (NewDate y m d)) with (time.Date y m d 0 0 0 0 time.UTC).
  rewrite Eh, Emi, Es, Ens, El.
  rewrite timeFacts.Date_norm_month.
  replace (y + 0 + (m + n - 1) / 12) with (targetYear y m n) by (unfold targetYear; lia).
  fold (targetMonth m n). replace (d + 0) with d by lia.
  assert (Htm : 1 <= targetMonth m n <= 12) by (unfold targetMonth; lia).
  pose proof (timeFacts.monthLen_bounds (time.isLeap (targetYear y m n)) _ Htm) as Hlen.
  rewrite <- timeFacts.daysIn_monthLen in Hlen.
  destruct (Z.leb_spec d (time.daysIn (targetMonth m n) (targetYear y m n))) as [Hle|Hgt].
  - apply DateFromStdTime_Date; lia.
  - assert (Htm11 : targetMonth m n <= 11).
    { destruct (Z.eq_dec (targetMonth m n) 12) as [E|E]; [|lia].
      rewrite E, daysIn_december in Hgt. lia. }
    rewrite timeFacts.Date_day_overflow by lia.
    apply DateFromStdTime_Date; try lia.
    pose proof (timeFacts.monthLen_bounds (time.isLeap (targetYear y m n))
                  (targetMonth m n + 1) ltac:(lia)) as Hlen'.
    rewrite <- timeFacts.daysIn_monthLen in Hlen'. lia.
Qed.

(** C2: [AddMonthsNoOverflow] lands in the month [n] months away, on the
    same day of the month when that month has it and on the last day of
    that month otherwise, that is, exactly when the plain month addition
    comes back with another day of the month; [n] may be negative. *)
Theorem C2_AddMonthsNoOverflow (y m d n : Z) :
  validDate y m d ->
  let ty := targetYear y m n in
  let tm := targetMonth m n in
  let naive := Date_AddDate (NewDate y m d) 0 n 0 in
  (Date_Day naive <> d <-> time.daysIn tm ty < d) /\
  (Date_Day naive = d ->
   Date_AddMonthsNoOverflow (NewDate y m d) n = NewDate ty tm d) /\
  (Date_Day naive <> d ->
   Date_AddMonthsNoOverflow (NewDate y m d) n = NewDate ty tm (time.daysIn tm ty)) /\
  validDate ty tm (Z.min d (time.daysIn tm ty)) /\
  Date_AddMonthsNoOverflow (NewDate 2024 1 31) 1 = NewDate 2024 2 29 /\
  Date_AddMonthsNoOverflow (NewDate 2024 3 31) 1 = NewDate 2024 4 30 /\
  Date_AddMonthsNoOverflow (NewDate 2024 3 31) (-1) = NewDate 2024 2 29.
Proof.
  intros Hv ty tm naive.
  pose proof (validDate_day y m d Hv) as Hd31.
  pose proof (Date_AddDate_months y m d n Hv) as E. fold ty tm naive in E.
  destruct Hv as [Hm Hd].
  assert (Htm : 1 <= tm <= 12) by (unfold tm, targetMonth; lia).
  pose proof (timeFacts.monthLen_bounds (time.isLeap ty) tm Htm) as Hlen.
  rewrite <- timeFacts.daysIn_monthLen in Hlen.
  assert (Hcases :
    (d <= time.daysIn tm ty /\ naive = NewDate ty tm d /\ Date_Day naive = d) \/
    (time.daysIn tm ty < d /\ tm <= 11 /\
     naive = NewDate ty (tm + 1) (d - time.daysIn tm ty) /\
     Date_Date naive = (ty, tm + 1, d - time.daysIn tm ty) /\
     Date_Day naive = d - time.daysIn tm ty)).
  { destruct (Z.leb_spec d (time.daysIn tm ty)) as [Hle|Hgt].
    - left. rewrite E. repeat split; try lia. apply NewDate_ymd; lia.
    - right.
      assert (Htm11 : tm <= 11).
      { destruct (Z.eq_dec tm 12) as [E12|E12]; [|lia].
        rewrite E12, daysIn_december in Hgt. lia. }
      pose proof (timeFacts.monthLen_bounds (time.isLeap ty) (tm + 1) ltac:(lia)) as Hlen'.
      rewrite <- timeFacts.daysIn_monthLen in Hlen'.
      rewrite E. repeat split; try lia.
      + apply NewDate_fields; lia.
      + apply NewDate_ymd; lia. }
  assert (Hmain : Date_AddMonthsNoOverflow (NewDate y m d) n
                  = NewDate ty tm (Z.min d (time.daysIn tm ty))).
  { unfold Date_AddMonthsNoOverflow. fold naive.
    destruct (NewDate_ymd y m d Hm Hd) as (_ & _ & ->).
    destruct Hcases as [(Hle & En & Ed) | (Hgt & Htm11 & En & Ef & Ed)].
    - rewrite Ed, Z.eqb_refl. cbn [negb]. rewrite En, Z.min_l by lia. reflexivity.
    - rewrite Ed. destruct (Z.eqb_spec d (d - time.daysIn tm ty)) as [Habs|_]; [lia|].
      cbn [negb]. unfold Date_PreviousMonthLastDay. rewrite Ef.
      unfold NewDate. rewrite timeFacts.Date_day_zero by lia.
      replace (tm + 1 - 1) with tm by lia. rewrite Z.min_r by lia. reflexivity. }
  refine (conj _ (conj _ (conj _ (conj _ (conj _ (conj _ _)))))).
  - destruct Hcases as [(Hle & En & Ed) | (Hgt & Htm11 & En & Ef & Ed)]; lia.
  - intros Hday. rewrite Hmain. f_equal.
    destruct Hcases as [(Hle & En & Ed) | (Hgt & Htm11 & En & Ef & Ed)]; lia.
  - intros Hday. rewrite Hmain. f_equal.
    destruct Hcases as [(Hle & En & Ed) | (Hgt & Htm11 & En & Ef & Ed)]; lia.
  - split; [exact Htm | lia].
  - vm_compute. reflexivity.
  - vm_compute. reflexivity.
  - vm_compute. reflexivity.
Qed.

Lemma C2_AddMonthsNoOverflow_witness :
  Date_AddMonthsNoOverflow (NewDate 2023 3 31) (-13) = NewDate 2022 2 28.
Proof.
  destruct (C2_AddMonthsNoOverflow 2023 3 31 (-13)) as (H1 & _ & H3 & _).
  - unfold validDate. vm_compute. repeat split; discriminate.
  - rewrite H3; [reflexivity|]. apply H1. vm_compute. reflexivity.
Defined.

Lemma Date_loc y m d h mi s ns l : time.loc (time.Date y m d h mi s ns l) = l.
Proof.
  unfold time.Date.
  repeat match goal with
  | |- context [time.norm ?a ?b ?c] => destruct (time.norm a b c)
  end.
  reflexivity.
Qed.

(** C6 fails on the code: [NewTime] never uses its [loc] argument and
    builds the time of day in UTC, whatever zone the caller passes. *)
Theorem C6_NewTime_zone_is_UTC (hour min sec nsec : Z) (loc : time.Location) :
  Time_Location (NewTime hour min sec nsec loc) = time.UTC /\
  Time_Location (NewTime 3 4 5 0 (time.FixedZone "EST" (-18000)))
  <> time.FixedZone "EST" (-18000).
Proof.
  split.
  - unfold Time_Location, time.Time_Location, NewTime. cbn [Time_t]. apply Date_loc.
  - vm_compute. discriminate.
Qed.

(** C10 fails on the code: [TimeFromLayoutLocation] never uses its
    [layout] argument; it parses with the fixed [timeLayout] exactly as
    [TimeFromStringLocation] does.  With the layout 15:04 and the input
    03:04 it fails, where [TimeFromLayout] parses the same pair. *)
Theorem C10_TimeFromLayoutLocation_ignores_layout
    (layout str : string) (loc : time.Location) :
  TimeFromLayoutLocation layout str loc = TimeFromStringLocation str loc /\
  TimeFromLayoutLocation "15:04" "03:04" time.UTC
  = (mkTimeOfDay time.zero,
     Some (fmtErrorfWrap "failed to parse time (%s): %w" ["03:04"%string]
                         (ParseError timeLayout "03:04"))) /\
  TimeFromLayout time.UTC "15:04" "03:04"
  = (mkTimeOfDay (time.Date 0 1 1 3 4 0 0 time.UTC), None).
Proof.
  split; [reflexivity|]. split; vm_compute; reflexivity.
Qed.

(** C7 fails on the code for [DateTime]: its [Scan] has no case for a
    [time.Time] and reports a type error for it, where [Date.Scan] and
    [Time.Scan] convert it.  The rest holds: numbers (and, for [Date] and
    [Time], a [time.Time]) always scan, a string or byte sequence scans
    exactly when it parses with the type's SQL layout, and any other type
    is an error. *)
Theorem C7_Scan_kinds (Local : time.Location) (d : Date) (t : Time) (dt : DateTime)
    (n : Z) (f : float64) (s : string) (b : list byte) (v : time.Time) (T : string) :
  (* Date *)
  (snd (Date_Scan Local d (any_int64 n)) = None /\
   snd (Date_Scan Local d (any_float64 f)) = None /\
   snd (Date_Scan Local d (any_Time v)) = None /\
   Date_Scan Local d (any_Time v) = (DateFromStdTime v, None) /\
   (snd (Date_Scan Local d (any_string s)) = None
    <-> snd (time.Parse Local dateLayout s) = None) /\
   (snd (Date_Scan Local d (any_bytes b)) = None
    <-> snd (time.Parse Local dateLayout (string_of_bytes b)) = None) /\
   snd (Date_Scan Local d (any_other T)) <> None) /\
  (* Time *)
  (snd (Time_Scan Local t (any_int64 n)) = None /\
   snd (Time_Scan Local t (any_float64 f)) = None /\
   snd (Time_Scan Local t (any_Time v)) = None /\
   Time_Scan Local t (any_Time v) = (TimeFromStdTime v, None) /\
   (snd (Time_Scan Local t (any_string s)) = None
    <-> snd (time.Parse Local TimeSQLLayout s) = None) /\
   (snd (Time_Scan Local t (any_bytes b)) = None
    <-> snd (time.Parse Local TimeSQLLayout (string_of_bytes b)) = None) /\
   snd (Time_Scan Local t (any_other T)) <> None) /\
  (* DateTime *)
  (snd (DateTime_Scan Local dt (any_int64 n)) = None /\
   snd (DateTime_Scan Local dt (any_float64 f)) = None /\
   (snd (DateTime_Scan Local dt (any_string s)) = None
    <-> snd (time.Parse Local dateTimeSQLLayout s) = None) /\
   (snd (DateTime_Scan Local dt (any_bytes b)) = None
    <-> snd (time.Parse Local dateTimeSQLLayout (string_of_bytes b)) = None) /\
   snd (DateTime_Scan Local dt (any_other T)) <> None /\
   DateTime_Scan Local dt (any_Time v)
   = (dt, Some (fmtErrorf "failed to scan type '%T' into datetime" ["time.Time"%string]))).
Proof.
  unfold Date_Scan, Time_Scan, DateTime_Scan.
  repeat match goal with
  | |- context [time.Parse ?L ?l ?x] => destruct (time.Parse L l x) as [? [?|]]
  end; cbn [snd fst typeName];
  repeat split; try reflexivity; try discriminate; try congruence.
Qed.

(** C8: [Scan(nil)] resets a [Date] or a [Time] to the zero value without
    an error, while [DateTime.Scan(nil)] leaves the receiver alone and
    returns the type error; the type error of each of the three [Scan]s
    carries the name of the dynamic type of the value it was given. *)
Theorem C8_Scan_nil_and_type_errors (Local : time.Location)
    (d : Date) (t : Time) (dt : DateTime) (v : time.Time) (T : string) :
  Date_Scan Local d any_nil = (mkDate time.zero, None) /\
  Date_IsZero (fst (Date_Scan Local d any_nil)) = true /\
  Time_Scan Local t any_nil = (mkTimeOfDay time.zero, None) /\
  Time_IsZero (fst (Time_Scan Local t any_nil)) = true /\
  DateTime_Scan Local dt any_nil
  = (dt, Some (fmtErrorf "failed to scan type '%T' into datetime"
                         [typeName any_nil])) /\
  Date_Scan Local d (any_other T)
  = (d, Some (fmtErrorf "failed to scan type '%T' into date" [T])) /\
  Time_Scan Local t (any_other T)
  = (t, Some (fmtErrorf "failed to scan type '%T' into time" [T])) /\
  DateTime_Scan Local dt (any_other T)
  = (dt, Some (fmtErrorf "failed to scan type '%T' into datetime" [T])) /\
  DateTime_Scan Local dt (any_Time v)
  = (dt, Some (fmtErrorf "failed to scan type '%T' into datetime"
                         [typeName (any_Time v)])).
Proof.
  repeat split.
Qed.

Module parseFacts.
Import time aux timeFacts.

Lemma Date_midnight y m d l :
  exists D, Date y m d 0 0 0 0 l = mkTime (D * 86400 - zoneOffset l) 0 l.
Proof.
  exists (civilDays (y + (m - 1) / 12) ((m - 1) mod 12 + 1) d).
  rewrite Date_norm_month, Date_sec by lia. f_equal. lia.
Qed.

Lemma midnight_clock D l :
  let t := mkTime (D * 86400 - zoneOffset l) 0 l in
  Time_Hour t = 0 /\ Time_Minute t = 0 /\ Time_Second t = 0 /\
  Time_Nanosecond t = 0 /\ Time_Location t = l.
Proof.
  cbv zeta. unfold Time_Hour, Time_Minute, Time_Second, Time_Nanosecond,
    Time_Location, abs, secondsPerDay, secondsPerHour, secondsPerMinute.
  cbn [sec nsec loc].
  replace (D * 86400 - zoneOffset l + zoneOffset l) with (D * 86400) by lia.
  change (24 * (60 * 60)) with 86400. change (60 * 60) with 3600.
  repeat split; lia.
Qed.

(** The clock reading of any instant is in range. *)
Lemma clock_range t :
  0 <= Time_Hour t < 24 /\ 0 <= Time_Minute t < 60 /\ 0 <= Time_Second t < 60.
Proof.
  unfold Time_Hour, Time_Minute, Time_Second, secondsPerDay, secondsPerHour,
    secondsPerMinute.
  change (24 * (60 * 60)) with 86400. change (60 * 60) with 3600.
  generalize (abs t). intros a. lia.
Qed.

(** The reference calendar date of [chrono.Time]: January 1 of year 0. *)
Lemma Date_reference h mi s ns l :
  0 <= h < 24 -> 0 <= mi < 60 -> 0 <= s < 60 -> 0 <= ns < 1000000000 ->
  Time_Date (Date 0 1 1 h mi s ns l) = (0, 1, 1).
Proof.
  intros. apply Time_Date_Date; try lia. vm_compute. split; discriminate.
Qed.

Lemma Date_loc_UTC y m d h mi s ns :
  loc (Date y m d h mi s ns UTC) = UTC.
Proof.
  unfold Date.
  repeat match goal with
  | |- context [norm ?a ?b ?c] => destruct (norm a b c)
  end.
  reflexivity.
Qed.

(** Changing the zone together with the instant keeps the wall clock. *)
Lemma abs_shift t off l :
  zoneOffset l = off ->
  abs (mkTime (sec t - off) (nsec t) l) = sec t.
Proof. intros E. unfold abs. cbn [sec loc]. lia. Qed.

(** *** What [parse] can return *)

Lemma digitVal_range c : isDigitChar c = true -> 0 <= digitVal c <= 9.
Proof.
  destruct c as [[] [] [] [] [] [] [] []]; vm_compute; intros H;
    try discriminate H; split; discriminate.
Qed.

Lemma pow10_spec n x : pow10 n x = x * 10 ^ Z.of_nat n.
Proof.
  revert x. induction n as [|n IH]; intros x.
  - cbn. lia.
  - cbn [pow10]. rewrite IH, Nat2Z.inj_succ, Z.pow_succ_r by lia. lia.
Qed.

Lemma leadingInt_bound s : forall acc q rest,
  0 <= acc -> leadingInt acc s = (q, rest) ->
  0 <= q < (acc + 1) * 10 ^ Z.of_nat (String.length s).
Proof.
  induction s as [|c s IH]; intros acc q rest Hacc H; cbn [leadingInt] in H.
  - inversion H; subst. cbn. lia.
  - cbn [String.length]. rewrite Nat2Z.inj_succ, Z.pow_succ_r by lia.
    assert (Hp : 0 < 10 ^ Z.of_nat (String.length s)) by (apply Z.pow_pos_nonneg; lia).
    destruct (isDigitChar c) eqn:Ec.
    + pose proof (digitVal_range c Ec) as Hd.
      apply IH in H; [|lia]. nia.
    + inversion H; subst. nia.
Qed.

Lemma substring_length n m s : (String.length (substring n m s) <= m)%nat.
Proof.
  revert n m. induction s as [|c s IH]; intros n m.
  - destruct n, m; cbn; lia.
  - destruct n as [|n].
    + destruct m as [|m]; cbn; [lia|]. specialize (IH 0%nat m). lia.
    + cbn. apply IH.
Qed.

Lemma atoi_bound s x :
  atoi s = Some x -> 0 <= x -> x < 10 ^ Z.of_nat (String.length s).
Proof.
  unfold atoi. intros H Hx.
  assert (Hgen : forall (neg : bool) s', (String.length s' <= String.length s)%nat ->
    match leadingInt 0 s' with
    | (q, EmptyString) => Some (if neg then - q else q)
    | _ => None
    end = Some x -> x < 10 ^ Z.of_nat (String.length s)).
  { intros neg s' Hlen H'. destruct (leadingInt 0 s') as [q rest] eqn:E.
    apply leadingInt_bound in E; [|lia].
    destruct rest; [|discriminate]. inversion H'; subst.
    assert (10 ^ Z.of_nat (String.length s') <= 10 ^ Z.of_nat (String.length s))
      by (apply Z.pow_le_mono_r; lia).
    destruct neg; lia. }
  destruct s as [|c s']; [apply (Hgen false EmptyString); [cbn; lia|exact H]|].
  destruct (Ascii.eqb c "-"); [apply (Hgen true s'); [cbn; lia|exact H]|].
  destruct (Ascii.eqb c "+"); [apply (Hgen false s'); [cbn; lia|exact H]|].
  apply (Hgen false (String c s')); [lia|exact H].
Qed.

Lemma parseNanoseconds_range value n ns :
  parseNanoseconds value n = Some ns -> 0 <= ns < 1000000000.
Proof.
  unfold parseNanoseconds. destruct value as [|c value']; [discriminate|].
  destruct (commaOrPeriod c); [|discriminate].
  set (v := String c value').
  assert (Hgen : forall v' (k : nat), (k <= 10)%nat ->
    match atoi (substring 1 (k - 1) v') with
    | Some ns0 => if ns0 <? 0 then None else Some (pow10 (10 - k) ns0)
    | None => None
    end = Some ns -> 0 <= ns < 1000000000).
  { intros v' k Hk H. destruct (atoi (substring 1 (k - 1) v')) as [ns0|] eqn:E;
      [|discriminate].
    destruct (Z.ltb_spec ns0 0); [discriminate|].
    assert (Ens : ns = pow10 (10 - k) ns0) by congruence. clear H.
    rewrite Ens, pow10_spec. clear Ens.
    apply atoi_bound in E; [|lia].
    pose proof (substring_length 1 (k - 1) v') as Hl.
    assert (Hp : 0 < 10 ^ Z.of_nat (10 - k)) by (apply Z.pow_pos_nonneg; lia).
    assert (H1 : 10 ^ Z.of_nat (String.length (substring 1 (k - 1) v'))
                 <= 10 ^ Z.of_nat (k - 1)) by (apply Z.pow_le_mono_r; lia).
    destruct k as [|k].
    { assert (Hz : String.length (substring 1 (0 - 1) v') = 0%nat) by lia.
      rewrite Hz in E. cbn in E. assert (ns0 = 0) by lia. subst ns0. lia. }
    assert (H2 : 10 ^ Z.of_nat (S k - 1) * 10 ^ Z.of_nat (10 - S k) <= 10 ^ 9).
    { rewrite <- Z.pow_add_r by lia. apply Z.pow_le_mono_r; lia. }
    change (10 ^ 9) with 1000000000 in H2. split; [nia|].
    assert (ns0 * 10 ^ Z.of_nat (10 - S k)
            < 10 ^ Z.of_nat (S k - 1) * 10 ^ Z.of_nat (10 - S k)) by nia.
    lia. }
  destruct (Nat.ltb_spec 10 n); intros Hres; eapply Hgen; try exact Hres; lia.
Qed.

Ltac parse_inv :=
  repeat match goal with
  | H : Some _ = Some _ |- _ => inversion H; subst; clear H
  | H : None = Some _ |- _ => discriminate H
  | H : (if ?b then _ else _) = Some _ |- _ => destruct b eqn:?
  | H : match ?x with _ => _ end = Some _ |- _ => destruct x eqn:?
  end.


Lemma set_zone_inv st r st' value' :
  set_zone st r = Some (st', value') ->
  sameDate st st' /\ p_hour st' = p_hour st /\ p_min st' = p_min st /\
  p_sec st' = p_sec st /\ p_nsec st' = p_nsec st.
Proof.
  unfold set_zone. intros H. parse_inv. unfold sameDate. cbn. auto 10.
Qed.

Lemma parseStd_clock sd layout value st st' value' :
  isClockStd sd = true -> clockRange st ->
  parseStd sd layout value st = Some (st', value') ->
  sameDate st st' /\ clockRange st'.
Proof.
  intros Hsd Hr H. unfold clockRange in *.
  destruct sd; try discriminate Hsd; cbn [parseStd] in H;
    unfold set_UTC, set_nsec in H;
    repeat match goal with
    | H : set_zone _ _ = Some _ |- _ =>
        apply set_zone_inv in H; destruct H as (? & ? & ? & ? & ?)
    | H : parseNanoseconds _ _ = Some _ |- _ => apply parseNanoseconds_range in H
    | H : Some _ = Some _ |- _ => inversion H; subst; clear H
    | H : None = Some _ |- _ => discriminate H
    | H : (if ?b then _ else _) = Some _ |- _ => destruct b eqn:?
    | H : match ?x with _ => _ end = Some _ |- _ => destruct x eqn:?
    end;
    unfold sameDate in *; cbn [p_year p_month p_day p_hour p_min p_sec p_nsec] in *;
    repeat split; try lia; try tauto.
Qed.


Lemma parseLoop_clock fuel : forall layout value st st',
  layoutAll isClockStd fuel layout = true -> clockRange st ->
  parseLoop fuel layout value st = Some st' ->
  sameDate st st' /\ clockRange st'.
Proof.
  induction fuel as [|fuel IH]; intros layout value st st' Hl Hr H; [discriminate|].
  cbn [parseLoop layoutAll] in *.
  destruct (nextStdChunk layout) as [[prefix sd] suffix].
  destruct (skip value prefix) as [value1|]; [|discriminate].
  destruct sd as [sd|].
  - apply andb_prop in Hl. destruct Hl as [Hsd Hl].
    destruct (parseStd sd suffix value1 st) as [[st1 value2]|] eqn:E; [|discriminate].
    apply parseStd_clock in E; [|exact Hsd|exact Hr]. destruct E as [E1 E2].
    apply IH in H; [|exact Hl|exact E2]. destruct H as [H1 H2].
    unfold sameDate in *. intuition congruence.
  - destruct value1; [|discriminate]. inversion H; subst.
    unfold sameDate. auto.
Qed.


(** A layout of clock and zone elements only parses to a time of day on
    the reference date, January 1 of year 0, in the zone of the result. *)
Lemma parse_clockOnly layout value dl local t :
  layoutAll isClockStd (S (String.length layout)) layout = true ->
  parse layout value dl local = (t, None) ->
  Time_Date t = (0, 1, 1) /\ wf t.
Proof.
  intros Hl H. unfold parse in H.
  destruct (parseLoop (S (String.length layout)) layout value parsed0) as [st|] eqn:E;
    [|discriminate].
  apply parseLoop_clock in E; [|exact Hl|unfold clockRange; cbn; lia].
  destruct E as ((Ey & Em & Ed) & (Hh & Hmi & Hs & Hns)). cbn in Ey, Em, Ed.
  rewrite <- Ey, <- Em, <- Ed in H. cbn [Z.ltb Z.compare] in H.
  change (daysIn 1 0) with 31 in H. cbn [Z.gtb Z.ltb Z.compare orb] in H.
  pose proof (Date_reference _ _ _ _ UTC Hh Hmi Hs Hns) as EU.
  assert (WU : forall l, wf (Date 0 1 1 (p_hour st) (p_min st) (p_sec st) (p_nsec st) l)).
  { intros l. unfold wf. rewrite Date_sec by lia. cbn [nsec]. lia. }
  destruct (p_z st) as [z|].
  - inversion H; subst. split; [apply Date_reference; assumption | apply WU].
  - destruct (negb (p_zoneOffset st =? -1)).
    + set (u := Date 0 1 1 (p_hour st) (p_min st) (p_sec st) (p_nsec st) UTC) in *.
      assert (EA : forall l, zoneOffset l = p_zoneOffset st ->
                Time_Date (mkTime (sec u - p_zoneOffset st) (nsec u) l) = (0, 1, 1)).
      { intros l El. unfold Time_Date. rewrite abs_shift by exact El.
        assert (Hu : abs u = sec u).
        { unfold abs. subst u. rewrite Date_loc_UTC. cbn [zoneOffset UTC]. lia. }
        rewrite <- Hu. exact EU. }
      destruct (Z.eqb_spec (zoneOffset local) (p_zoneOffset st)) as [El|El];
        inversion H; subst; cbn [sec nsec loc]; split;
        try (apply EA; auto); unfold wf; cbn [nsec]; apply (WU UTC).
    + inversion H; subst. split; [apply Date_reference; assumption | apply WU].
Qed.

End parseFacts.

(** *** The pinned halves of [Date] and [Time] *)

Lemma DateInv_Date y m d : DateInv (mkDate (time.Date y m d 0 0 0 0 time.UTC)).
Proof.
  unfold DateInv. cbn [Date_t].
  destruct (parseFacts.Date_midnight y m d time.UTC) as [D ->].
  apply (parseFacts.midnight_clock D time.UTC).
Qed.


Lemma DateInv_DateFromStdTime t : DateInv (DateFromStdTime t).
Proof. apply DateInv_Date. Qed.



Lemma TimeInv_of_Date t : time.Time_Date t = (0, 1, 1) -> TimeInv (mkTimeOfDay t).
Proof.
  intros E. unfold TimeInv, time.Time_Year, time.Time_Month, time.Time_Day.
  cbn [Time_t]. rewrite E. auto.
Qed.

Lemma TimeInv_TimeFromStdTime t : aux.wf t -> TimeInv (TimeFromStdTime t).
Proof.
  intros Hwf. apply TimeInv_of_Date.
  destruct (parseFacts.clock_range t) as (Hh & Hmi & Hs).
  apply parseFacts.Date_reference; assumption.
Qed.

Lemma wf_Unix Local sec nsec : aux.wf (time.Unix Local sec nsec).
Proof.
  unfold aux.wf, time.Unix.
  destruct ((nsec <? 0) || (nsec >=? 1000000000)) eqn:E.
  - destruct (Z.ltb_spec (nsec - Z.quot nsec 1000000000 * 1000000000) 0);
      cbn [time.nsec]; lia.
  - cbn [time.nsec]. lia.
Qed.


Lemma wf_Add t dur : aux.wf t -> aux.wf (time.Time_Add t dur).
Proof.
  unfold aux.wf, time.Time_Add. intros H.
  destruct (Z.geb_spec (time.nsec t + Z.rem dur 1000000000) 1000000000);
    [cbn [time.nsec]; lia|].
  destruct (Z.ltb_spec (time.nsec t + Z.rem dur 1000000000) 0); cbn [time.nsec]; lia.
Qed.

Lemma timeLayout_clockOnly :
  aux.layoutAll aux.isClockStd (S (String.length timeLayout)) timeLayout = true.
Proof. vm_compute; reflexivity. Qed.



Lemma TimeInv_parse layout value dl local t :
  aux.layoutAll aux.isClockStd (S (String.length layout)) layout = true ->
  time.parse layout value dl local = (t, None) -> TimeInv (mkTimeOfDay t).
Proof.
  intros Hl E. apply parseFacts.parse_clockOnly in E; [|exact Hl].
  apply TimeInv_of_Date. apply E.
Qed.





Module formatFacts.
Import time aux timeFacts parseFacts.

(** *** Rebuilding an instant from its fields *)

Lemma fields_valid t :
  1 <= Time_Month t <= 12 /\ 1 <= Time_Day t <= daysIn (Time_Month t) (Time_Year t)
  /\ civilDays (Time_Year t) (Time_Month t) (Time_Day t) = abs t / 86400.
Proof.
  unfold Time_Year, Time_Month, Time_Day, Time_Date.
  destruct (absDate_inv (abs t)) as (y & m & d & E & Hm & Hd & Hc).
  rewrite E. cbn [fst snd]. auto.
Qed.

Lemma Date_of_fields t :
  wf t ->
  Date (Time_Year t) (Time_Month t) (Time_Day t) (Time_Hour t) (Time_Minute t)
       (Time_Second t) (Time_Nanosecond t) (Time_Location t) = t.
Proof.
  intros Hwf. destruct (fields_valid t) as (Hm & Hd & Hc).
  destruct (clock_range t) as (Hh & Hmi & Hs).
  rewrite Date_sec by (try assumption; exact Hwf).
  rewrite Hc. destruct t as [s ns l].
  unfold Time_Hour, Time_Minute, Time_Second, Time_Nanosecond, Time_Location,
    abs, secondsPerDay, secondsPerHour, secondsPerMinute.
  cbn [sec nsec loc]. change (24 * (60 * 60)) with 86400. change (60 * 60) with 3600.
  f_equal. lia.
Qed.

(** The instant of a wall-clock reading taken in another zone. *)
Lemma Date_sec_of_fields t l :
  wf t ->
  Date (Time_Year t) (Time_Month t) (Time_Day t) (Time_Hour t) (Time_Minute t)
       (Time_Second t) (Time_Nanosecond t) l
  = mkTime (abs t - zoneOffset l) (nsec t) l.
Proof.
  intros Hwf. destruct (fields_valid t) as (Hm & Hd & Hc).
  destruct (clock_range t) as (Hh & Hmi & Hs).
  rewrite Date_sec by (try assumption; exact Hwf).
  rewrite Hc.
  unfold Time_Hour, Time_Minute, Time_Second, Time_Nanosecond,
    secondsPerDay, secondsPerHour, secondsPerMinute.
  change (24 * (60 * 60)) with 86400. change (60 * 60) with 3600.
  f_equal. generalize (abs t). intros a. lia.
Qed.

(** *** Digits *)

Ltac digit_cases n :=
  let H := fresh in
  assert (H : List.In n [0; 1; 2; 3; 4; 5; 6; 7; 8; 9]) by (cbn [List.In]; lia);
  cbn [List.In] in H;
  repeat (destruct H as [H|H]; [rewrite <- H|]); [..|destruct H].

Lemma digitChar_facts n :
  0 <= n <= 9 ->
  isDigitChar (digitChar n) = true /\ digitVal (digitChar n) = n /\
  Ascii.eqb (digitChar n) "-" = false /\ Ascii.eqb (digitChar n) "+" = false /\
  Ascii.eqb (digitChar n) " " = false /\ Ascii.eqb (digitChar n) "Z" = false /\
  commaOrPeriod (digitChar n) = false /\
  (Ascii.eqb (digitChar n) "0" = true <-> n = 0).
Proof.
  intros Hn. digit_cases n; vm_compute; repeat split; try reflexivity;
    try discriminate; intros; try discriminate.
Qed.

Lemma isDigitChar_digitChar n : 0 <= n <= 9 -> isDigitChar (digitChar n) = true.
Proof. intros H. apply digitChar_facts, H. Qed.

Lemma digitVal_digitChar n : 0 <= n <= 9 -> digitVal (digitChar n) = n.
Proof. intros H. apply digitChar_facts, H. Qed.

Lemma app_assoc (a b c : string) : ((a ++ b) ++ c = a ++ (b ++ c))%string.
Proof. induction a as [|x a IH]; cbn; [reflexivity | rewrite IH; reflexivity]. Qed.

Lemma app_nil_r (a : string) : (a ++ EmptyString)%string = a.
Proof. induction a as [|x a IH]; cbn; [reflexivity | rewrite IH; reflexivity]. Qed.

Lemma app_length (a b : string) :
  String.length (a ++ b) = (String.length a + String.length b)%nat.
Proof. induction a as [|x a IH]; cbn; [reflexivity | rewrite IH; reflexivity]. Qed.

Lemma countDigits_le fuel : forall u k,
  0 <= u < 10 ^ Z.of_nat k -> (countDigits fuel u <= k)%nat.
Proof.
  induction fuel as [|fuel IH]; intros u k Hu; cbn [countDigits]; [lia|].
  destruct (Z.leb_spec u 0); [lia|].
  destruct k as [|k]; [cbn in Hu; lia|].
  rewrite Nat2Z.inj_succ, Z.pow_succ_r in Hu by lia.
  specialize (IH (u / 10) k ltac:(lia)). lia.
Qed.

Lemma digitsLen_le u k :
  (1 <= k)%nat -> 0 <= u < 10 ^ Z.of_nat k -> (digitsLen u <= k)%nat.
Proof.
  intros Hk Hu. unfold digitsLen. destruct (Z.eqb_spec u 0); [lia|].
  apply countDigits_le. exact Hu.
Qed.

Lemma appendInt_fixed b x (w : nat) :
  (1 <= w)%nat -> 0 <= x < 10 ^ Z.of_nat w ->
  appendInt b x w = (b ++ fixedDigits w x)%string.
Proof.
  intros Hw Hx. unfold appendInt.
  destruct (Z.ltb_spec x 0); [lia|].
  rewrite Z.abs_eq by lia.
  rewrite Nat.max_l by (apply digitsLen_le; assumption). reflexivity.
Qed.

Lemma fixedDigits_2 x : 0 <= x < 100 -> fixedDigits 2 x = fmt2 x.
Proof.
  intros Hx. cbn [fixedDigits String.append]. unfold fmt2.
  replace (x / 10 mod 10) with (x / 10) by lia. reflexivity.
Qed.

Lemma fixedDigits_4 x : 0 <= x < 10000 -> fixedDigits 4 x = fmt4 x.
Proof.
  intros Hx. cbn [fixedDigits String.append]. unfold fmt4.
  replace (x / 10 / 10 / 10 mod 10) with (x / 1000) by lia.
  replace (x / 10 / 10 mod 10) with (x / 100 mod 10) by lia. reflexivity.
Qed.

Lemma appendInt_2 b x : 0 <= x < 100 -> appendInt b x 2 = (b ++ fmt2 x)%string.
Proof.
  intros Hx. rewrite appendInt_fixed by (cbn; lia). rewrite fixedDigits_2 by lia.
  reflexivity.
Qed.

Lemma appendInt_4 b x : 0 <= x < 10000 -> appendInt b x 4 = (b ++ fmt4 x)%string.
Proof.
  intros Hx. rewrite appendInt_fixed by (cbn; lia). rewrite fixedDigits_4 by lia.
  reflexivity.
Qed.

(** *** One step of the loops of [appendFormat] and [parse] *)

Lemma appendFormat_step fuel t b layout prefix sd suffix :
  layout <> EmptyString ->
  nextStdChunk layout = (prefix, Some sd, suffix) ->
  appendFormat (S fuel) t b layout
  = appendFormat fuel t (appendStd t (b ++ prefix) sd) suffix.
Proof.
  intros Hl E. cbn [appendFormat]. destruct layout; [congruence|].
  rewrite E. reflexivity.
Qed.

Lemma appendFormat_end fuel t b layout prefix suffix :
  nextStdChunk layout = (prefix, None, suffix) ->
  appendFormat (S fuel) t b layout = (b ++ prefix)%string.
Proof.
  intros E. cbn [appendFormat]. destruct layout.
  - cbn in E. inversion E. rewrite app_nil_r. reflexivity.
  - rewrite E. reflexivity.
Qed.

Lemma parseLoop_step fuel layout value st prefix sd suffix v1 st1 v2 :
  nextStdChunk layout = (prefix, Some sd, suffix) ->
  skip value prefix = Some v1 ->
  parseStd sd suffix v1 st = Some (st1, v2) ->
  parseLoop (S fuel) layout value st = parseLoop fuel suffix v2 st1.
Proof.
  intros E1 E2 E3. cbn [parseLoop]. rewrite E1, E2, E3. reflexivity.
Qed.

Lemma parseLoop_end fuel layout prefix suffix value st :
  nextStdChunk layout = (prefix, None, suffix) ->
  skip value prefix = Some EmptyString ->
  parseLoop (S fuel) layout value st = Some st.
Proof.
  intros E1 E2. cbn [parseLoop]. rewrite E1, E2. reflexivity.
Qed.

(** Run [appendFormat] over a closed layout. *)
Ltac format_steps :=
  repeat lazymatch goal with
  | |- context [appendFormat (S ?f) ?t ?b ?layout] =>
      let r := eval vm_compute in (nextStdChunk layout) in
      lazymatch r with
      | (?p, Some ?sd, ?suf) =>
          rewrite (appendFormat_step f t b layout p sd suf)
            by (first [discriminate | vm_compute; reflexivity])
      | (?p, None, ?suf) =>
          rewrite (appendFormat_end f t b layout p suf) by (vm_compute; reflexivity)
      end
  end.

(** *** Reading the fixed-width fields back *)

Lemma getnum_fmt2 x rest fixed :
  0 <= x < 100 -> getnum (fmt2 x ++ rest) fixed = Some (x, rest).
Proof.
  intros Hx. unfold fmt2. cbn [String.append getnum].
  rewrite !isDigitChar_digitChar, !digitVal_digitChar by lia.
  f_equal. f_equal. lia.
Qed.

Lemma dropn_app p s : dropn (String.length p) (p ++ s) = s.
Proof.
  unfold dropn. rewrite app_length.
  replace (String.length p + String.length s - String.length p)%nat
    with (String.length s) by lia.
  induction p as [|c p IH]; cbn [String.append String.length substring].
  - induction s as [|c s IH]; cbn; [reflexivity | rewrite IH; reflexivity].
  - exact IH.
Qed.

Lemma substring_app p s :
  substring 0 (String.length p) (p ++ s) = p.
Proof.
  induction p as [|c p IH]; cbn [String.append String.length substring].
  - destruct s; reflexivity.
  - rewrite IH. reflexivity.
Qed.

Lemma substring_skip p k s :
  substring (String.length p) k (p ++ s) = substring 0 k s.
Proof.
  induction p as [|c p IH]; cbn [String.append String.length substring];
    [reflexivity | exact IH].
Qed.

Lemma atoi_fmt4 y : 0 <= y < 10000 -> atoi (fmt4 y) = Some y.
Proof.
  intros Hy. unfold atoi, fmt4.
  destruct (digitChar_facts (y / 1000) ltac:(lia)) as (_ & _ & E1 & E2 & _).
  rewrite E1, E2. cbn [leadingInt].
  rewrite !isDigitChar_digitChar, !digitVal_digitChar by lia.
  f_equal. lia.
Qed.

Lemma parseStd_LongYear suffix y rest y0 m d h mi s ns z zo :
  0 <= y < 10000 ->
  parseStd stdLongYear suffix (fmt4 y ++ rest) (mkParsed y0 m d h mi s ns z zo)
  = Some (mkParsed y m d h mi s ns z zo, rest).
Proof.
  intros Hy. cbn [parseStd].
  change (substring 0 4 (fmt4 y ++ rest))
    with (substring 0 (String.length (fmt4 y)) (fmt4 y ++ rest)).
  change (dropn 4 (fmt4 y ++ rest)) with (dropn (String.length (fmt4 y)) (fmt4 y ++ rest)).
  rewrite substring_app, dropn_app, atoi_fmt4 by assumption.
  rewrite app_length. cbn [String.length fmt4 Nat.add Nat.ltb Nat.leb orb].
  unfold isDigit0, fmt4. cbn [String.append].
  rewrite isDigitChar_digitChar by lia. reflexivity.
Qed.

Lemma parseStd_ZeroMonth suffix x rest y m0 d h mi s ns z zo :
  1 <= x <= 12 ->
  parseStd stdZeroMonth suffix (fmt2 x ++ rest) (mkParsed y m0 d h mi s ns z zo)
  = Some (mkParsed y x d h mi s ns z zo, rest).
Proof.
  intros Hx. cbn [parseStd]. rewrite getnum_fmt2 by lia.
  destruct (Z.leb_spec x 0); [lia|]. destruct (Z.ltb_spec 12 x); [lia|]. reflexivity.
Qed.

Lemma parseStd_ZeroDay suffix x rest y m d0 h mi s ns z zo :
  0 <= x < 100 ->
  parseStd stdZeroDay suffix (fmt2 x ++ rest) (mkParsed y m d0 h mi s ns z zo)
  = Some (mkParsed y m x h mi s ns z zo, rest).
Proof. intros Hx. cbn [parseStd]. rewrite getnum_fmt2 by lia. reflexivity. Qed.

Lemma parseStd_Hour suffix x rest y m d h0 mi s ns z zo :
  0 <= x < 24 ->
  parseStd stdHour suffix (fmt2 x ++ rest) (mkParsed y m d h0 mi s ns z zo)
  = Some (mkParsed y m d x mi s ns z zo, rest).
Proof.
  intros Hx. cbn [parseStd]. rewrite getnum_fmt2 by lia.
  destruct (Z.ltb_spec x 0); [lia|]. destruct (Z.leb_spec 24 x); [lia|]. reflexivity.
Qed.

Lemma parseStd_ZeroMinute suffix x rest y m d h mi0 s ns z zo :
  0 <= x < 60 ->
  parseStd stdZeroMinute suffix (fmt2 x ++ rest) (mkParsed y m d h mi0 s ns z zo)
  = Some (mkParsed y m d h x s ns z zo, rest).
Proof.
  intros Hx. cbn [parseStd]. rewrite getnum_fmt2 by lia.
  destruct (Z.ltb_spec x 0); [lia|]. destruct (Z.leb_spec 60 x); [lia|]. reflexivity.
Qed.

Lemma parseStd_ZeroSecond suffix x rest y m d h mi s0 ns z zo :
  0 <= x < 60 -> noFraction rest ->
  parseStd stdZeroSecond suffix (fmt2 x ++ rest) (mkParsed y m d h mi s0 ns z zo)
  = Some (mkParsed y m d h mi x ns z zo, rest).
Proof.
  intros Hx Hr. cbn [parseStd]. rewrite getnum_fmt2 by lia.
  destruct (Z.ltb_spec x 0); [lia|]. destruct (Z.leb_spec 60 x); [lia|].
  cbn [p_year p_month p_day p_hour p_min p_sec p_nsec p_z p_zoneOffset].
  destruct rest as [|c0 [|c1 rest']]; try reflexivity.
  cbn in Hr. rewrite Hr. reflexivity.
Qed.

(** *** Zone offsets *)

Lemma appendZone_fmtZone b off colon minutes :
  Z.abs off < 86400 ->
  appendZone b off colon minutes = (b ++ fmtZone off colon minutes)%string.
Proof.
  intros Hoff. unfold appendZone, fmtZone. cbv zeta.
  set (zone := Z.quot off 60).
  assert (Hz : Z.abs zone < 1440) by (subst zone; lia).
  destruct (Z.ltb_spec zone 0) as [Hneg|Hpos].
  - rewrite appendInt_2 by lia.
    replace (Z.quot (- zone) 60) with (Z.abs zone / 60) by lia.
    replace (Z.rem (- zone) 60) with (Z.abs zone mod 60) by lia.
    destruct colon, minutes; rewrite ?appendInt_2 by lia;
      rewrite ?app_assoc; cbn [String.append]; rewrite ?app_nil_r; reflexivity.
  - rewrite appendInt_2 by lia.
    replace (Z.quot zone 60) with (Z.abs zone / 60) by lia.
    replace (Z.rem zone 60) with (Z.abs zone mod 60) by lia.
    destruct colon, minutes; rewrite ?appendInt_2 by lia;
      rewrite ?app_assoc; cbn [String.append]; rewrite ?app_nil_r; reflexivity.
Qed.

Lemma substring_all s : substring 0 (String.length s) s = s.
Proof. induction s as [|c s IH]; cbn; [reflexivity | rewrite IH; reflexivity]. Qed.

Lemma substring_0_0 s : substring 0 0 s = EmptyString.
Proof. destruct s; reflexivity. Qed.

Lemma dropn_0 s : dropn 0 s = s.
Proof. unfold dropn. rewrite Nat.sub_0_r. apply substring_all. Qed.

Lemma getnum_fmt2_alone x : 0 <= x < 100 -> getnum (fmt2 x) true = Some (x, EmptyString).
Proof.
  intros Hx. rewrite <- (app_nil_r (fmt2 x)). apply getnum_fmt2. exact Hx.
Qed.

Lemma parseZone_colon off rest :
  Z.abs off < 86400 -> off mod 60 = 0 ->
  parseZone (fmtZone off true true ++ rest) true true = Some (off, rest).
Proof.
  intros Hoff Hm. unfold fmtZone. cbv zeta.
  set (zone := Z.quot off 60). set (az := Z.abs zone).
  assert (Haz : 0 <= az < 1440) by (subst az zone; lia).
  set (sg := (if zone <? 0 then "-"%char else "+"%char)).
  unfold parseZone, fmt2. cbn [String.append String.length Nat.ltb Nat.leb get].
  cbn [Ascii.eqb Bool.eqb]. cbn [substring].
  change (dropn 6 ?s) with (substring 6 (String.length s - 6) s).
  cbn [String.length Nat.sub substring].
  rewrite ?substring_0_0, ?Nat.sub_0_r, substring_all.
  fold (fmt2 (az / 60)). fold (fmt2 (az mod 60)).
  rewrite !getnum_fmt2_alone by lia.
  destruct (Z.gtb_spec (az / 60) 24); [lia|].
  destruct (Z.gtb_spec (az mod 60) 60); [lia|]. cbn [orb].
  subst sg. destruct (Z.ltb_spec zone 0); cbn [Ascii.eqb Bool.eqb];
    f_equal; f_equal; subst az zone; lia.
Qed.

Lemma parseZone_short off rest :
  Z.abs off < 86400 -> off mod 3600 = 0 ->
  parseZone (fmtZone off false false ++ rest) false false = Some (off, rest).
Proof.
  intros Hoff Hm. unfold fmtZone. cbv zeta.
  set (zone := Z.quot off 60). set (az := Z.abs zone).
  assert (Haz : 0 <= az < 1440) by (subst az zone; lia).
  set (sg := (if zone <? 0 then "-"%char else "+"%char)).
  unfold parseZone, fmt2. cbn [String.append String.length Nat.ltb Nat.leb get].
  cbn [substring].
  change (dropn 3 ?s) with (substring 3 (String.length s - 3) s).
  cbn [String.length Nat.sub substring].
  rewrite ?substring_0_0, ?Nat.sub_0_r, substring_all.
  fold (fmt2 (az / 60)).
  rewrite !getnum_fmt2_alone by lia.
  change (getnum "00" true) with (Some (0, EmptyString)).
  destruct (Z.gtb_spec (az / 60) 24); [lia|]. cbn [Z.gtb Z.compare orb].
  subst sg. destruct (Z.ltb_spec zone 0); cbn [Ascii.eqb Bool.eqb];
    f_equal; f_equal; subst az zone; lia.
Qed.

Lemma appendStd_ColonTZ t b :
  Z.abs (zoneOffset (loc t)) < 86400 ->
  appendStd t b stdISO8601ColonTZ = (b ++ fmtZoneISO (zoneOffset (loc t)))%string.
Proof.
  intros H. cbn [appendStd]. unfold fmtZoneISO.
  destruct (zoneOffset (loc t) =? 0); [reflexivity|].
  apply appendZone_fmtZone. exact H.
Qed.

Lemma appendStd_ShortTZ t b :
  Z.abs (zoneOffset (loc t)) < 86400 ->
  appendStd t b stdNumShortTZ = (b ++ fmtZone (zoneOffset (loc t)) false false)%string.
Proof. intros H. cbn [appendStd]. apply appendZone_fmtZone. exact H. Qed.

Lemma parseStd_ColonTZ suffix off rest y m d h mi s ns :
  Z.abs off < 86400 -> off mod 60 = 0 ->
  parseStd stdISO8601ColonTZ suffix (fmtZoneISO off ++ rest)
           (mkParsed y m d h mi s ns None (-1))
  = Some (if off =? 0 then mkParsed y m d h mi s ns (Some UTC) (-1)
          else mkParsed y m d h mi s ns None off, rest).
Proof.
  intros Hoff Hm. cbn [parseStd]. unfold fmtZoneISO.
  destruct (Z.eqb_spec off 0) as [E|E].
  - reflexivity.
  - assert (Hs : startsWithZ (fmtZone off true true ++ rest) = None).
    { unfold fmtZone. cbv zeta. cbn [String.append startsWithZ].
      destruct (Z.quot off 60 <? 0); reflexivity. }
    rewrite Hs, parseZone_colon by assumption. reflexivity.
Qed.

Lemma parseStd_ShortTZ suffix off rest y m d h mi s ns :
  Z.abs off < 86400 -> off mod 3600 = 0 ->
  parseStd stdNumShortTZ suffix (fmtZone off false false ++ rest)
           (mkParsed y m d h mi s ns None (-1))
  = Some (mkParsed y m d h mi s ns None off, rest).
Proof.
  intros Hoff Hm. cbn [parseStd]. rewrite parseZone_short by assumption. reflexivity.
Qed.

Lemma noFraction_zoneISO off rest : noFraction (fmtZoneISO off ++ rest).
Proof.
  unfold fmtZoneISO, fmtZone. cbv zeta.
  destruct (off =? 0); cbn [String.append noFraction]; [reflexivity|].
  destruct (Z.quot off 60 <? 0); reflexivity.
Qed.

Lemma noFraction_zone off c m rest : noFraction (fmtZone off c m ++ rest).
Proof.
  unfold fmtZone. cbv zeta. cbn [String.append noFraction].
  destruct (Z.quot off 60 <? 0); reflexivity.
Qed.

Lemma noDigit_zoneISO off rest : isDigit0 (fmtZoneISO off ++ rest) = false.
Proof.
  unfold fmtZoneISO, fmtZone. cbv zeta.
  destruct (off =? 0); cbn [String.append isDigit0]; [reflexivity|].
  destruct (Z.quot off 60 <? 0); reflexivity.
Qed.

Lemma noDigit_zone off c m rest : isDigit0 (fmtZone off c m ++ rest) = false.
Proof.
  unfold fmtZone. cbv zeta. cbn [String.append isDigit0].
  destruct (Z.quot off 60 <? 0); reflexivity.
Qed.

Lemma skip_space x rest :
  0 <= x < 100 -> skip (String " " (fmt2 x ++ rest)) " " = Some (fmt2 x ++ rest)%string.
Proof.
  intros Hx. unfold skip, fmt2. cbn [skipFrom String.append Ascii.eqb Bool.eqb cutspace].
  destruct (digitChar_facts (x / 10) ltac:(lia)) as (_ & _ & _ & _ & E & _).
  rewrite E. reflexivity.
Qed.

End formatFacts.

Module layoutFacts.
Import time aux timeFacts parseFacts formatFacts.

Ltac parse_elem :=
  first [ apply parseStd_LongYear | apply parseStd_ZeroMonth | apply parseStd_ZeroDay
        | apply parseStd_Hour | apply parseStd_ZeroMinute
        | apply parseStd_ZeroSecond
        | apply parseStd_ColonTZ | apply parseStd_ShortTZ ].

Ltac parse_step :=
  erewrite parseLoop_step;
  [ | reflexivity | reflexivity
    | parse_elem;
      first [ lia | apply noFraction_zoneISO | apply noFraction_zone | assumption ] ].

Lemma fields_range t :
  1 <= Time_Month t <= 12 /\ 1 <= Time_Day t <= 31 /\
  0 <= Time_Hour t < 24 /\ 0 <= Time_Minute t < 60 /\ 0 <= Time_Second t < 60.
Proof.
  destruct (fields_valid t) as (Hm & Hd & _).
  destruct (clock_range t) as (Hh & Hmi & Hs).
  rewrite daysIn_monthLen in Hd.
  pose proof (monthLen_bounds (isLeap (Time_Year t)) _ Hm). lia.
Qed.

Lemma Format_dateLayout t :
  0 <= Time_Year t < 10000 ->
  Time_Format t "2006-01-02"
  = fmtDate (Time_Year t) (Time_Month t) (Time_Day t) EmptyString.
Proof.
  intros Hy. destruct (fields_range t) as (Hm & Hd & _).
  unfold Time_Format. cbn [String.length]. format_steps. cbn [appendStd].
  rewrite appendInt_4, !appendInt_2 by lia.
  rewrite !app_assoc. cbn [String.append]. reflexivity.
Qed.

Lemma parse_dateLayout y m d dl local :
  0 <= y < 10000 -> 1 <= m <= 12 -> 1 <= d <= daysIn m y ->
  parse "2006-01-02" (fmtDate y m d EmptyString) dl local
  = (Date y m d 0 0 0 0 dl, None).
Proof.
  intros Hy Hm Hd.
  assert (Hd31 : 1 <= d <= 31).
  { rewrite daysIn_monthLen in Hd. pose proof (monthLen_bounds (isLeap y) m Hm). lia. }
  unfold parse, fmtDate, parsed0. cbn [String.length].
  do 3 parse_step.
  erewrite parseLoop_end by reflexivity.
  cbn [p_year p_month p_day p_hour p_min p_sec p_nsec p_z p_zoneOffset].
  destruct (Z.ltb_spec m 0); [lia|]. destruct (Z.ltb_spec d 0); [lia|].
  destruct (Z.ltb_spec d 1); [lia|]. destruct (Z.gtb_spec d (daysIn m y)); [lia|].
  reflexivity.
Qed.

End layoutFacts.

Module fracFacts.
Import time aux timeFacts parseFacts formatFacts layoutFacts.

(** *** Fractional seconds *)

Lemma allDigits_app a b : allDigits (a ++ b) = allDigits a && allDigits b.
Proof.
  induction a as [|c a IH]; cbn [String.append allDigits]; [reflexivity|].
  rewrite IH, andb_assoc. reflexivity.
Qed.

Lemma fixedDigits_length w u : String.length (fixedDigits w u) = w.
Proof.
  revert u. induction w as [|w IH]; intros u; cbn [fixedDigits]; [reflexivity|].
  rewrite app_length, IH. cbn. lia.
Qed.

Lemma fixedDigits_allDigits w u : allDigits (fixedDigits w u) = true.
Proof.
  revert u. induction w as [|w IH]; intros u; cbn [fixedDigits]; [reflexivity|].
  rewrite allDigits_app, IH. cbn [allDigits andb].
  rewrite isDigitChar_digitChar by lia. reflexivity.
Qed.

Lemma leadingInt_app a : forall acc b,
  allDigits a = true ->
  leadingInt acc (a ++ b) = leadingInt (fst (leadingInt acc a)) b.
Proof.
  induction a as [|c a IH]; intros acc b H; cbn [String.append leadingInt allDigits] in *;
    [reflexivity|].
  apply andb_prop in H. destruct H as [Hc Ha]. rewrite Hc. apply IH. exact Ha.
Qed.

Lemma leadingInt_allDigits a : forall acc,
  allDigits a = true -> snd (leadingInt acc a) = EmptyString.
Proof.
  induction a as [|c a IH]; intros acc H; cbn [leadingInt allDigits] in *;
    [reflexivity|].
  apply andb_prop in H. destruct H as [Hc Ha]. rewrite Hc. apply IH. exact Ha.
Qed.

Lemma leadingInt_fixedDigits w : forall u acc,
  0 <= u ->
  fst (leadingInt acc (fixedDigits w u)) = acc * 10 ^ Z.of_nat w + u mod 10 ^ Z.of_nat w.
Proof.
  induction w as [|w IH]; intros u acc Hu.
  - cbn [fixedDigits leadingInt fst]. rewrite Z.mod_1_r. cbn. lia.
  - cbn [fixedDigits]. rewrite leadingInt_app by apply fixedDigits_allDigits.
    rewrite IH by lia. cbn [leadingInt].
    rewrite isDigitChar_digitChar, digitVal_digitChar by lia. cbn [fst].
    rewrite Nat2Z.inj_succ, Z.pow_succ_r by lia.
    assert (Hp : 0 < 10 ^ Z.of_nat w) by (apply Z.pow_pos_nonneg; lia).
    generalize dependent (10 ^ Z.of_nat w). intros p _ Hp.
    rewrite (Z.rem_mul_r u 10 p) by lia. ring.
Qed.

(** The first digits of a fixed-width number. *)
Lemma fixedDigits_split k : forall w u,
  fixedDigits (w + k) u
  = (fixedDigits w (u / 10 ^ Z.of_nat k) ++ fixedDigits k u)%string.
Proof.
  induction k as [|k IH]; intros w u.
  - rewrite Nat.add_0_r. cbn [fixedDigits Z.of_nat]. rewrite Z.pow_0_r, Z.div_1_r, app_nil_r.
    reflexivity.
  - replace (w + S k)%nat with (S (w + k)) by lia. cbn [fixedDigits].
    rewrite IH, app_assoc. f_equal. f_equal.
    rewrite Nat2Z.inj_succ, Z.pow_succ_r by lia.
    rewrite Z.div_div by (try apply Z.pow_pos_nonneg; lia). reflexivity.
Qed.

Lemma substring_0_app p k s :
  substring 0 (String.length p + k) (p ++ s) = (p ++ substring 0 k s)%string.
Proof.
  induction p as [|c p IH]; cbn [String.append String.length Nat.add substring];
    [reflexivity | rewrite IH; reflexivity].
Qed.

Lemma firstDigits n u :
  (n <= 9)%nat ->
  substring 0 n (fixedDigits 9 u) = fixedDigits n (u / 10 ^ Z.of_nat (9 - n)).
Proof.
  intros Hn. replace 9%nat with (n + (9 - n))%nat at 1 by lia.
  rewrite fixedDigits_split.
  rewrite <- (fixedDigits_length n (u / 10 ^ Z.of_nat (9 - n))) at 1.
  rewrite <- (Nat.add_0_r (String.length _)), substring_0_app, substring_0_0, app_nil_r.
  reflexivity.
Qed.

(** [trimZeros] keeps the value of a decimal fraction. *)
Lemma trimZeros_allDigits s : allDigits s = true -> allDigits (trimZeros s) = true.
Proof.
  induction s as [|c s IH]; intros H; cbn [trimZeros allDigits] in *; [reflexivity|].
  apply andb_prop in H. destruct H as [Hc Hs]. specialize (IH Hs).
  destruct (trimZeros s) as [|c' r].
  - destruct (Ascii.eqb c "0"); cbn [allDigits]; [reflexivity|].
    rewrite Hc. reflexivity.
  - cbn [allDigits] in *. rewrite Hc. exact IH.
Qed.

Lemma trimZeros_length s : (String.length (trimZeros s) <= String.length s)%nat.
Proof.
  induction s as [|c s IH]; cbn [trimZeros String.length]; [lia|].
  destruct (trimZeros s) as [|c' r].
  - destruct (Ascii.eqb c "0"); cbn [String.length]; lia.
  - cbn [String.length] in *. lia.
Qed.

Lemma digitVal_zero c : Ascii.eqb c "0" = true -> digitVal c = 0.
Proof. intros H. apply Ascii.eqb_eq in H. subst c. reflexivity. Qed.

Lemma trimZeros_value s : forall acc,
  allDigits s = true ->
  fst (leadingInt acc s)
  = fst (leadingInt acc (trimZeros s))
    * 10 ^ Z.of_nat (String.length s - String.length (trimZeros s)).
Proof.
  induction s as [|c s IH]; intros acc H; cbn [trimZeros allDigits] in *.
  - cbn. lia.
  - apply andb_prop in H. destruct H as [Hc Hs].
    pose proof (trimZeros_length s) as Hlen.
    cbn [leadingInt]. rewrite Hc. rewrite (IH _ Hs).
    destruct (trimZeros s) as [|c' r] eqn:Et.
    + cbn [leadingInt fst String.length].
      destruct (Ascii.eqb c "0") eqn:E0.
      * cbn [leadingInt fst String.length]. rewrite (digitVal_zero c E0).
        replace (S (String.length s) - 0)%nat with (S (String.length s - 0)) by lia.
        rewrite Nat2Z.inj_succ, Z.pow_succ_r by lia. lia.
      * cbn [leadingInt fst String.length]. rewrite Hc. cbn [leadingInt fst].
        replace (S (String.length s) - 1)%nat with (String.length s - 0)%nat by lia.
        reflexivity.
    + cbn [leadingInt String.length Nat.sub] in *. rewrite Hc. reflexivity.
Qed.

Lemma trimZeros_empty s :
  allDigits s = true -> trimZeros s = EmptyString -> fst (leadingInt 0 s) = 0.
Proof.
  intros H E. rewrite (trimZeros_value s 0 H), E. cbn. lia.
Qed.

Lemma lastChar_lastOf s : lastChar s = lastOf s.
Proof.
  unfold lastChar. induction s as [|c s IH]; [reflexivity|].
  destruct s as [|c' s]; [reflexivity|].
  cbn [String.length Nat.sub] in *. rewrite Nat.sub_0_r in *.
  cbn [get lastOf]. exact IH.
Qed.

Lemma lastOf_app a c b : lastOf (a ++ String c b) = lastOf (String c b).
Proof.
  induction a as [|x a IH]; [reflexivity|].
  cbn [String.append lastOf]. rewrite IH.
  destruct (a ++ String c b)%string eqn:E; [|reflexivity].
  destruct a; discriminate E.
Qed.

Lemma lastOf_digits s c :
  allDigits s = true -> lastOf s = Some c -> commaOrPeriod c = false.
Proof.
  induction s as [|x s IH]; intros H E; [discriminate|].
  cbn [allDigits] in H. apply andb_prop in H. destruct H as [Hx Hs].
  destruct s as [|y s].
  - cbn in E. inversion E; subst.
    destruct c as [[] [] [] [] [] [] [] []]; try discriminate Hx; reflexivity.
  - apply IH; [exact Hs | exact E].
Qed.

Lemma trimZeros_app a c b :
  trimZeros (String c b) <> EmptyString ->
  trimZeros (a ++ String c b) = (a ++ trimZeros (String c b))%string.
Proof.
  intros Hne. remember (trimZeros (String c b)) as T eqn:ET.
  induction a as [|x a IH]; [cbn [String.append]; congruence|].
  cbn [String.append trimZeros]. rewrite IH.
  destruct (a ++ T)%string eqn:E; [|reflexivity].
  destruct a; [cbn in E; congruence | discriminate E].
Qed.

Lemma dropLast_app a c : dropLast (a ++ String c EmptyString) = a.
Proof.
  unfold dropLast. rewrite app_length. cbn [String.length].
  replace (String.length a + 1 - 1)%nat with (String.length a + 0)%nat by lia.
  rewrite substring_0_app, substring_0_0, app_nil_r. reflexivity.
Qed.

Lemma appendNano_fracText b ns n :
  0 <= ns < 1000000000 -> (n <= 9)%nat ->
  appendNano b ns n "." true = (b ++ fracText n ns)%string.
Proof.
  intros Hns Hn. unfold appendNano, fracText. cbn [andb].
  destruct ((n =? 0)%nat || (ns =? 0)); [rewrite app_nil_r; reflexivity|].
  rewrite appendInt_fixed by (cbn; lia).
  set (ds := fixedDigits 9 ns).
  assert (Hlen : String.length ds = 9%nat) by apply fixedDigits_length.
  assert (Hcut : (if (n <? 9)%nat
                  then substring 0 (String.length ((b ++ ".") ++ ds) - 9 + n)
                         ((b ++ ".") ++ ds)
                  else ((b ++ ".") ++ ds))%string
                 = (b ++ String "." (substring 0 n ds))%string).
  { destruct (Nat.ltb_spec n 9).
    - rewrite !app_length, Hlen.
      replace (String.length b + String.length "." + 9 - 9 + n)%nat
        with (String.length (b ++ ".") + n)%nat by (rewrite app_length; lia).
      rewrite substring_0_app, app_assoc. reflexivity.
    - assert (n = 9%nat) by lia. subst n. rewrite <- Hlen, substring_all, app_assoc.
      reflexivity. }
  rewrite Hcut.
  assert (Hd : allDigits (substring 0 n ds) = true).
  { subst ds. rewrite firstDigits by lia. apply fixedDigits_allDigits. }
  assert (Hne : trimZeros (String "." (substring 0 n ds)) <> EmptyString).
  { cbn [trimZeros]. destruct (trimZeros (substring 0 n ds)); cbn; discriminate. }
  rewrite trimZeros_app by exact Hne.
  cbn [trimZeros]. pose proof (trimZeros_allDigits _ Hd) as Hd'.
  destruct (trimZeros (substring 0 n ds)) as [|c r] eqn:Et.
  - cbn [Ascii.eqb Bool.eqb]. rewrite lastChar_lastOf, lastOf_app. cbn [lastOf].
    cbn [Ascii.eqb Bool.eqb orb]. rewrite dropLast_app, app_nil_r. reflexivity.
  - rewrite lastChar_lastOf, lastOf_app.
    change (lastOf (String "." (String c r))) with (lastOf (String c r)).
    destruct (lastOf (String c r)) as [x|] eqn:El; [|reflexivity].
    pose proof (lastOf_digits _ _ Hd' El) as Hx. unfold commaOrPeriod in Hx.
    rewrite Hx. reflexivity.
Qed.

Lemma digitRun_app ds rest :
  allDigits ds = true -> isDigit0 rest = false ->
  digitRun (ds ++ rest) = String.length ds.
Proof.
  intros Hd Hr. induction ds as [|c ds IH]; cbn [String.append digitRun String.length].
  - destruct rest as [|c rest]; [reflexivity|]. cbn in Hr. cbn. rewrite Hr. reflexivity.
  - cbn [allDigits] in Hd. apply andb_prop in Hd. destruct Hd as [Hc Hd].
    rewrite Hc, IH by exact Hd. reflexivity.
Qed.

Lemma digit_not_sign c :
  isDigitChar c = true -> Ascii.eqb c "-" = false /\ Ascii.eqb c "+" = false.
Proof.
  destruct c as [[] [] [] [] [] [] [] []]; intros H; try discriminate H;
    split; reflexivity.
Qed.

Lemma atoi_digits c ds :
  allDigits (String c ds) = true ->
  atoi (String c ds) = Some (fst (leadingInt 0 (String c ds))).
Proof.
  intros Hd. unfold atoi.
  assert (Hc : isDigitChar c = true)
    by (cbn [allDigits] in Hd; apply andb_prop in Hd; apply Hd).
  destruct (digit_not_sign c Hc) as [E1 E2]. rewrite E1, E2.
  pose proof (leadingInt_allDigits _ 0 Hd) as Hs.
  destruct (leadingInt 0 (String c ds)) as [q r]. cbn [fst snd] in *. subst r.
  reflexivity.
Qed.

(** Reading a fractional second back. *)
Lemma parse_fraction c ds rest :
  allDigits (String c ds) = true -> (String.length (String c ds) <= 9)%nat ->
  isDigit0 rest = false ->
  let T := String c ds in
  let value := String "." (T ++ rest) in
  let n := (1 + digitRun (dropn 1 value))%nat in
  parseNanoseconds value n
  = Some (fst (leadingInt 0 T) * 10 ^ Z.of_nat (9 - String.length T))
  /\ dropn n value = rest.
Proof.
  intros Hd Hlen Hr T value n. fold T in Hd, Hlen.
  assert (Edrop : dropn 1 value = (T ++ rest)%string).
  { unfold dropn, value. cbn [String.length Nat.sub substring].
    rewrite Nat.sub_0_r. apply substring_all. }
  assert (En : n = S (String.length T)).
  { unfold n. rewrite Edrop, digitRun_app by assumption. reflexivity. }
  rewrite En. split.
  - unfold parseNanoseconds, value. cbn [commaOrPeriod Ascii.eqb Bool.eqb orb].
    destruct (Nat.ltb_spec 10 (S (String.length T))); [lia|].
    replace (S (String.length T) - 1)%nat with (String.length T) by lia.
    cbn [substring]. rewrite substring_app.
    unfold T at 1. rewrite atoi_digits by exact Hd. fold T.
    pose proof (leadingInt_bound T 0 _ _ ltac:(lia)
                  (surjective_pairing (leadingInt 0 T))) as Hb.
    destruct (Z.ltb_spec (fst (leadingInt 0 T)) 0); [lia|].
    rewrite pow10_spec.
    replace (10 - S (String.length T))%nat with (9 - String.length T)%nat by lia.
    reflexivity.
  - unfold dropn, value.
    cbn [String.length Nat.sub substring].
    replace (String.length (T ++ rest) - String.length T)%nat
      with (String.length rest) by (rewrite app_length; lia).
    rewrite substring_skip. apply substring_all.
Qed.

(** The fractional text is empty for zero and otherwise a separator and
    digits that read back as the value it was written from. *)
Lemma fracText_cases n ns :
  0 <= ns < 1000000000 -> (n <= 9)%nat -> ns mod 10 ^ Z.of_nat (9 - n) = 0 ->
  (ns = 0 /\ fracText n ns = EmptyString) \/
  (exists c ds, fracText n ns = String "." (String c ds) /\
     allDigits (String c ds) = true /\ (String.length (String c ds) <= 9)%nat /\
     fst (leadingInt 0 (String c ds))
       * 10 ^ Z.of_nat (9 - String.length (String c ds)) = ns).
Proof.
  intros Hns Hn Hmod. unfold fracText.
  assert (Hp : 0 < 10 ^ Z.of_nat (9 - n)) by (apply Z.pow_pos_nonneg; lia).
  destruct (Nat.eqb_spec n 0) as [En|En].
  - left. subst n. cbn [orb]. split; [|reflexivity].
    change (10 ^ Z.of_nat (9 - 0)) with 1000000000 in Hmod. lia.
  - destruct (Z.eqb_spec ns 0) as [E0|E0]; cbn [orb]; [left; auto|].
    right. rewrite firstDigits by exact Hn.
    set (q := ns / 10 ^ Z.of_nat (9 - n)).
    assert (Hq : ns = q * 10 ^ Z.of_nat (9 - n)).
    { subst q. pose proof (Z.div_mod ns _ (Z.neq_sym _ _ (Z.lt_neq _ _ Hp))). lia. }
    assert (Hq0 : 0 < q) by nia.
    assert (Hqn : q < 10 ^ Z.of_nat n).
    { assert (E : 10 ^ Z.of_nat n * 10 ^ Z.of_nat (9 - n) = 1000000000).
      { rewrite <- Z.pow_add_r by lia. replace (Z.of_nat n + Z.of_nat (9 - n)) with 9 by lia.
        reflexivity. }
      nia. }
    pose proof (fixedDigits_allDigits n q) as Hd.
    pose proof (trimZeros_value (fixedDigits n q) 0 Hd) as Hv.
    pose proof (trimZeros_allDigits _ Hd) as Hd'.
    pose proof (trimZeros_length (fixedDigits n q)) as Hl.
    rewrite fixedDigits_length in Hv, Hl.
    rewrite leadingInt_fixedDigits in Hv by lia.
    rewrite Z.mul_0_l, Z.add_0_l, Z.mod_small in Hv by lia.
    destruct (trimZeros (fixedDigits n q)) as [|c ds] eqn:Et.
    + cbn in Hv. lia.
    + exists c, ds. repeat split; try assumption; try lia.
      rewrite Hq, Hv.
      rewrite <- !Z.mul_assoc, <- Z.pow_add_r by lia.
      f_equal. f_equal. lia.
Qed.

End fracFacts.

Module roundFacts.
Import time aux timeFacts parseFacts formatFacts layoutFacts fracFacts.

(** The seconds, when the layout goes on with a fractional second. *)
Lemma parseStd_ZeroSecond_frac suffix x rest y m d h mi s0 ns z zo :
  0 <= x < 60 ->
  isFracSecond (snd (fst (nextStdChunk suffix))) = true ->
  parseStd stdZeroSecond suffix (fmt2 x ++ rest) (mkParsed y m d h mi s0 ns z zo)
  = Some (mkParsed y m d h mi x ns z zo, rest).
Proof.
  intros Hx Hf. cbn [parseStd]. rewrite getnum_fmt2 by lia.
  destruct (Z.ltb_spec x 0); [lia|]. destruct (Z.leb_spec 60 x); [lia|].
  cbn [p_year p_month p_day p_hour p_min p_sec p_nsec p_z p_zoneOffset].
  rewrite Hf. destruct rest as [|c0 [|c1 rest']]; try reflexivity.
  destruct (commaOrPeriod c0 && isDigitChar c1); reflexivity.
Qed.

(** The seconds and a fractional second that the layout does not have. *)
Lemma parseStd_ZeroSecond_nanos suffix x nsv rest y m d h mi s0 z zo :
  0 <= x < 60 -> 0 <= nsv < 1000000000 ->
  isFracSecond (snd (fst (nextStdChunk suffix))) = false ->
  noFraction rest -> isDigit0 rest = false ->
  parseStd stdZeroSecond suffix (fmt2 x ++ (fracText 9 nsv ++ rest))
           (mkParsed y m d h mi s0 0 z zo)
  = Some (mkParsed y m d h mi x nsv z zo, rest).
Proof.
  intros Hx Hns Hf Hnf Hnd.
  destruct (fracText_cases 9 nsv Hns ltac:(lia)) as
    [[E0 Et] | (c & ds & Et & Hd & Hl & Hv)].
  { cbn. apply Z.mod_1_r. }
  - rewrite Et. cbn [String.append]. subst nsv.
    apply parseStd_ZeroSecond; assumption.
  - rewrite Et. cbn [parseStd]. rewrite getnum_fmt2 by lia.
    destruct (Z.ltb_spec x 0); [lia|]. destruct (Z.leb_spec 60 x); [lia|].
    cbn [p_year p_month p_day p_hour p_min p_sec p_nsec p_z p_zoneOffset].
    rewrite Hf. cbn [String.append].
    assert (Hc : isDigitChar c = true)
      by (cbn [allDigits] in Hd; apply andb_prop in Hd; apply Hd).
    cbn [commaOrPeriod Ascii.eqb Bool.eqb orb andb]. rewrite Hc.
    destruct (parse_fraction c ds rest Hd Hl Hnd) as [E1 E2].
    cbv zeta in E1, E2. cbn [String.append] in E1, E2.
    rewrite E1, E2, Hv. reflexivity.
Qed.

(** The fractional second of the layout. *)
Lemma parseStd_Frac9 suffix n sep nsv rest y m d h mi s z zo :
  0 <= nsv < 1000000000 -> (n <= 9)%nat -> nsv mod 10 ^ Z.of_nat (9 - n) = 0 ->
  noFraction rest -> isDigit0 rest = false ->
  parseStd (stdFracSecond9 n sep) suffix (fracText n nsv ++ rest)
           (mkParsed y m d h mi s 0 z zo)
  = Some (mkParsed y m d h mi s nsv z zo, rest).
Proof.
  intros Hns Hn Hmod Hnf Hnd.
  destruct (fracText_cases n nsv Hns Hn Hmod) as
    [[E0 Et] | (c & ds & Et & Hd & Hl & Hv)].
  - rewrite Et. cbn [String.append parseStd]. subst nsv.
    destruct rest as [|c0 [|c1 rest']]; try reflexivity.
    cbn in Hnf. rewrite Hnf. reflexivity.
  - rewrite Et. cbn [parseStd String.append].
    assert (Hc : isDigitChar c = true)
      by (cbn [allDigits] in Hd; apply andb_prop in Hd; apply Hd).
    cbn [commaOrPeriod Ascii.eqb Bool.eqb orb andb]. rewrite Hc.
    destruct (parse_fraction c ds rest Hd Hl Hnd) as [E1 E2].
    cbv zeta in E1, E2. cbn [String.append] in E1, E2.
    unfold set_nsec. cbn [p_year p_month p_day p_hour p_min p_sec p_nsec p_z p_zoneOffset].
    rewrite E1, E2, Hv. reflexivity.
Qed.

(** *** The layouts of the package, written and read back *)

Lemma fmtDate_app y m d r s : (fmtDate y m d r ++ s)%string = fmtDate y m d (r ++ s).
Proof.
  unfold fmtDate. rewrite !app_assoc. cbn [String.append].
  rewrite !app_assoc. cbn [String.append]. rewrite !app_assoc. reflexivity.
Qed.

Lemma fmtClock_app h mi s r x : (fmtClock h mi s r ++ x)%string = fmtClock h mi s (r ++ x).
Proof.
  unfold fmtClock. rewrite !app_assoc. cbn [String.append].
  rewrite !app_assoc. cbn [String.append]. rewrite !app_assoc. reflexivity.
Qed.

Ltac parse_with tac :=
  erewrite parseLoop_step; [ | reflexivity | first [apply skip_space; lia | reflexivity] | tac ].

Ltac parse_field :=
  parse_with ltac:(first
    [ apply parseStd_LongYear | apply parseStd_ZeroMonth | apply parseStd_ZeroDay
    | apply parseStd_Hour | apply parseStd_ZeroMinute ]; lia).

Ltac finish_parse :=
  cbn [p_year p_month p_day p_hour p_min p_sec p_nsec p_z p_zoneOffset];
  change (daysIn 1 0) with 31;
  repeat match goal with
  | |- context [?a <? ?b] => destruct (Z.ltb_spec a b); try (exfalso; lia)
  | |- context [?a >? ?b] => destruct (Z.gtb_spec a b); try (exfalso; lia)
  | |- context [?a =? -1] => destruct (Z.eqb_spec a (-1)); try (exfalso; lia)
  end;
  cbn [orb negb].

Lemma Format_timeLayout t :
  Z.abs (zoneOffset (loc t)) < 86400 ->
  Time_Format t "15:04:05Z07:00"
  = fmtClock (Time_Hour t) (Time_Minute t) (Time_Second t)
             (fmtZoneISO (zoneOffset (loc t))).
Proof.
  intros Hoff. destruct (fields_range t) as (_ & _ & Hh & Hmi & Hs).
  unfold Time_Format. cbn [String.length]. format_steps.
  rewrite appendStd_ColonTZ by assumption. cbn [appendStd].
  rewrite !appendInt_2 by lia. unfold fmtClock.
  rewrite !app_assoc. cbn [String.append]. rewrite ?app_nil_r. reflexivity.
Qed.

Lemma Format_quotedTimeLayout t :
  Z.abs (zoneOffset (loc t)) < 86400 ->
  Time_Format t (quoted "15:04:05Z07:00")
  = String dquote (fmtClock (Time_Hour t) (Time_Minute t) (Time_Second t)
                     (fmtZoneISO (zoneOffset (loc t)) ++ String dquote EmptyString)).
Proof.
  intros Hoff. destruct (fields_range t) as (_ & _ & Hh & Hmi & Hs).
  unfold Time_Format. cbn [String.length quoted String.append]. format_steps.
  rewrite appendStd_ColonTZ by assumption. cbn [appendStd].
  rewrite !appendInt_2 by lia. unfold fmtClock.
  rewrite !app_assoc. cbn [String.append]. rewrite ?app_nil_r. reflexivity.
Qed.

Lemma parse_timeLayout h mi s off dl local :
  0 <= h < 24 -> 0 <= mi < 60 -> 0 <= s < 60 ->
  Z.abs off < 86400 -> off mod 60 = 0 ->
  parse "15:04:05Z07:00" (fmtClock h mi s (fmtZoneISO off)) dl local
  = (reparsed 0 1 1 h mi s 0 off (off =? 0) dl local, None) /\
  parse (quoted "15:04:05Z07:00")
        (String dquote (fmtClock h mi s (fmtZoneISO off ++ String dquote EmptyString)))
        dl local
  = (reparsed 0 1 1 h mi s 0 off (off =? 0) dl local, None).
Proof.
  intros Hh Hmi Hs Hoff Hmod. split.
  - unfold parse, fmtClock, parsed0. cbn [String.length].
    rewrite <- (app_nil_r (fmtZoneISO off)).
    do 2 parse_field.
    parse_with ltac:(apply parseStd_ZeroSecond; [lia | apply noFraction_zoneISO]).
    parse_with ltac:(apply parseStd_ColonTZ; assumption).
    erewrite parseLoop_end by reflexivity.
    unfold reparsed. destruct (Z.eqb_spec off 0) as [E|E]; finish_parse;
      try destruct (zoneOffset local =? off); reflexivity.
  - unfold parse, fmtClock, parsed0. cbn [String.length quoted String.append].
    do 2 parse_field.
    parse_with ltac:(apply parseStd_ZeroSecond; [lia | apply noFraction_zoneISO]).
    parse_with ltac:(apply parseStd_ColonTZ; assumption).
    erewrite parseLoop_end by reflexivity.
    unfold reparsed. destruct (Z.eqb_spec off 0) as [E|E]; finish_parse;
      try destruct (zoneOffset local =? off); reflexivity.
Qed.

Lemma Format_quotedDateLayout t :
  0 <= Time_Year t < 10000 ->
  Time_Format t (quoted "2006-01-02")
  = String dquote (fmtDate (Time_Year t) (Time_Month t) (Time_Day t)
                           (String dquote EmptyString)).
Proof.
  intros Hy. destruct (fields_range t) as (Hm & Hd & _).
  unfold Time_Format. cbn [String.length quoted String.append]. format_steps.
  cbn [appendStd]. rewrite appendInt_4, !appendInt_2 by lia. unfold fmtDate.
  rewrite !app_assoc. cbn [String.append]. rewrite ?app_nil_r. reflexivity.
Qed.

Lemma parse_quotedDateLayout y m d dl local :
  0 <= y < 10000 -> 1 <= m <= 12 -> 1 <= d <= daysIn m y ->
  parse (quoted "2006-01-02") (String dquote (fmtDate y m d (String dquote EmptyString)))
        dl local
  = (Date y m d 0 0 0 0 dl, None).
Proof.
  intros Hy Hm Hd.
  assert (Hd31 : 1 <= d <= 31).
  { rewrite daysIn_monthLen in Hd. pose proof (monthLen_bounds (isLeap y) m Hm). lia. }
  unfold parse, fmtDate, parsed0. cbn [String.length quoted String.append].
  do 3 parse_field.
  erewrite parseLoop_end by reflexivity.
  finish_parse; reflexivity.
Qed.

Lemma Format_TimeSQLLayout t :
  wf t -> Z.abs (zoneOffset (loc t)) < 86400 ->
  Time_Format t "15:04:05.999999-07"
  = fmtClock (Time_Hour t) (Time_Minute t) (Time_Second t)
             (fracText 6 (nsec t) ++ fmtZone (zoneOffset (loc t)) false false).
Proof.
  intros Hwf Hoff. destruct (fields_range t) as (_ & _ & Hh & Hmi & Hs).
  unfold Time_Format. cbn [String.length]. format_steps.
  rewrite appendStd_ShortTZ by assumption. cbn [appendStd].
  unfold Time_Nanosecond. rewrite appendNano_fracText by (try exact Hwf; lia).
  rewrite !appendInt_2 by lia. unfold fmtClock.
  rewrite !app_assoc. cbn [String.append]. rewrite ?app_nil_r. reflexivity.
Qed.

Lemma parse_TimeSQLLayout h mi s nsv off dl local :
  0 <= h < 24 -> 0 <= mi < 60 -> 0 <= s < 60 ->
  0 <= nsv < 1000000000 -> nsv mod 1000 = 0 ->
  Z.abs off < 86400 -> off mod 3600 = 0 ->
  parse "15:04:05.999999-07"
        (fmtClock h mi s (fracText 6 nsv ++ fmtZone off false false)) dl local
  = (reparsed 0 1 1 h mi s nsv off false dl local, None).
Proof.
  intros Hh Hmi Hs Hns Hnm Hoff Hmod.
  unfold parse, fmtClock, parsed0. cbn [String.length].
  rewrite <- (app_nil_r (fmtZone off false false)).
  do 2 parse_field.
  parse_with ltac:(apply parseStd_ZeroSecond_frac; [lia | reflexivity]).
  parse_with ltac:(apply parseStd_Frac9;
                   [lia | lia | exact Hnm | apply noFraction_zone | apply noDigit_zone]).
  parse_with ltac:(apply parseStd_ShortTZ; assumption).
  erewrite parseLoop_end by reflexivity.
  unfold reparsed. finish_parse; try destruct (zoneOffset local =? off); reflexivity.
Qed.

Lemma Format_dateTimeSQLLayout t :
  0 <= Time_Year t < 10000 -> Z.abs (zoneOffset (loc t)) < 86400 ->
  Time_Format t "2006-01-02 15:04:05-07"
  = fmtDate (Time_Year t) (Time_Month t) (Time_Day t)
      (String " " (fmtClock (Time_Hour t) (Time_Minute t) (Time_Second t)
                            (fmtZone (zoneOffset (loc t)) false false))).
Proof.
  intros Hy Hoff. destruct (fields_range t) as (Hm & Hd & Hh & Hmi & Hs).
  unfold Time_Format. cbn [String.length]. format_steps.
  rewrite appendStd_ShortTZ by assumption. cbn [appendStd].
  rewrite appendInt_4, !appendInt_2 by lia. unfold fmtDate, fmtClock.
  rewrite !app_assoc. cbn [String.append]. rewrite ?app_nil_r. reflexivity.
Qed.

Lemma parse_dateTimeSQLLayout y m d h mi s off dl local :
  0 <= y < 10000 -> 1 <= m <= 12 -> 1 <= d <= daysIn m y ->
  0 <= h < 24 -> 0 <= mi < 60 -> 0 <= s < 60 ->
  Z.abs off < 86400 -> off mod 3600 = 0 ->
  parse "2006-01-02 15:04:05-07"
        (fmtDate y m d (String " " (fmtClock h mi s (fmtZone off false false)))) dl local
  = (reparsed y m d h mi s 0 off false dl local, None).
Proof.
  intros Hy Hm Hd Hh Hmi Hs Hoff Hmod.
  assert (Hd31 : 1 <= d <= 31).
  { rewrite daysIn_monthLen in Hd. pose proof (monthLen_bounds (isLeap y) m Hm). lia. }
  unfold parse, fmtDate, fmtClock, parsed0. cbn [String.length].
  rewrite <- (app_nil_r (fmtZone off false false)).
  do 5 parse_field.
  parse_with ltac:(apply parseStd_ZeroSecond; [lia | apply noFraction_zone]).
  parse_with ltac:(apply parseStd_ShortTZ; assumption).
  erewrite parseLoop_end by reflexivity.
  unfold reparsed. finish_parse; try destruct (zoneOffset local =? off); reflexivity.
Qed.

Lemma Format_RFC3339Nano t :
  wf t -> 0 <= Time_Year t < 10000 -> Z.abs (zoneOffset (loc t)) < 86400 ->
  Time_Format t RFC3339Nano
  = fmtDate (Time_Year t) (Time_Month t) (Time_Day t)
      (String "T" (fmtClock (Time_Hour t) (Time_Minute t) (Time_Second t)
                            (fracText 9 (nsec t) ++ fmtZoneISO (zoneOffset (loc t))))).
Proof.
  intros Hwf Hy Hoff. destruct (fields_range t) as (Hm & Hd & Hh & Hmi & Hs).
  unfold Time_Format, RFC3339Nano. cbn [String.length]. format_steps.
  rewrite appendStd_ColonTZ by assumption. cbn [appendStd].
  unfold Time_Nanosecond. rewrite appendNano_fracText by (try exact Hwf; lia).
  rewrite appendInt_4, !appendInt_2 by lia. unfold fmtDate, fmtClock.
  rewrite !app_assoc. cbn [String.append]. rewrite ?app_nil_r. reflexivity.
Qed.

Lemma parse_RFC3339 y m d h mi s nsv off dl local :
  0 <= y < 10000 -> 1 <= m <= 12 -> 1 <= d <= daysIn m y ->
  0 <= h < 24 -> 0 <= mi < 60 -> 0 <= s < 60 -> 0 <= nsv < 1000000000 ->
  Z.abs off < 86400 -> off mod 60 = 0 ->
  parse RFC3339
        (fmtDate y m d (String "T" (fmtClock h mi s (fracText 9 nsv ++ fmtZoneISO off))))
        dl local
  = (reparsed y m d h mi s nsv off (off =? 0) dl local, None) /\
  parse (quoted RFC3339)
        (String dquote
           (fmtDate y m d (String "T" (fmtClock h mi s
              (fracText 9 nsv ++ (fmtZoneISO off ++ String dquote EmptyString))))))
        dl local
  = (reparsed y m d h mi s nsv off (off =? 0) dl local, None).
Proof.
  intros Hy Hm Hd Hh Hmi Hs Hns Hoff Hmod.
  assert (Hd31 : 1 <= d <= 31).
  { rewrite daysIn_monthLen in Hd. pose proof (monthLen_bounds (isLeap y) m Hm). lia. }
  split.
  - unfold parse, fmtDate, fmtClock, parsed0, RFC3339. cbn [String.length].
    rewrite <- (app_nil_r (fmtZoneISO off)).
    do 5 parse_field.
    parse_with ltac:(apply parseStd_ZeroSecond_nanos;
                     [lia | lia | reflexivity | apply noFraction_zoneISO
                     | apply noDigit_zoneISO]).
    parse_with ltac:(apply parseStd_ColonTZ; assumption).
    erewrite parseLoop_end by reflexivity.
    unfold reparsed. destruct (Z.eqb_spec off 0) as [E|E]; finish_parse;
      try destruct (zoneOffset local =? off); reflexivity.
  - unfold parse, fmtDate, fmtClock, parsed0, RFC3339.
    cbn [String.length quoted String.append].
    do 5 parse_field.
    parse_with ltac:(apply parseStd_ZeroSecond_nanos;
                     [lia | lia | reflexivity | apply noFraction_zoneISO
                     | apply noDigit_zoneISO]).
    parse_with ltac:(apply parseStd_ColonTZ; assumption).
    erewrite parseLoop_end by reflexivity.
    unfold reparsed. destruct (Z.eqb_spec off 0) as [E|E]; finish_parse;
      try destruct (zoneOffset local =? off); reflexivity.
Qed.

End roundFacts.

Module instantFacts.
Import time aux timeFacts parseFacts formatFacts layoutFacts fracFacts roundFacts.

(** The fields of [t], read back into an instant, are the instant of [t]. *)
Lemma reparsed_instant t utc dl local :
  wf t -> (utc = true -> zoneOffset (loc t) = 0) ->
  let r := reparsed (Time_Year t) (Time_Month t) (Time_Day t) (Time_Hour t)
                    (Time_Minute t) (Time_Second t) (nsec t) (zoneOffset (loc t))
                    utc dl local in
  sec r = sec t /\ nsec r = nsec t.
Proof.
  intros Hwf Hutc. cbv zeta. unfold reparsed.
  pose proof (Date_sec_of_fields t UTC Hwf) as E. unfold Time_Nanosecond in E.
  rewrite E. cbn [zoneOffset UTC sec nsec].
  destruct utc.
  - cbn [sec nsec]. unfold abs. rewrite (Hutc eq_refl). split; lia.
  - destruct (zoneOffset local =? zoneOffset (loc t)); cbn [sec nsec]; unfold abs;
      split; lia.
Qed.

Lemma Time_Equal_instant t u : sec t = sec u -> nsec t = nsec u -> Time_Equal t u = true.
Proof. intros E1 E2. unfold Time_Equal. rewrite E1, E2, !Z.eqb_refl. reflexivity. Qed.

Lemma utc_flag off : (off =? 0) = true -> off = 0.
Proof. apply Z.eqb_eq. Qed.

End instantFacts.

(** *** Round trips through text, JSON and SQL *)

Lemma string_bytes s : string_of_bytes (bytes_of_string s) = s.
Proof. apply string_of_list_byte_of_string. Qed.

Lemma quoted_not_null s : String.eqb (String time.dquote s) "null" = false.
Proof. reflexivity. Qed.

Lemma DateInv_rebuild d :
  DateInv d ->
  time.Date (Date_Year d) (Date_Month d) (Date_Day d) 0 0 0 0 time.UTC = Date_t d.
Proof.
  intros (Hh & Hmi & Hs & Hns & Hl).
  assert (Hwf : aux.wf (Date_t d)).
  { unfold aux.wf. unfold time.Time_Nanosecond in Hns. lia. }
  pose proof (formatFacts.Date_of_fields (Date_t d) Hwf) as E.
  rewrite Hh, Hmi, Hs, Hns, Hl in E. exact E.
Qed.

Lemma Date_text_roundtrip Local d d0 :
  DateInv d -> 0 <= Date_Year d <= 9999 ->
  Date_UnmarshalText Local d0 (fst (Date_MarshalText d)) = (d, None) /\
  Date_UnmarshalJSON Local d0 (fst (Date_MarshalJSON d)) = (d, None) /\
  Date_Scan Local d0 (fst (Date_Value d)) = (d, None).
Proof.
  intros Hinv Hy. pose proof (DateInv_rebuild d Hinv) as Ereb.
  destruct (formatFacts.fields_valid (Date_t d)) as (Hm & Hd & _).
  assert (Ed : DateFromStdTime (Date_t d) = d).
  { unfold DateFromStdTime. fold (Date_Year d) (Date_Month d) (Date_Day d).
    rewrite Ereb. destruct d; reflexivity. }
  unfold Date_UnmarshalText, Date_MarshalText, Date_UnmarshalJSON, Date_MarshalJSON,
    Date_Scan, Date_Value, Date_String, dateLayout, quotedDateLayout, time.Parse.
  cbn [fst]. rewrite !string_bytes.
  rewrite layoutFacts.Format_dateLayout by (unfold Date_Year in Hy; lia).
  unfold time.quoted at 2.
  rewrite roundFacts.fmtDate_app. cbn [String.append].
  fold (Date_Year d) (Date_Month d) (Date_Day d).
  rewrite layoutFacts.parse_dateLayout by (try assumption; lia).
  rewrite roundFacts.parse_quotedDateLayout by (try assumption; lia).
  rewrite Ereb, Ed. destruct d; auto.
Qed.

Lemma Time_text_roundtrip Local t t0 :
  TimeInv t -> aux.wf (Time_t t) ->
  Z.abs (time.zoneOffset (time.loc (Time_t t))) < 86400 ->
  time.nsec (Time_t t) = 0 -> time.zoneOffset (time.loc (Time_t t)) mod 60 = 0 ->
  (snd (Time_UnmarshalText Local t0 (fst (Time_MarshalText t))) = None /\
   Time_Equal (fst (Time_UnmarshalText Local t0 (fst (Time_MarshalText t)))) t = true) /\
  (snd (Time_UnmarshalJSON Local t0 (fst (Time_MarshalJSON t))) = None /\
   Time_Equal (fst (Time_UnmarshalJSON Local t0 (fst (Time_MarshalJSON t)))) t = true).
Proof.
  intros (Hy & Hm & Hd) Hwf Hoff Hns Hmod.
  destruct (layoutFacts.fields_range (Time_t t)) as (_ & _ & Hh & Hmi & Hs).
  destruct (instantFacts.reparsed_instant (Time_t t)
              (time.zoneOffset (time.loc (Time_t t)) =? 0) time.UTC Local Hwf
              (instantFacts.utc_flag _)) as [Es En].
  cbv zeta in Es, En. rewrite Hy, Hm, Hd, Hns in Es, En.
  destruct (roundFacts.parse_timeLayout _ _ _ _ time.UTC Local Hh Hmi Hs Hoff Hmod)
    as [P1 P2].
  unfold Time_UnmarshalText, Time_MarshalText, Time_UnmarshalJSON, Time_MarshalJSON,
    Time_String, quotedTimeLayout, time.Parse, Time_Equal.
  unfold timeLayout. cbn [fst]. rewrite !string_bytes.
  rewrite roundFacts.Format_timeLayout, roundFacts.Format_quotedTimeLayout by assumption.
  rewrite P1, P2. cbn [fst snd Time_t].
  rewrite instantFacts.Time_Equal_instant by (rewrite ?Hns; assumption). auto.
Qed.

Lemma Time_sql_roundtrip Local t t0 :
  TimeInv t -> aux.wf (Time_t t) ->
  Z.abs (time.zoneOffset (time.loc (Time_t t))) < 86400 ->
  time.nsec (Time_t t) mod 1000 = 0 -> time.zoneOffset (time.loc (Time_t t)) mod 3600 = 0 ->
  snd (Time_Scan Local t0 (fst (Time_Value t))) = None /\
  Time_Equal (fst (Time_Scan Local t0 (fst (Time_Value t)))) t = true.
Proof.
  intros (Hy & Hm & Hd) Hwf Hoff Hns Hmod.
  destruct (layoutFacts.fields_range (Time_t t)) as (_ & _ & Hh & Hmi & Hs).
  destruct (instantFacts.reparsed_instant (Time_t t) false time.UTC Local Hwf
              ltac:(discriminate)) as [Es En].
  cbv zeta in Es, En. rewrite Hy, Hm, Hd in Es, En.
  unfold Time_Scan, Time_Value, TimeSQLLayout, time.Parse, Time_Equal.
  cbn [fst]. rewrite roundFacts.Format_TimeSQLLayout by assumption.
  rewrite roundFacts.parse_TimeSQLLayout by (try assumption; exact Hwf).
  cbn [fst snd Time_t].
  rewrite instantFacts.Time_Equal_instant by assumption. auto.
Qed.

Lemma DateTime_text_roundtrip Local dt dt0 :
  aux.wf (DateTime_t dt) -> 0 <= DateTime_Year dt <= 9999 ->
  Z.abs (time.zoneOffset (time.loc (DateTime_t dt))) < 86400 ->
  time.zoneOffset (time.loc (DateTime_t dt)) mod 60 = 0 ->
  (snd (DateTime_MarshalText dt) = None /\
   snd (DateTime_UnmarshalText Local dt0 (fst (DateTime_MarshalText dt))) = None /\
   DateTime_Equal (fst (DateTime_UnmarshalText Local dt0 (fst (DateTime_MarshalText dt))))
                  dt = true) /\
  (snd (DateTime_MarshalJSON dt) = None /\
   snd (DateTime_UnmarshalJSON Local dt0 (fst (DateTime_MarshalJSON dt))) = None /\
   DateTime_Equal (fst (DateTime_UnmarshalJSON Local dt0 (fst (DateTime_MarshalJSON dt))))
                  dt = true).
Proof.
  intros Hwf Hy Hoff Hmod. unfold DateTime_Year in Hy.
  destruct (formatFacts.fields_valid (DateTime_t dt)) as (Hm & Hd & _).
  destruct (layoutFacts.fields_range (DateTime_t dt)) as (_ & _ & Hh & Hmi & Hs).
  destruct (instantFacts.reparsed_instant (DateTime_t dt)
              (time.zoneOffset (time.loc (DateTime_t dt)) =? 0) time.UTC Local Hwf
              (instantFacts.utc_flag _)) as [Es En].
  cbv zeta in Es, En.
  assert (Hy' : 0 <= time.Time_Year (DateTime_t dt) < 10000) by lia.
  destruct (roundFacts.parse_RFC3339 _ _ _ _ _ _ (time.nsec (DateTime_t dt))
              _ time.UTC Local Hy' Hm Hd Hh Hmi Hs Hwf Hoff Hmod) as [P1 P2].
  unfold DateTime_UnmarshalText, DateTime_MarshalText, DateTime_UnmarshalJSON,
    DateTime_MarshalJSON, time.Time_MarshalText, time.Time_MarshalJSON,
    time.Time_UnmarshalText, time.Time_UnmarshalJSON, time.Parse, DateTime_Equal.
  destruct (Z.ltb_spec (time.Time_Year (DateTime_t dt)) 0); [lia|].
  destruct (Z.geb_spec (time.Time_Year (DateTime_t dt)) 10000); [lia|].
  cbn [orb fst snd]. rewrite !string_bytes.
  rewrite roundFacts.Format_RFC3339Nano by (try assumption; lia).
  match goal with
  | |- context [time.quoted (aux.fmtDate ?y ?m ?d ?r)] =>
      replace (time.quoted (aux.fmtDate y m d r))
        with (String time.dquote
                (aux.fmtDate y m d (r ++ String time.dquote EmptyString)))
        by (unfold time.quoted; rewrite roundFacts.fmtDate_app; reflexivity)
  end.
  cbn [String.append]. rewrite roundFacts.fmtClock_app, formatFacts.app_assoc.
  rewrite quoted_not_null, P1, P2. cbn [fst snd DateTime_t].
  rewrite instantFacts.Time_Equal_instant by assumption. auto.
Qed.

Lemma DateTime_sql_roundtrip Local dt dt0 :
  aux.wf (DateTime_t dt) -> 0 <= DateTime_Year dt <= 9999 ->
  Z.abs (time.zoneOffset (time.loc (DateTime_t dt))) < 86400 ->
  time.nsec (DateTime_t dt) = 0 ->
  time.zoneOffset (time.loc (DateTime_t dt)) mod 3600 = 0 ->
  snd (DateTime_Scan Local dt0 (fst (DateTime_Value dt))) = None /\
  DateTime_Equal (fst (DateTime_Scan Local dt0 (fst (DateTime_Value dt)))) dt = true.
Proof.
  intros Hwf Hy Hoff Hns Hmod. unfold DateTime_Year in Hy.
  destruct (formatFacts.fields_valid (DateTime_t dt)) as (Hm & Hd & _).
  destruct (layoutFacts.fields_range (DateTime_t dt)) as (_ & _ & Hh & Hmi & Hs).
  destruct (instantFacts.reparsed_instant (DateTime_t dt) false time.UTC Local Hwf
              ltac:(discriminate)) as [Es En].
  cbv zeta in Es, En. rewrite Hns in Es, En.
  unfold DateTime_Scan, DateTime_Value, dateTimeSQLLayout, time.Parse, DateTime_Equal.
  cbn [fst]. rewrite roundFacts.Format_dateTimeSQLLayout by (try assumption; lia).
  rewrite roundFacts.parse_dateTimeSQLLayout by (try assumption; lia).
  cbn [fst snd DateTime_t].
  rewrite instantFacts.Time_Equal_instant by (rewrite ?Hns; assumption). auto.
Qed.

(** C4, as stated, fails: the text form of a [Time] has no fractional
    second, so 03:04:05.000000010 is read back as 03:04:05 and the two are
    not equal. *)
Lemma C4_counterexample :
  let t := NewTime 3 4 5 10 time.UTC in
  let r := Time_UnmarshalText time.UTC t (fst (Time_MarshalText t)) in
  snd r = None /\ Time_Equal (fst r) t = false.
Proof. vm_compute. split; reflexivity. Qed.

(** C4, amended: a [Date] whose clock is midnight in UTC and whose year is
    in [0, 9999] comes back unchanged, without error, from text, from JSON
    and from [Value] followed by [Scan].  A [Time] dated January 1 of year
    0, with a nanosecond in [0, 10^9) and a zone offset of less than 24
    hours, comes back as an equal value from text and JSON when its
    nanosecond is 0 and its offset a whole number of minutes, and from
    [Value] followed by [Scan] when its nanosecond is a whole number of
    microseconds and its offset a whole number of hours.  A [DateTime] with
    a year in [0, 9999], a nanosecond in [0, 10^9) and a zone offset of
    less than 24 hours comes back as an equal value from text and JSON
    when its offset is a whole number of minutes, and from [Value]
    followed by [Scan] when its nanosecond is 0 and its offset a whole
    number of hours. *)
Theorem C4_roundtrips (Local : time.Location)
    (d d0 : Date) (t t0 : Time) (dt dt0 : DateTime) :
  (DateInv d -> 0 <= Date_Year d <= 9999 ->
   Date_UnmarshalText Local d0 (fst (Date_MarshalText d)) = (d, None) /\
   Date_UnmarshalJSON Local d0 (fst (Date_MarshalJSON d)) = (d, None) /\
   Date_Scan Local d0 (fst (Date_Value d)) = (d, None)) /\
  (TimeInv t -> 0 <= Time_Nanosecond t < 1000000000 ->
   Z.abs (time.zoneOffset (Time_Location t)) < 86400 ->
   (Time_Nanosecond t = 0 -> time.zoneOffset (Time_Location t) mod 60 = 0 ->
    (snd (Time_UnmarshalText Local t0 (fst (Time_MarshalText t))) = None /\
     Time_Equal (fst (Time_UnmarshalText Local t0 (fst (Time_MarshalText t)))) t = true) /\
    (snd (Time_UnmarshalJSON Local t0 (fst (Time_MarshalJSON t))) = None /\
     Time_Equal (fst (Time_UnmarshalJSON Local t0 (fst (Time_MarshalJSON t)))) t = true)) /\
   (Time_Nanosecond t mod 1000 = 0 -> time.zoneOffset (Time_Location t) mod 3600 = 0 ->
    snd (Time_Scan Local t0 (fst (Time_Value t))) = None /\
    Time_Equal (fst (Time_Scan Local t0 (fst (Time_Value t)))) t = true)) /\
  (0 <= DateTime_Year dt <= 9999 -> 0 <= DateTime_Nanosecond dt < 1000000000 ->
   Z.abs (time.zoneOffset (DateTime_Location dt)) < 86400 ->
   (time.zoneOffset (DateTime_Location dt) mod 60 = 0 ->
    (snd (DateTime_MarshalText dt) = None /\
     snd (DateTime_UnmarshalText Local dt0 (fst (DateTime_MarshalText dt))) = None /\
     DateTime_Equal (fst (DateTime_UnmarshalText Local dt0 (fst (DateTime_MarshalText dt))))
                    dt = true) /\
    (snd (DateTime_MarshalJSON dt) = None /\
     snd (DateTime_UnmarshalJSON Local dt0 (fst (DateTime_MarshalJSON dt))) = None /\
     DateTime_Equal (fst (DateTime_UnmarshalJSON Local dt0 (fst (DateTime_MarshalJSON dt))))
                    dt = true)) /\
   (DateTime_Nanosecond dt = 0 -> time.zoneOffset (DateTime_Location dt) mod 3600 = 0 ->
    snd (DateTime_Scan Local dt0 (fst (DateTime_Value dt))) = None /\
    DateTime_Equal (fst (DateTime_Scan Local dt0 (fst (DateTime_Value dt)))) dt = true)).
Proof.
  split; [|split].
  - intros Hinv Hy. apply Date_text_roundtrip; assumption.
  - intros Hinv Hwf Hoff. split.
    + intros Hns Hmod. apply Time_text_roundtrip; assumption.
    + intros Hns Hmod. apply Time_sql_roundtrip; assumption.
  - intros Hy Hwf Hoff. split.
    + intros Hmod. apply DateTime_text_roundtrip; assumption.
    + intros Hns Hmod. apply DateTime_sql_roundtrip; assumption.
Qed.

Lemma C4_roundtrips_witness :
  let est := time.FixedZone "EST" (-18000) in
  let d := NewDate 2024 2 29 in
  let t := TimeFromStdTime (time.Date 2024 2 29 13 4 5 0 est) in
  let dt := NewDateTime 2024 2 29 13 4 5 0 est in
  Date_UnmarshalText time.UTC (NewDate 1 1 1) (fst (Date_MarshalText d)) = (d, None) /\
  Time_Equal (fst (Time_UnmarshalText time.UTC t (fst (Time_MarshalText t)))) t = true /\
  Time_Equal (fst (Time_Scan time.UTC t (fst (Time_Value t)))) t = true /\
  DateTime_Equal (fst (DateTime_UnmarshalJSON time.UTC dt (fst (DateTime_MarshalJSON dt))))
                 dt = true /\
  DateTime_Equal (fst (DateTime_Scan time.UTC dt (fst (DateTime_Value dt)))) dt = true.
Proof.
  cbv zeta.
  destruct (C4_roundtrips time.UTC (NewDate 2024 2 29) (NewDate 1 1 1)
              (TimeFromStdTime (time.Date 2024 2 29 13 4 5 0 (time.FixedZone "EST" (-18000))))
              (TimeFromStdTime (time.Date 2024 2 29 13 4 5 0 (time.FixedZone "EST" (-18000))))
              (NewDateTime 2024 2 29 13 4 5 0 (time.FixedZone "EST" (-18000)))
              (NewDateTime 2024 2 29 13 4 5 0 (time.FixedZone "EST" (-18000))))
    as (HD & HT & HDT).
  destruct HD as (HD & _).
  { vm_compute. repeat split; reflexivity. }
  { vm_compute. split; discriminate. }
  destruct HT as (HT1 & HT2).
  { vm_compute. repeat split; reflexivity. }
  { vm_compute. split; [discriminate | reflexivity]. }
  { vm_compute. reflexivity. }
  destruct HT1 as ((_ & HT1) & _); [vm_compute; reflexivity | vm_compute; reflexivity |].
  destruct HT2 as (_ & HT2); [vm_compute; reflexivity | vm_compute; reflexivity |].
  destruct HDT as (HDT1 & HDT2).
  { vm_compute. split; discriminate. }
  { vm_compute. split; [discriminate | reflexivity]. }
  { vm_compute. reflexivity. }
  destruct HDT1 as (_ & (_ & _ & HDT1)); [vm_compute; reflexivity |].
  destruct HDT2 as (_ & HDT2); [vm_compute; reflexivity | vm_compute; reflexivity |].
  repeat split; assumption.
Defined.

Module calendarFacts.
Import time aux timeFacts parseFacts formatFacts.

(** *** The day count is monotone *)

Lemma yearLen_pos y : 365 <= yearLen y <= 366.
Proof. unfold yearLen. destruct (isLeap y); lia. Qed.

Lemma daysSinceEpoch_step (n : nat) : forall y,
  daysSinceEpoch y + yearLen y + 365 * Z.of_nat n <= daysSinceEpoch (y + 1 + Z.of_nat n).
Proof.
  induction n as [|n IH]; intros y.
  - change (Z.of_nat 0) with 0. rewrite Z.mul_0_r, !Z.add_0_r, daysSinceEpoch_succ. lia.
  - specialize (IH y). replace (y + 1 + Z.of_nat (S n)) with ((y + 1 + Z.of_nat n) + 1) by lia.
    rewrite daysSinceEpoch_succ. pose proof (yearLen_pos (y + 1 + Z.of_nat n)). lia.
Qed.

Lemma daysSinceEpoch_lt y y' :
  y < y' -> daysSinceEpoch y + yearLen y <= daysSinceEpoch y'.
Proof.
  intros H. pose proof (daysSinceEpoch_step (Z.to_nat (y' - y - 1)) y) as S.
  rewrite Z2Nat.id in S by lia. replace (y + 1 + (y' - y - 1)) with y' in S by lia. lia.
Qed.

Lemma civilDays_range y m d :
  1 <= m <= 12 -> 1 <= d <= daysIn m y ->
  daysSinceEpoch y <= civilDays y m d < daysSinceEpoch y + yearLen y.
Proof.
  intros Hm Hd. unfold civilDays. rewrite daysIn_monthLen in Hd.
  pose proof (ydayOf_range (isLeap y) m d Hm Hd) as R. unfold yearLen.
  destruct (isLeap y); lia.
Qed.

Lemma ydayOf_month_lt leap m m' d d' :
  1 <= m -> m < m' -> m' <= 12 -> 1 <= d <= monthLen leap m -> 1 <= d' ->
  ydayOf leap m d < ydayOf leap m' d'.
Proof.
  intros H1 H2 H3 Hd Hd'.
  set (P := fun (lp : bool) (a b : Z) =>
    (b <=? a) || (daysBefore (a - 1) + leapAdj lp a + monthLen lp a
                  <=? daysBefore (b - 1) + leapAdj lp b)).
  assert (Hall : forall lp,
    forallb (fun a => forallb (P lp a) (Zrange 1 12)) (Zrange 1 12) = true).
  { intros [|]; vm_compute; reflexivity. }
  pose proof (forallb_Zrange _ _ _ (Hall leap) m ltac:(lia)) as E1.
  cbv beta in E1.
  pose proof (forallb_Zrange _ _ _ E1 m' ltac:(lia)) as E2.
  unfold P in E2. apply orb_prop in E2. unfold ydayOf. destruct E2 as [E|E]; lia.
Qed.

(** The day count orders valid dates as year, month, day do. *)
Lemma civilDays_lt y m d y' m' d' :
  1 <= m <= 12 -> 1 <= d <= daysIn m y ->
  1 <= m' <= 12 -> 1 <= d' <= daysIn m' y' ->
  (civilDays y m d < civilDays y' m' d' <->
   y < y' \/ (y = y' /\ (m < m' \/ (m = m' /\ d < d')))).
Proof.
  intros Hm Hd Hm' Hd'.
  pose proof (civilDays_range y m d Hm Hd) as R.
  pose proof (civilDays_range y' m' d' Hm' Hd') as R'.
  destruct (Z.lt_trichotomy y y') as [Hy|[Hy|Hy]].
  - pose proof (daysSinceEpoch_lt y y' Hy). split; [auto | lia].
  - subst y'. rewrite daysIn_monthLen in Hd, Hd'. unfold civilDays.
    destruct (Z.lt_trichotomy m m') as [Hmm|[Hmm|Hmm]].
    + pose proof (ydayOf_month_lt (isLeap y) m m' d d' ltac:(lia) Hmm ltac:(lia) Hd ltac:(lia)).
      split; [auto | lia].
    + subst m'. unfold ydayOf. split; [intros; right; split; [reflexivity|]; right; lia | lia].
    + pose proof (ydayOf_month_lt (isLeap y) m' m d' d ltac:(lia) Hmm ltac:(lia) Hd' ltac:(lia)).
      split; [lia | intros [?|[_ [?|[? _]]]]; lia].
  - pose proof (daysSinceEpoch_lt y' y Hy). split; [lia | intros [?|[? _]]; lia].
Qed.

Lemma civilDays_inj y m d y' m' d' :
  1 <= m <= 12 -> 1 <= d <= daysIn m y ->
  1 <= m' <= 12 -> 1 <= d' <= daysIn m' y' ->
  civilDays y m d = civilDays y' m' d' -> y = y' /\ m = m' /\ d = d'.
Proof.
  intros Hm Hd Hm' Hd' E.
  pose proof (civilDays_lt y m d y' m' d' Hm Hd Hm' Hd') as L1.
  pose proof (civilDays_lt y' m' d' y m d Hm' Hd' Hm Hd) as L2.
  lia.
Qed.

(** [Date] with the last month of the year running over. *)
Lemma Date_day_overflow_any y m d l :
  1 <= m <= 12 ->
  Date y m d 0 0 0 0 l = Date y (m + 1) (d - daysIn m y) 0 0 0 0 l.
Proof.
  intros Hm. destruct (Z.eq_dec m 12) as [->|Hne].
  - rewrite (Date_norm_month y (12 + 1)).
    change ((12 + 1 - 1) / 12) with 1. change ((12 + 1 - 1) mod 12 + 1) with 1.
    rewrite !Date_sec by lia. f_equal. unfold civilDays.
    rewrite daysSinceEpoch_succ. unfold yearLen, ydayOf, leapAdj.
    change (daysIn 12 y) with 31. change (daysBefore (12 - 1)) with 334.
    change (daysBefore (1 - 1)) with 0. cbn [Z.geb Z.compare Pos.compare Pos.compare_cont andb].
    rewrite andb_false_r. destruct (isLeap y); cbn [andb]; lia.
  - apply Date_day_overflow. lia.
Qed.

End calendarFacts.

(** *** [Date]: construction and accessors *)

Lemma DateInv_sec d :
  DateInv d ->
  Date_t d = time.mkTime (aux.civilDays (Date_Year d) (Date_Month d) (Date_Day d)
                          * 86400) 0 time.UTC.
Proof.
  intros Hinv. rewrite <- (DateInv_rebuild d Hinv) at 1.
  destruct (formatFacts.fields_valid (Date_t d)) as (Hm & _).
  rewrite timeFacts.Date_sec by (try exact Hm; lia). f_equal. cbn. lia.
Qed.

Lemma DateFromStdTime_fixed d : DateInv d -> DateFromStdTime (Date_t d) = d.
Proof.
  intros Hinv. unfold DateFromStdTime.
  fold (Date_Year d) (Date_Month d) (Date_Day d).
  rewrite (DateInv_rebuild d Hinv). destruct d; reflexivity.
Qed.

(** X1: a [Date] built from a year, a month and a day that exists in
    that month reads back exactly these three fields, through [Date] and
    through [Year], [Month] and [Day]. *)
Theorem NewDate_reads_back (y m d : Z) :
  validDate y m d ->
  Date_Date (NewDate y m d) = (y, m, d) /\
  Date_Year (NewDate y m d) = y /\ Date_Month (NewDate y m d) = m /\
  Date_Day (NewDate y m d) = d.
Proof.
  intros [Hm Hd]. split; [apply NewDate_fields | apply NewDate_ymd]; assumption.
Qed.

Lemma NewDate_reads_back_witness :
  Date_Date (NewDate 2024 2 29) = (2024, 2, 29).
Proof.
  apply (NewDate_reads_back 2024 2 29).
  unfold validDate. vm_compute. repeat split; discriminate.
Defined.

(** X2: [NewDate] normalises its arguments as [time.Date] does: a month
    outside 1..12 is carried into the year, and a day beyond the end of
    the month is carried into the next month (so day 0 is the last day of
    the month before). *)
Theorem NewDate_normalises (y m d : Z) :
  NewDate y m d = NewDate (y + (m - 1) / 12) ((m - 1) mod 12 + 1) d /\
  (1 <= m <= 12 -> NewDate y m d = NewDate y (m + 1) (d - time.daysIn m y)).
Proof.
  unfold NewDate. split.
  - f_equal. apply timeFacts.Date_norm_month.
  - intros Hm. f_equal. apply calendarFacts.Date_day_overflow_any. exact Hm.
Qed.

Lemma NewDate_normalises_witness :
  NewDate 2023 12 32 = NewDate 2023 13 1 /\ NewDate 2023 13 1 = NewDate 2024 1 1.
Proof.
  split.
  - apply (NewDate_normalises 2023 12 32). lia.
  - apply (NewDate_normalises 2023 13 1).
Defined.

Module rejectFacts.
Import time aux timeFacts parseFacts formatFacts layoutFacts.

Lemma parseLoop_fail fuel layout value st prefix sd suffix v1 :
  nextStdChunk layout = (prefix, Some sd, suffix) ->
  skip value prefix = Some v1 ->
  parseStd sd suffix v1 st = None ->
  parseLoop (S fuel) layout value st = None.
Proof. intros E1 E2 E3. cbn [parseLoop]. rewrite E1, E2, E3. reflexivity. Qed.

Lemma parseStd_ZeroMonth_bad suffix x rest st :
  0 <= x < 100 -> ~ 1 <= x <= 12 ->
  parseStd stdZeroMonth suffix (fmt2 x ++ rest) st = None.
Proof.
  intros Hx Hbad. cbn [parseStd]. rewrite getnum_fmt2 by lia.
  destruct (Z.leb_spec x 0); [reflexivity|].
  destruct (Z.ltb_spec 12 x); [reflexivity|]. lia.
Qed.

(** The text of a year, a month and a day that do not make a date. *)
Lemma parse_dateLayout_invalid y m d dl local :
  0 <= y < 10000 -> 0 <= m < 100 -> 0 <= d < 100 ->
  ~ (1 <= m <= 12 /\ 1 <= d <= daysIn m y) ->
  parse "2006-01-02" (fmtDate y m d EmptyString) dl local
  = (zero, Some (ParseError "2006-01-02" (fmtDate y m d EmptyString))).
Proof.
  intros Hy Hm Hd Hbad.
  unfold parse. unfold fmtDate at 1. unfold parsed0. cbn [String.length].
  parse_step.
  destruct (Z.leb_spec 1 m) as [H1|H1]; [destruct (Z.leb_spec m 12) as [H2|H2]|].
  - do 2 parse_step. erewrite parseLoop_end by reflexivity.
    cbn [p_year p_month p_day p_hour p_min p_sec p_nsec p_z p_zoneOffset].
    destruct (Z.ltb_spec m 0); [lia|]. destruct (Z.ltb_spec d 0); [lia|].
    destruct (Z.ltb_spec d 1); [reflexivity|].
    destruct (Z.gtb_spec d (daysIn m y)); [reflexivity|]. lia.
  - erewrite parseLoop_fail;
      [reflexivity | reflexivity | reflexivity | apply parseStd_ZeroMonth_bad; lia].
  - erewrite parseLoop_fail;
      [reflexivity | reflexivity | reflexivity | apply parseStd_ZeroMonth_bad; lia].
Qed.

End rejectFacts.

(** X3: the text that [String] gives for a [Date] with a year in
    [0, 9999] and the clock at midnight UTC is read back by
    [DateFromString], and by [DateFromLayout] with the same layout, as the
    same [Date], without error. *)
Theorem DateFromString_String (d : Date) :
  DateInv d -> 0 <= Date_Year d <= 9999 ->
  DateFromString (Date_String d) = (d, None) /\
  DateFromLayout "2006-01-02" (Date_String d) = (d, None).
Proof.
  intros Hinv Hy. pose proof (DateInv_rebuild d Hinv) as Ereb.
  destruct (formatFacts.fields_valid (Date_t d)) as (Hm & Hd & _).
  assert (E : time.ParseInLocation "2006-01-02" (Date_String d) time.UTC
              = (Date_t d, None)).
  { unfold time.ParseInLocation, Date_String, dateLayout.
    rewrite layoutFacts.Format_dateLayout by (unfold Date_Year in Hy; lia).
    fold (Date_Year d) (Date_Month d) (Date_Day d).
    rewrite layoutFacts.parse_dateLayout by (try assumption; lia).
    rewrite Ereb. reflexivity. }
  unfold DateFromString, DateFromLayout, dateLayout.
  rewrite E, (DateFromStdTime_fixed d Hinv). auto.
Qed.

Lemma DateFromString_String_witness :
  DateFromString (Date_String (NewDate 2024 2 29)) = (NewDate 2024 2 29, None).
Proof.
  apply (DateFromString_String (NewDate 2024 2 29)).
  - vm_compute. repeat split; reflexivity.
  - vm_compute. split; discriminate.
Defined.

(** X4: [DateFromString] checks the calendar.  A text of the form
    YYYY-MM-DD, with four digits for the year and two each for month and
    day, gives the date of these fields when the month is in 1..12 and the
    day exists in that month of that year; otherwise it gives the zero
    [Date] and an error that wraps the parse error. *)
Theorem DateFromString_validates (y m d : Z) :
  0 <= y < 10000 -> 0 <= m < 100 -> 0 <= d < 100 ->
  (validDate y m d ->
   DateFromString (aux.fmtDate y m d EmptyString) = (NewDate y m d, None)) /\
  (~ validDate y m d ->
   DateFromString (aux.fmtDate y m d EmptyString)
   = (mkDate time.zero,
      Some (fmtErrorfWrap "failed to parse date: %w" []
              (ParseError dateLayout (aux.fmtDate y m d EmptyString))))).
Proof.
  intros Hy Hm Hd. unfold DateFromString, time.ParseInLocation, dateLayout. split.
  - intros [Hm' Hd'].
    rewrite layoutFacts.parse_dateLayout by assumption.
    rewrite DateFromStdTime_Date by (try assumption; lia). reflexivity.
  - intros Hbad. rewrite rejectFacts.parse_dateLayout_invalid by assumption.
    reflexivity.
Qed.

Lemma DateFromString_validates_witness :
  DateFromString "2024-02-29" = (NewDate 2024 2 29, None) /\
  DateFromString "2023-02-29"
  = (mkDate time.zero,
     Some (fmtErrorfWrap "failed to parse date: %w" []
             (ParseError dateLayout "2023-02-29"))) /\
  snd (DateFromString "2023-13-01") <> None.
Proof.
  destruct (DateFromString_validates 2024 2 29) as [H1 _]; try lia.
  destruct (DateFromString_validates 2023 2 29) as [_ H2]; try lia.
  destruct (DateFromString_validates 2023 13 1) as [_ H3]; try lia.
  split; [|split].
  - apply H1. unfold validDate. vm_compute. repeat split; discriminate.
  - apply H2. unfold validDate. vm_compute. intros [_ [_ H]]. apply H. reflexivity.
  - change "2023-13-01"%string with (aux.fmtDate 2023 13 1 EmptyString).
    rewrite H3; [discriminate|].
    unfold validDate. vm_compute. intros [[_ H] _]. apply H. reflexivity.
Defined.

(** X5: a [Date] whose clock is midnight UTC is the zero value exactly
    when its calendar date is January 1 of year 1. *)
Theorem Date_IsZero_iff (d : Date) :
  DateInv d -> (Date_IsZero d = true <-> Date_Date d = (1, 1, 1)).
Proof.
  intros Hinv. split.
  - intros Hz. destruct Hinv as (_ & _ & _ & _ & Hl).
    destruct d as [[s n l]]. unfold Date_IsZero, time.Time_IsZero in Hz.
    cbn [Date_t time.sec time.nsec time.Time_Location time.loc] in *.
    apply andb_prop in Hz. destruct Hz as [Hs Hn].
    apply Z.eqb_eq in Hs. apply Z.eqb_eq in Hn. subst. reflexivity.
  - intros E. pose proof (DateInv_sec d Hinv) as S.
    unfold Date_Year, Date_Month, Date_Day, time.Time_Year, time.Time_Month,
      time.Time_Day in S. unfold Date_Date in E. rewrite E in S. cbn [fst snd] in S.
    unfold Date_IsZero. rewrite S. reflexivity.
Qed.

Lemma Date_IsZero_iff_witness :
  Date_IsZero (NewDate 1 1 1) = true /\ Date_IsZero (NewDate 2024 2 29) = false.
Proof.
  split.
  - apply (Date_IsZero_iff (NewDate 1 1 1)).
    + vm_compute. repeat split; reflexivity.
    + reflexivity.
  - destruct (Date_IsZero (NewDate 2024 2 29)) eqn:E; [|reflexivity].
    apply (Date_IsZero_iff (NewDate 2024 2 29)) in E.
    + vm_compute in E. discriminate.
    + vm_compute. repeat split; reflexivity.
Defined.

(** X6: on [Date]s whose clock is midnight UTC, [Equal] is equality of
    the values, and two such [Date]s are equal exactly when they show the
    same year, month and day. *)
Theorem Date_Equal_eq (d e : Date) :
  DateInv d -> DateInv e ->
  (Date_Equal d e = true <-> d = e) /\
  (Date_Date d = Date_Date e <-> d = e).
Proof.
  intros Hd He. split; split.
  - intros Heq. destruct Hd as (_ & _ & _ & Hn & Hl). destruct He as (_ & _ & _ & Hn' & Hl').
    destruct d as [[s n l]], e as [[s' n' l']].
    unfold Date_Equal, time.Time_Equal in Heq.
    cbn [Date_t time.sec time.nsec time.Time_Location time.Time_Nanosecond time.loc] in *.
    apply andb_prop in Heq. destruct Heq as [Hs _]. apply Z.eqb_eq in Hs. subst. reflexivity.
  - intros ->. unfold Date_Equal, time.Time_Equal. rewrite !Z.eqb_refl. reflexivity.
  - intros E. pose proof (DateInv_sec d Hd) as S. pose proof (DateInv_sec e He) as S'.
    unfold Date_Year, Date_Month, Date_Day, time.Time_Year, time.Time_Month,
      time.Time_Day in S, S'. unfold Date_Date in E. rewrite E in S. rewrite <- S' in S.
    destruct d as [a], e as [b]. cbn [Date_t] in S. subst. reflexivity.
  - intros ->. reflexivity.
Qed.

Lemma Date_Equal_eq_witness :
  Date_Equal (NewDate 2023 12 32) (NewDate 2024 1 1) = true.
Proof.
  apply (Date_Equal_eq (NewDate 2023 12 32) (NewDate 2024 1 1)).
  - vm_compute. repeat split; reflexivity.
  - vm_compute. repeat split; reflexivity.
  - vm_compute. reflexivity.
Defined.

Lemma NewDate_sec y m d :
  1 <= m <= 12 ->
  Date_t (NewDate y m d) = time.mkTime (aux.civilDays y m d * 86400) 0 time.UTC.
Proof.
  intros Hm. unfold NewDate. cbn [Date_t]. rewrite timeFacts.Date_sec by lia.
  f_equal. cbn. lia.
Qed.

(** X7: [Before], [After] and [Equal] order the dates that [NewDate]
    makes of existing days as the triples year, month, day are ordered. *)
Theorem Date_order (y m d y' m' d' : Z) :
  validDate y m d -> validDate y' m' d' ->
  (Date_Before (NewDate y m d) (NewDate y' m' d') = true <->
   y < y' \/ (y = y' /\ (m < m' \/ (m = m' /\ d < d')))) /\
  (Date_After (NewDate y m d) (NewDate y' m' d') = true <->
   y' < y \/ (y' = y /\ (m' < m \/ (m' = m /\ d' < d)))) /\
  (Date_Equal (NewDate y m d) (NewDate y' m' d') = true <->
   y = y' /\ m = m' /\ d = d').
Proof.
  intros [Hm Hd] [Hm' Hd'].
  pose proof (calendarFacts.civilDays_lt y m d y' m' d' Hm Hd Hm' Hd') as L1.
  pose proof (calendarFacts.civilDays_lt y' m' d' y m d Hm' Hd' Hm Hd) as L2.
  unfold Date_Before, Date_After, Date_Equal, time.Time_Before, time.Time_After,
    time.Time_Equal.
  rewrite !NewDate_sec by assumption. cbn [time.sec time.nsec].
  rewrite Z.eqb_refl, andb_true_r. cbn [Z.ltb Z.gtb Z.compare andb]. rewrite !andb_false_r, !orb_false_r.
  rewrite Z.ltb_lt, Z.gtb_ltb, Z.ltb_lt, Z.eqb_eq. split; [|split]; lia.
Qed.

Lemma Date_order_witness :
  Date_Before (NewDate 2023 12 31) (NewDate 2024 1 1) = true.
Proof.
  apply (Date_order 2023 12 31 2024 1 1).
  - unfold validDate. vm_compute. repeat split; discriminate.
  - unfold validDate. vm_compute. repeat split; discriminate.
  - left. lia.
Defined.

Module unixFacts.
Import time aux timeFacts parseFacts formatFacts.

(** *** Comparison of instants *)

Lemma compare_cases t u :
  (Time_Before t u = true /\ Time_Equal t u = false /\ Time_After t u = false) \/
  (Time_Before t u = false /\ Time_Equal t u = true /\ Time_After t u = false) \/
  (Time_Before t u = false /\ Time_Equal t u = false /\ Time_After t u = true).
Proof.
  unfold Time_Before, Time_Equal, Time_After. rewrite !Z.gtb_ltb.
  destruct (Z.ltb_spec (sec t) (sec u)), (Z.ltb_spec (sec u) (sec t)),
    (Z.eqb_spec (sec t) (sec u)), (Z.ltb_spec (nsec t) (nsec u)),
    (Z.ltb_spec (nsec u) (nsec t)), (Z.eqb_spec (nsec t) (nsec u));
    cbn [andb orb]; try lia; auto.
Qed.

Lemma After_Before t u : Time_After t u = Time_Before u t.
Proof.
  unfold Time_Before, Time_After. rewrite !Z.gtb_ltb, (Z.eqb_sym (sec t)). reflexivity.
Qed.

Lemma Before_trans t u v :
  Time_Before t u = true -> Time_Before u v = true -> Time_Before t v = true.
Proof.
  unfold Time_Before.
  destruct (Z.ltb_spec (sec t) (sec u)), (Z.ltb_spec (sec u) (sec v)),
    (Z.ltb_spec (sec t) (sec v)), (Z.eqb_spec (sec t) (sec u)),
    (Z.eqb_spec (sec u) (sec v)), (Z.eqb_spec (sec t) (sec v)),
    (Z.ltb_spec (nsec t) (nsec u)), (Z.ltb_spec (nsec u) (nsec v)),
    (Z.ltb_spec (nsec t) (nsec v)); cbn [andb orb]; try lia; auto.
Qed.

(** *** Unix time *)

Lemma unixToInternal_days : unixToInternal = 719162 * 86400.
Proof. reflexivity. Qed.

Lemma Unix_spec Local s ns :
  Unix Local s ns
  = mkTime (s + ns / 1000000000 + unixToInternal) (ns mod 1000000000) Local.
Proof.
  unfold Unix.
  destruct (Z.ltb_spec ns 0); destruct (Z.geb_spec ns 1000000000); cbn [orb];
    try (destruct (Z.ltb_spec (ns - Z.quot ns 1000000000 * 1000000000) 0));
    f_equal; lia.
Qed.

Lemma UnixMilli_spec Local ms :
  UnixMilli Local ms
  = mkTime (ms / 1000 + unixToInternal) (ms mod 1000 * 1000000) Local.
Proof. unfold UnixMilli. rewrite Unix_spec. f_equal; lia. Qed.

Lemma UnixMicro_spec Local us :
  UnixMicro Local us
  = mkTime (us / 1000000 + unixToInternal) (us mod 1000000 * 1000) Local.
Proof. unfold UnixMicro. rewrite Unix_spec. f_equal; lia. Qed.

End unixFacts.

(** The instant of the [Date] made of an instant: midnight UTC of the day
    the instant falls on in its own zone. *)
Lemma DateFromStdTime_sec t :
  Date_t (DateFromStdTime t) = time.mkTime (time.abs t / 86400 * 86400) 0 time.UTC.
Proof.
  unfold DateFromStdTime. cbn [Date_t].
  destruct (formatFacts.fields_valid t) as (Hm & _ & Hc).
  rewrite timeFacts.Date_sec by (try exact Hm; lia). rewrite Hc. f_equal. cbn. lia.
Qed.

Lemma DateInv_eq d e : DateInv d -> DateInv e -> time.sec (Date_t d) = time.sec (Date_t e) -> d = e.
Proof.
  intros (_ & _ & _ & Hn & Hl) (_ & _ & _ & Hn' & Hl') E.
  destruct d as [[s n l]], e as [[s' n' l']].
  cbn [Date_t time.sec time.nsec time.Time_Location time.Time_Nanosecond time.loc] in *.
  subst. reflexivity.
Qed.

Lemma DateInv_days d :
  DateInv d -> exists c, Date_t d = time.mkTime (c * 86400) 0 time.UTC.
Proof. intros H. eexists. apply (DateInv_sec d H). Qed.

(** X8: for each of the three types, exactly one of [Before], [Equal]
    and [After] holds of two values; [After] is [Before] with the operands
    exchanged; [AfterOrEqual] is the negation of [Before] and
    [BeforeOrEqual] the negation of [After]; [Before] is transitive. *)
Theorem comparisons_total (d e f : Date) (t u v : Time) (a b c : DateTime) :
  (((Date_Before d e = true /\ Date_Equal d e = false /\ Date_After d e = false) \/
    (Date_Before d e = false /\ Date_Equal d e = true /\ Date_After d e = false) \/
    (Date_Before d e = false /\ Date_Equal d e = false /\ Date_After d e = true)) /\
   Date_After d e = Date_Before e d /\
   Date_AfterOrEqual d e = negb (Date_Before d e) /\
   Date_BeforeOrEqual d e = negb (Date_After d e) /\
   (Date_Before d e = true -> Date_Before e f = true -> Date_Before d f = true)) /\
  (((Time_Before t u = true /\ Time_Equal t u = false /\ Time_After t u = false) \/
    (Time_Before t u = false /\ Time_Equal t u = true /\ Time_After t u = false) \/
    (Time_Before t u = false /\ Time_Equal t u = false /\ Time_After t u = true)) /\
   Time_After t u = Time_Before u t /\
   Time_AfterOrEqual t u = negb (Time_Before t u) /\
   Time_BeforeOrEqual t u = negb (Time_After t u) /\
   (Time_Before t u = true -> Time_Before u v = true -> Time_Before t v = true)) /\
  (((DateTime_Before a b = true /\ DateTime_Equal a b = false /\ DateTime_After a b = false) \/
    (DateTime_Before a b = false /\ DateTime_Equal a b = true /\ DateTime_After a b = false) \/
    (DateTime_Before a b = false /\ DateTime_Equal a b = false /\ DateTime_After a b = true)) /\
   DateTime_After a b = DateTime_Before b a /\
   DateTime_AfterOrEqual a b = negb (DateTime_Before a b) /\
   DateTime_BeforeOrEqual a b = negb (DateTime_After a b) /\
   (DateTime_Before a b = true -> DateTime_Before b c = true -> DateTime_Before a c = true)).
Proof.
  assert (G : forall x y z : time.Time,
    ((time.Time_Before x y = true /\ time.Time_Equal x y = false /\ time.Time_After x y = false) \/
     (time.Time_Before x y = false /\ time.Time_Equal x y = true /\ time.Time_After x y = false) \/
     (time.Time_Before x y = false /\ time.Time_Equal x y = false /\ time.Time_After x y = true)) /\
    time.Time_After x y = time.Time_Before y x /\
    time.Time_After x y || time.Time_Equal x y = negb (time.Time_Before x y) /\
    time.Time_Before x y || time.Time_Equal x y = negb (time.Time_After x y) /\
    (time.Time_Before x y = true -> time.Time_Before y z = true ->
     time.Time_Before x z = true)).
  { intros x y z. pose proof (unixFacts.compare_cases x y) as C.
    split; [exact C|]. split; [apply unixFacts.After_Before|].
    split; [|split; [|apply unixFacts.Before_trans]].
    - destruct C as [(-> & -> & ->)|[(-> & -> & ->)|(-> & -> & ->)]]; reflexivity.
    - destruct C as [(-> & -> & ->)|[(-> & -> & ->)|(-> & -> & ->)]]; reflexivity. }
  split; [|split].
  - apply (G (Date_t d) (Date_t e) (Date_t f)).
  - apply (G (Time_t t) (Time_t u) (Time_t v)).
  - apply (G (DateTime_t a) (DateTime_t b) (DateTime_t c)).
Qed.

(** X9: [Between] is strict at both ends and [BetweenOrEqual] includes
    them: a value strictly between two others is also between them in the
    wide sense and the two others are in order; every value is between
    itself and itself in the wide sense only.  The same for [Time]. *)
Theorem Between_bounds (d s e : Date) (t u v : Time) :
  (Date_Between d s e = true ->
   Date_BetweenOrEqual d s e = true /\ Date_Before s e = true) /\
  Date_BetweenOrEqual d d d = true /\ Date_Between d d e = false /\
  Date_Between d s d = false /\
  (Date_BetweenOrEqual d s e = true -> Date_After s e = false) /\
  (Time_Between t u v = true ->
   Time_BetweenOrEqual t u v = true /\ Time_Before u v = true) /\
  Time_BetweenOrEqual t t t = true /\ Time_Between t t v = false /\
  Time_Between t u t = false /\
  (Time_BetweenOrEqual t u v = true -> Time_After u v = false).
Proof.
  assert (G : forall x y z : time.Time,
    (time.Time_After x y && time.Time_Before x z = true ->
     (time.Time_After x y || time.Time_Equal x y)
       && (time.Time_Before x z || time.Time_Equal x z) = true /\
     time.Time_Before y z = true) /\
    (time.Time_After x x || time.Time_Equal x x)
      && (time.Time_Before x x || time.Time_Equal x x) = true /\
    time.Time_After x x && time.Time_Before x z = false /\
    time.Time_After x y && time.Time_Before x x = false /\
    ((time.Time_After x y || time.Time_Equal x y)
       && (time.Time_Before x z || time.Time_Equal x z) = true ->
     time.Time_After y z = false)).
  { intros x y z.
    unfold time.Time_Before, time.Time_Equal, time.Time_After. rewrite !Z.gtb_ltb.
    repeat split; try intros H;
    repeat match goal with
    | H : context [?a <? ?b] |- _ => destruct (Z.ltb_spec a b)
    | H : context [?a =? ?b] |- _ => destruct (Z.eqb_spec a b)
    | |- context [?a <? ?b] => destruct (Z.ltb_spec a b)
    | |- context [?a =? ?b] => destruct (Z.eqb_spec a b)
    end; cbn [andb orb] in *; try lia; try reflexivity; try discriminate. }
  destruct (G (Date_t d) (Date_t s) (Date_t e)) as (G1 & _ & _ & _ & G5).
  destruct (G (Date_t d) (Date_t d) (Date_t e)) as (_ & G2 & G3 & _).
  destruct (G (Date_t d) (Date_t s) (Date_t d)) as (_ & _ & _ & G4 & _).
  destruct (G (Time_t t) (Time_t u) (Time_t v)) as (H1 & _ & _ & _ & H5).
  destruct (G (Time_t t) (Time_t t) (Time_t v)) as (_ & H2 & H3 & _).
  destruct (G (Time_t t) (Time_t u) (Time_t t)) as (_ & _ & _ & H4 & _).
  repeat split; try assumption; try (apply G1; assumption); try (apply H1; assumption).
Qed.

(** *** [Date] and Unix time *)

Lemma Date_Unix_DateFromStdTime t :
  Date_Unix (DateFromStdTime t)
  = 86400 * (time.abs t / 86400) - time.unixToInternal.
Proof.
  unfold Date_Unix, time.Time_Unix. rewrite DateFromStdTime_sec. cbn [time.sec]. lia.
Qed.

(** X10: the Unix time of a [Date] whose clock is midnight UTC is a whole
    number of days, and [DateFromUnix] of it gives the [Date] back. *)
Theorem Date_Unix_roundtrip (Local : time.Location) (d : Date) :
  DateInv d ->
  Date_Unix d mod 86400 = 0 /\ DateFromUnix Local (Date_Unix d) 0 = d.
Proof.
  intros Hinv. destruct (DateInv_days d Hinv) as [c Hc]. split.
  - unfold Date_Unix, time.Time_Unix. rewrite Hc. cbn [time.sec].
    rewrite unixFacts.unixToInternal_days. lia.
  - apply DateInv_eq; [apply DateInv_DateFromStdTime | exact Hinv |].
    unfold DateFromUnix. rewrite DateFromStdTime_sec, unixFacts.Unix_spec.
    unfold Date_Unix, time.Time_Unix, time.Time_UTC, time.abs. rewrite Hc.
    cbn [time.sec time.nsec time.loc time.zoneOffset time.UTC].
    rewrite unixFacts.unixToInternal_days. lia.
Qed.

Lemma Date_Unix_roundtrip_witness :
  Date_Unix (NewDate 2000 1 2) = 946771200 /\
  DateFromUnix (time.FixedZone "EST" (-18000)) 946771200 0 = NewDate 2000 1 2.
Proof.
  destruct (Date_Unix_roundtrip (time.FixedZone "EST" (-18000)) (NewDate 2000 1 2))
    as [_ H].
  - vm_compute. repeat split; reflexivity.
  - split; [reflexivity | exact H].
Defined.

(** X11: the three Unix constructors of [Date] give the UTC day the
    instant falls on, whatever the local zone: the Unix time of the result
    is the given time rounded down to a multiple of 86400 seconds, also
    for negative times and for a nanosecond count outside [0, 10^9).  The
    seconds are taken within 2^62 of zero, where the arithmetic of the
    [time] package does not overflow, and the other counts in 64 bits. *)
Theorem DateFromUnix_day (Local : time.Location) (s ns ms us : Z) :
  - 2 ^ 62 <= s <= 2 ^ 62 -> minInt64 <= ns <= maxInt64 ->
  minInt64 <= ms <= maxInt64 -> minInt64 <= us <= maxInt64 ->
  Date_Unix (DateFromUnix Local s ns) = 86400 * ((s + ns / 1000000000) / 86400) /\
  Date_Unix (DateFromUnixMilli Local ms) = 86400 * (ms / 86400000) /\
  Date_Unix (DateFromUnixMicro Local us) = 86400 * (us / 86400000000).
Proof.
  intros _ _ _ _. unfold DateFromUnix, DateFromUnixMilli, DateFromUnixMicro.
  rewrite !Date_Unix_DateFromStdTime.
  rewrite unixFacts.Unix_spec, unixFacts.UnixMilli_spec, unixFacts.UnixMicro_spec.
  unfold time.Time_UTC, time.abs.
  cbn [time.sec time.nsec time.loc time.zoneOffset time.UTC].
  rewrite unixFacts.unixToInternal_days. repeat split; lia.
Qed.

Lemma DateFromUnix_day_witness :
  Date_Unix (DateFromUnix (time.FixedZone "EST" (-18000)) (- 1) 0) = - 86400 /\
  Date_Unix (DateFromUnixMilli time.UTC 86400001) = 86400.
Proof.
  assert (R1 : - 2 ^ 62 <= - 1 <= 2 ^ 62) by (vm_compute; split; discriminate).
  assert (R2 : minInt64 <= 0 <= maxInt64) by (vm_compute; split; discriminate).
  assert (R3 : minInt64 <= 86400001 <= maxInt64) by (vm_compute; split; discriminate).
  pose proof (DateFromUnix_day (time.FixedZone "EST" (-18000)) (- 1) 0 86400001 0
                R1 R2 R3 R2) as H1.
  pose proof (DateFromUnix_day time.UTC (- 1) 0 86400001 0 R1 R2 R3 R2) as H2.
  split; [apply H1 | apply H2].
Defined.

(** *** Adding days *)

Lemma Date_AddDate_days_sec d k :
  DateInv d ->
  Date_t (Date_AddDate d 0 0 k)
  = time.mkTime (time.sec (Date_t d) + 86400 * k) 0 time.UTC.
Proof.
  intros Hinv. pose proof (DateInv_sec d Hinv) as S.
  destruct Hinv as (Hh & Hmi & Hs & Hn & Hl).
  destruct (formatFacts.fields_valid (Date_t d)) as (Hm & _).
  unfold Date_AddDate. rewrite DateFromStdTime_sec. f_equal.
  unfold time.Time_AddDate.
  unfold Date_Year, Date_Month, Date_Day, time.Time_Year, time.Time_Month,
    time.Time_Day in S.
  unfold time.Time_Month in Hm.
  destruct (time.Time_Date (Date_t d)) as [[Y M] D]. cbn [fst snd] in S, Hm.
  unfold time.Time_Clock. rewrite Hh, Hmi, Hs, Hn, Hl, !Z.add_0_r.
  rewrite timeFacts.Date_sec by lia. unfold time.abs.
  cbn [time.sec time.loc time.zoneOffset time.UTC]. rewrite S. cbn [time.sec].
  unfold aux.civilDays, aux.ydayOf. lia.
Qed.

(** X12: on a [Date] whose clock is midnight UTC, [AddDate] with only a
    number of days moves the Unix time by that many times 86400 seconds,
    and adding the opposite number of days gives the [Date] back. *)
Theorem Date_AddDate_days (d : Date) (k : Z) :
  DateInv d ->
  Date_Unix (Date_AddDate d 0 0 k) = Date_Unix d + 86400 * k /\
  Date_AddDate (Date_AddDate d 0 0 k) 0 0 (- k) = d /\
  Date_AddDate d 0 0 0 = d.
Proof.
  intros Hinv.
  assert (Hinv' : forall j, DateInv (Date_AddDate d 0 0 j))
    by (intros j; apply DateInv_DateFromStdTime).
  split; [|split].
  - unfold Date_Unix, time.Time_Unix. rewrite Date_AddDate_days_sec by assumption.
    cbn [time.sec]. lia.
  - apply DateInv_eq; [apply DateInv_DateFromStdTime | exact Hinv |].
    rewrite Date_AddDate_days_sec by apply Hinv'.
    rewrite Date_AddDate_days_sec by assumption. cbn [time.sec]. lia.
  - apply DateInv_eq; [apply Hinv' | exact Hinv |].
    rewrite Date_AddDate_days_sec by assumption. cbn [time.sec]. lia.
Qed.

Lemma Date_AddDate_days_witness :
  Date_AddDate (Date_AddDate (NewDate 2024 2 28) 0 0 2) 0 0 (- 2) = NewDate 2024 2 28.
Proof.
  apply (Date_AddDate_days (NewDate 2024 2 28) 2).
  vm_compute. repeat split; reflexivity.
Defined.

(** X13: the weekday of a [Date] is a number from 0 (Sunday) to 6, and
    adding [k] days to a [Date] whose clock is midnight UTC moves the
    weekday by [k] modulo 7. *)
Theorem Date_Weekday_AddDate (d : Date) (k : Z) :
  DateInv d ->
  0 <= Date_Weekday d <= 6 /\
  Date_Weekday (Date_AddDate d 0 0 k) = (Date_Weekday d + k) mod 7.
Proof.
  intros Hinv. destruct (DateInv_days d Hinv) as [c Hc].
  unfold Date_Weekday, time.Time_Weekday, time.abs.
  rewrite Date_AddDate_days_sec by assumption. rewrite Hc.
  cbn [time.sec time.loc time.zoneOffset time.UTC].
  change time.secondsPerWeek with 604800. change time.secondsPerDay with 86400.
  change time.Monday with 1. cbv zeta. split; lia.
Qed.

Lemma Date_Weekday_AddDate_witness :
  Date_Weekday (NewDate 2024 1 1) = 1 /\
  Date_Weekday (Date_AddDate (NewDate 2024 1 1) 0 0 (- 2)) = 6.
Proof.
  destruct (Date_Weekday_AddDate (NewDate 2024 1 1) (- 2)) as [_ H].
  - vm_compute. repeat split; reflexivity.
  - split; [reflexivity | rewrite H; reflexivity].
Defined.

(** X14: the day of the year of an existing day is one more than the
    number of days since January 1 of its year, as the Unix times count
    them; it is 1 on January 1 and the length of the year, 365 or 366, on
    December 31. *)
Theorem Date_YearDay_spec (y m d : Z) :
  validDate y m d ->
  Date_YearDay (NewDate y m d)
  = (Date_Unix (NewDate y m d) - Date_Unix (NewDate y 1 1)) / 86400 + 1 /\
  1 <= Date_YearDay (NewDate y m d) <= (if time.isLeap y then 366 else 365) /\
  Date_YearDay (NewDate y 1 1) = 1 /\
  Date_YearDay (NewDate y 12 31) = (if time.isLeap y then 366 else 365).
Proof.
  intros [Hm Hd].
  assert (Y : forall m' d', 1 <= m' <= 12 -> 1 <= d' <= time.daysIn m' y ->
            Date_YearDay (NewDate y m' d')
            = aux.ydayOf (time.isLeap y) m' d' + 1).
  { intros m' d' Hm' Hd'. unfold Date_YearDay, time.Time_YearDay, time.abs.
    rewrite NewDate_sec by assumption.
    cbn [time.sec time.loc time.zoneOffset time.UTC].
    change time.secondsPerDay with 86400. rewrite Z.add_0_r, Z.div_mul by lia.
    unfold aux.civilDays. rewrite timeFacts.daysIn_monthLen in Hd'.
    pose proof (timeFacts.ydayOf_range (time.isLeap y) m' d' Hm' Hd') as R.
    rewrite timeFacts.absYear_daysSinceEpoch; [reflexivity|].
    unfold aux.yearLen. destruct (time.isLeap y); lia. }
  assert (Hd1 : 1 <= 1 <= time.daysIn 1 y) by (vm_compute; split; discriminate).
  assert (Hd31 : 1 <= 31 <= time.daysIn 12 y) by (vm_compute; split; discriminate).
  rewrite (Y m d Hm Hd), (Y 1 1 ltac:(lia) Hd1), (Y 12 31 ltac:(lia) Hd31).
  unfold Date_Unix, time.Time_Unix. rewrite !NewDate_sec by lia. cbn [time.sec].
  rewrite timeFacts.daysIn_monthLen in Hd.
  pose proof (timeFacts.ydayOf_range (time.isLeap y) m d Hm Hd) as R.
  unfold aux.civilDays.
  assert (E1 : aux.ydayOf (time.isLeap y) 1 1 = 0)
    by (destruct (time.isLeap y); reflexivity).
  assert (E2 : aux.ydayOf (time.isLeap y) 12 31
               = if time.isLeap y then 365 else 364)
    by (destruct (time.isLeap y); reflexivity).
  rewrite E1, E2. destruct (time.isLeap y); repeat split; lia.
Qed.

Lemma Date_YearDay_spec_witness :
  Date_YearDay (NewDate 2024 3 1) = 61 /\ Date_YearDay (NewDate 2024 12 31) = 366.
Proof.
  destruct (Date_YearDay_spec 2024 3 1) as (H1 & _ & _ & H4).
  - unfold validDate. vm_compute. repeat split; discriminate.
  - split; [rewrite H1; reflexivity | rewrite H4; reflexivity].
Defined.

Module clockFacts.
Import time aux timeFacts parseFacts formatFacts.

Lemma clock_seconds t :
  Time_Hour t * 3600 + Time_Minute t * 60 + Time_Second t = abs t mod 86400.
Proof.
  unfold Time_Hour, Time_Minute, Time_Second, secondsPerDay, secondsPerHour,
    secondsPerMinute.
  change (24 * (60 * 60)) with 86400. change (60 * 60) with 3600.
  generalize (abs t). intros a. lia.
Qed.

Lemma clockNanos_abs t :
  clockNanos t = (abs t mod 86400) * 1000000000 + nsec t.
Proof. unfold clockNanos. rewrite clock_seconds. reflexivity. Qed.

Lemma clock_of_seconds t u :
  abs t mod 86400 = abs u mod 86400 ->
  Time_Hour t = Time_Hour u /\ Time_Minute t = Time_Minute u /\
  Time_Second t = Time_Second u.
Proof.
  unfold Time_Hour, Time_Minute, Time_Second, secondsPerDay, secondsPerHour,
    secondsPerMinute.
  change (24 * (60 * 60)) with 86400. change (60 * 60) with 3600.
  generalize (abs t) (abs u). intros a b H. repeat split; lia.
Qed.

Lemma Time_Add_spec t d :
  wf t ->
  Time_Add t d = mkTime (sec t + (nsec t + d) / 1000000000)
                        ((nsec t + d) mod 1000000000) (loc t).
Proof.
  unfold wf, Time_Add. intros H.
  destruct (Z.geb_spec (nsec t + Z.rem d 1000000000) 1000000000);
    [f_equal; lia|].
  destruct (Z.ltb_spec (nsec t + Z.rem d 1000000000) 0); f_equal; lia.
Qed.

End clockFacts.

(** *** [Time]: the clock *)

(** The instant of the [Time] made of an instant: its wall clock on
    January 1 of year 0, in its own zone. *)
Lemma TimeFromStdTime_sec t :
  aux.wf t ->
  Time_t (TimeFromStdTime t)
  = time.mkTime (- 366 * 86400 + time.abs t mod 86400 - time.zoneOffset (time.loc t))
                (time.nsec t) (time.loc t).
Proof.
  intros Hwf. unfold TimeFromStdTime. cbn [Time_t].
  destruct (parseFacts.clock_range t) as (Hh & Hmi & Hs).
  rewrite timeFacts.Date_sec by (try assumption; try exact Hwf; lia).
  rewrite clockFacts.clock_seconds. reflexivity.
Qed.

Lemma TimeFromStdTime_abs t :
  aux.wf t ->
  time.abs (Time_t (TimeFromStdTime t)) = - 366 * 86400 + time.abs t mod 86400.
Proof.
  intros Hwf. rewrite TimeFromStdTime_sec by assumption. unfold time.abs at 1.
  cbn [time.sec time.loc]. lia.
Qed.

Lemma TimeFromStdTime_fixed t :
  TimeInv t -> aux.wf (Time_t t) -> TimeFromStdTime (Time_t t) = t.
Proof.
  intros (Hy & Hm & Hd) Hwf. unfold TimeFromStdTime.
  pose proof (formatFacts.Date_of_fields (Time_t t) Hwf) as E.
  rewrite Hy, Hm, Hd in E. rewrite E. destruct t; reflexivity.
Qed.

(** X15: the [Time] made of an instant with a nanosecond in [0, 10^9)
    keeps its hour, minute, second, nanosecond and zone; [ToStdTime] gives
    back the instant it holds, and making a [Time] of that changes
    nothing. *)
Theorem TimeFromStdTime_keeps_clock (t : time.Time) :
  0 <= time.Time_Nanosecond t < 1000000000 ->
  Time_Clock (TimeFromStdTime t) = time.Time_Clock t /\
  Time_Hour (TimeFromStdTime t) = time.Time_Hour t /\
  Time_Minute (TimeFromStdTime t) = time.Time_Minute t /\
  Time_Second (TimeFromStdTime t) = time.Time_Second t /\
  Time_Nanosecond (TimeFromStdTime t) = time.Time_Nanosecond t /\
  Time_Location (TimeFromStdTime t) = time.Time_Location t /\
  Time_ToStdTime (TimeFromStdTime t) = Time_t (TimeFromStdTime t) /\
  TimeFromStdTime (Time_ToStdTime (TimeFromStdTime t)) = TimeFromStdTime t.
Proof.
  intros Hwf.
  destruct (parseFacts.clock_range t) as (Hh & Hmi & Hs).
  destruct (timeFacts.Time_Clock_Date 0 1 1 (time.Time_Hour t) (time.Time_Minute t)
              (time.Time_Second t) (time.Time_Nanosecond t) (time.Time_Location t)
              ltac:(lia) Hh Hmi Hs Hwf) as (E1 & E2 & E3 & E4 & E5).
  assert (Hinv : TimeInv (TimeFromStdTime t)) by (apply TimeInv_TimeFromStdTime; exact Hwf).
  assert (Hwf' : aux.wf (Time_t (TimeFromStdTime t))).
  { pose proof E4 as E4'. unfold time.Time_Nanosecond at 1 in E4'.
    unfold aux.wf, TimeFromStdTime. cbn [Time_t]. rewrite E4'. exact Hwf. }
  assert (F : Time_ToStdTime (TimeFromStdTime t) = Time_t (TimeFromStdTime t)).
  { change (Time_ToStdTime (TimeFromStdTime t))
      with (Time_t (TimeFromStdTime (Time_t (TimeFromStdTime t)))).
    rewrite TimeFromStdTime_fixed by assumption. reflexivity. }
  unfold Time_Clock, time.Time_Clock, Time_Hour, Time_Minute, Time_Second,
    Time_Nanosecond, Time_Location.
  unfold TimeFromStdTime at 1 2 3 4 5 6 7 8. cbn [Time_t].
  rewrite E1, E2, E3, E4, E5. repeat split; try assumption.
  rewrite F. apply TimeFromStdTime_fixed; assumption.
Qed.

Lemma TimeFromStdTime_keeps_clock_witness :
  Time_Clock (TimeFromStdTime (time.Date 2024 2 29 13 4 5 6 (time.FixedZone "EST" (-18000))))
  = (13, 4, 5).
Proof.
  destruct (TimeFromStdTime_keeps_clock
              (time.Date 2024 2 29 13 4 5 6 (time.FixedZone "EST" (-18000)))) as [H _].
  - vm_compute. split; [discriminate | reflexivity].
  - rewrite H. reflexivity.
Defined.

Lemma clockNanos_TimeFromStdTime t :
  aux.wf t ->
  aux.clockNanos (Time_t (TimeFromStdTime t)) = aux.clockNanos t.
Proof.
  intros Hwf. rewrite !clockFacts.clockNanos_abs, TimeFromStdTime_abs by assumption.
  rewrite TimeFromStdTime_sec by assumption. cbn [time.nsec]. lia.
Qed.

(** X16: on a [Time] whose zone has one fixed offset ([time.UTC] or a
    [time.FixedZone]), [Add] is addition on the clock modulo 24 hours: the
    nanoseconds since midnight of the result are those of the receiver
    plus the duration, modulo 86400 * 10^9, for every duration of 64 bits.
    On such a [Time] dated January 1 of year 0, adding a whole number of
    days changes nothing. *)
Theorem Time_Add_clock (t : Time) (name : string) (offset : Z) (dur k : Z) :
  Time_Location t = time.FixedZone name offset ->
  0 <= Time_Nanosecond t < 1000000000 ->
  minInt64 <= dur <= maxInt64 -> minInt64 <= k * 86400000000000 <= maxInt64 ->
  aux.clockNanos (Time_t (Time_Add t dur))
  = (aux.clockNanos (Time_t t) + dur) mod 86400000000000 /\
  Time_Location (Time_Add t dur) = Time_Location t /\
  (TimeInv t -> Time_Add t (k * 86400000000000) = t).
Proof.
  intros _ Hwf _ _.
  assert (Hwf' : forall d, aux.wf (time.Time_Add (Time_t t) d))
    by (intros d; apply wf_Add; exact Hwf).
  split; [|split].
  - unfold Time_Add. rewrite clockNanos_TimeFromStdTime by apply Hwf'.
    rewrite !clockFacts.clockNanos_abs, clockFacts.Time_Add_spec by exact Hwf.
    unfold time.abs. cbn [time.sec time.nsec time.loc].
    unfold Time_Nanosecond, time.Time_Nanosecond in Hwf.
    set (n := time.nsec (Time_t t)) in *. set (s := time.sec (Time_t t)).
    set (o := time.zoneOffset (time.loc (Time_t t))). clearbody n s o. clear Hwf'. lia.
  - unfold Time_Add, Time_Location, time.Time_Location.
    rewrite TimeFromStdTime_sec by apply Hwf'.
    rewrite clockFacts.Time_Add_spec by exact Hwf. reflexivity.
  - intros Hinv. unfold Time_Add.
    rewrite <- (TimeFromStdTime_fixed t Hinv Hwf) at 2.
    destruct t as [u]. cbn [Time_t] in *.
    assert (E : Time_t (TimeFromStdTime (time.Time_Add u (k * 86400000000000)))
                = Time_t (TimeFromStdTime u)).
    { rewrite !TimeFromStdTime_sec by (try apply Hwf'; exact Hwf).
      rewrite clockFacts.Time_Add_spec by exact Hwf.
      unfold time.abs. cbn [time.sec time.nsec time.loc].
      unfold Time_Nanosecond, time.Time_Nanosecond in Hwf. cbn [Time_t] in Hwf.
      f_equal; lia. }
    destruct (TimeFromStdTime (time.Time_Add u (k * 86400000000000))) as [a].
    destruct (TimeFromStdTime u) as [b]. cbn [Time_t] in E. subst. reflexivity.
Qed.

Lemma Time_Add_clock_witness :
  Time_Clock (Time_Add (NewTime 23 30 0 0 time.UTC) 3600000000000) = (0, 30, 0) /\
  Time_Add (NewTime 23 30 0 0 time.UTC) (2 * 86400000000000) = NewTime 23 30 0 0 time.UTC.
Proof.
  assert (R1 : 0 <= Time_Nanosecond (NewTime 23 30 0 0 time.UTC) < 1000000000)
    by (vm_compute; split; [discriminate | reflexivity]).
  assert (R2 : minInt64 <= 3600000000000 <= maxInt64) by (vm_compute; split; discriminate).
  assert (R3 : minInt64 <= 2 * 86400000000000 <= maxInt64)
    by (vm_compute; split; discriminate).
  pose proof (Time_Add_clock (NewTime 23 30 0 0 time.UTC) "UTC" 0 3600000000000 2
                eq_refl R1 R2 R3) as H.
  split; [reflexivity|]. apply H. vm_compute. repeat split; reflexivity.
Defined.

(** X17: the Unix constructors of [Time] give the UTC wall clock of the
    instant: the seconds since midnight are the Unix seconds modulo 86400,
    whatever the local zone, also for negative times.  The seconds are
    taken within 2^62 of zero and the other counts in 64 bits. *)
Theorem TimeFromUnix_clock (Local : time.Location) (s ns ms us : Z) :
  - 2 ^ 62 <= s <= 2 ^ 62 -> minInt64 <= ns <= maxInt64 ->
  minInt64 <= ms <= maxInt64 -> minInt64 <= us <= maxInt64 ->
  aux.clockNanos (Time_t (TimeFromUnix Local s ns))
  = (s * 1000000000 + ns) mod 86400000000000 /\
  aux.clockNanos (Time_t (TimeFromUnixMilli Local ms))
  = (ms mod 86400000) * 1000000 /\
  aux.clockNanos (Time_t (TimeFromUnixMicro Local us))
  = (us mod 86400000000) * 1000 /\
  Time_Location (TimeFromUnix Local s ns) = time.UTC /\
  Time_Location (TimeFromUnixMilli Local ms) = time.UTC /\
  Time_Location (TimeFromUnixMicro Local us) = time.UTC.
Proof.
  intros _ _ _ _.
  assert (W : forall u, aux.wf u -> aux.wf (time.Time_UTC u))
    by (intros u Hu; exact Hu).
  assert (W1 : aux.wf (time.Time_UTC (time.Unix Local s ns)))
    by (apply W, wf_Unix).
  assert (W2 : aux.wf (time.Time_UTC (time.UnixMilli Local ms)))
    by (apply W, wf_Unix).
  assert (W3 : aux.wf (time.Time_UTC (time.UnixMicro Local us)))
    by (apply W, wf_Unix).
  unfold TimeFromUnix, TimeFromUnixMilli, TimeFromUnixMicro, Time_Location,
    time.Time_Location.
  rewrite !clockNanos_TimeFromStdTime by assumption.
  rewrite !TimeFromStdTime_sec by assumption.
  rewrite !clockFacts.clockNanos_abs.
  rewrite unixFacts.Unix_spec, unixFacts.UnixMilli_spec, unixFacts.UnixMicro_spec.
  unfold time.Time_UTC, time.abs.
  cbn [time.sec time.nsec time.loc time.zoneOffset time.UTC].
  rewrite unixFacts.unixToInternal_days. repeat split; lia.
Qed.

Lemma TimeFromUnix_clock_witness :
  Time_Clock (TimeFromUnix (time.FixedZone "EST" (-18000)) (- 1) 0) = (23, 59, 59) /\
  aux.clockNanos (Time_t (TimeFromUnixMilli time.UTC 1500)) = 1500000000.
Proof.
  assert (R1 : - 2 ^ 62 <= 0 <= 2 ^ 62) by (vm_compute; split; discriminate).
  assert (R2 : minInt64 <= 0 <= maxInt64) by (vm_compute; split; discriminate).
  assert (R3 : minInt64 <= 1500 <= maxInt64) by (vm_compute; split; discriminate).
  pose proof (TimeFromUnix_clock time.UTC 0 0 1500 0 R1 R2 R3 R2) as H.
  split; [reflexivity | apply H].
Defined.

Module zoneFacts.
Import time aux timeFacts parseFacts formatFacts layoutFacts fracFacts roundFacts.

Lemma reparsed_offset y m d h mi s ns off utc dl local :
  (utc = true -> off = 0) ->
  zoneOffset (loc (reparsed y m d h mi s ns off utc dl local)) = off.
Proof.
  intros Hutc. unfold reparsed. destruct utc.
  - rewrite Date_loc_UTC. rewrite (Hutc eq_refl). reflexivity.
  - destruct (Z.eqb_spec (zoneOffset local) off) as [E|E]; cbn [loc]; [exact E | reflexivity].
Qed.

(** The fields of [t] with the nanosecond dropped. *)
Lemma reparsed_seconds t utc dl local :
  (utc = true -> zoneOffset (loc t) = 0) ->
  let r := reparsed (Time_Year t) (Time_Month t) (Time_Day t) (Time_Hour t)
                    (Time_Minute t) (Time_Second t) 0 (zoneOffset (loc t))
                    utc dl local in
  sec r = sec t /\ nsec r = 0.
Proof.
  intros Hutc.
  assert (Hwf : wf (mkTime (sec t) 0 (loc t))) by (unfold wf; cbn; lia).
  exact (instantFacts.reparsed_instant (mkTime (sec t) 0 (loc t)) utc dl local Hwf Hutc).
Qed.

End zoneFacts.

(** X18: the text that [String] gives for a [Time] dated January 1 of
    year 0, with no fraction of a second and a zone offset of whole
    minutes and less than 24 hours, is read back without error by
    [TimeFromString] and [TimeFromStringLocation] as a [Time] that is
    [Equal] to it, has the same zone offset and is again dated January 1
    of year 0. *)
Theorem TimeFromString_String (Local loc : time.Location) (t : Time) :
  TimeInv t -> Time_Nanosecond t = 0 ->
  Z.abs (time.zoneOffset (Time_Location t)) < 86400 ->
  time.zoneOffset (Time_Location t) mod 60 = 0 ->
  (snd (TimeFromString Local (Time_String t)) = None /\
   Time_Equal (fst (TimeFromString Local (Time_String t))) t = true /\
   time.zoneOffset (Time_Location (fst (TimeFromString Local (Time_String t))))
   = time.zoneOffset (Time_Location t) /\
   TimeInv (fst (TimeFromString Local (Time_String t)))) /\
  (snd (TimeFromStringLocation (Time_String t) loc) = None /\
   Time_Equal (fst (TimeFromStringLocation (Time_String t) loc)) t = true /\
   time.zoneOffset (Time_Location (fst (TimeFromStringLocation (Time_String t) loc)))
   = time.zoneOffset (Time_Location t) /\
   TimeInv (fst (TimeFromStringLocation (Time_String t) loc))).
Proof.
  intros (Hy & Hm & Hd) Hns Hoff Hmod.
  unfold Time_Nanosecond, time.Time_Nanosecond in Hns.
  unfold Time_Location, time.Time_Location in *.
  assert (Hwf : aux.wf (Time_t t)) by (unfold aux.wf; lia).
  destruct (layoutFacts.fields_range (Time_t t)) as (_ & _ & Hh & Hmi & Hs).
  assert (G : forall dl local,
    exists r, time.parse timeLayout (Time_String t) dl local = (r, None) /\
      time.sec r = time.sec (Time_t t) /\ time.nsec r = time.nsec (Time_t t) /\
      time.zoneOffset (time.loc r) = time.zoneOffset (time.loc (Time_t t))).
  { intros dl local.
    destruct (instantFacts.reparsed_instant (Time_t t)
                (time.zoneOffset (time.loc (Time_t t)) =? 0) dl local Hwf
                (instantFacts.utc_flag _)) as [Es En].
    cbv zeta in Es, En. rewrite Hy, Hm, Hd, Hns in Es, En.
    destruct (roundFacts.parse_timeLayout _ _ _ _ dl local Hh Hmi Hs Hoff Hmod) as [P1 _].
    eexists. unfold Time_String, timeLayout.
    rewrite roundFacts.Format_timeLayout by assumption.
    split; [exact P1|]. split; [exact Es|]. split; [rewrite Hns; exact En|].
    apply zoneFacts.reparsed_offset. apply instantFacts.utc_flag. }
  assert (K : forall dl local r,
    time.parse timeLayout (Time_String t) dl local = (r, None) -> TimeInv (mkTimeOfDay r)).
  { intros dl local r E. eapply TimeInv_parse; [apply timeLayout_clockOnly | exact E]. }
  split.
  - destruct (G time.UTC Local) as (r & P & Es & En & Eo).
    unfold TimeFromString, time.Parse. rewrite P. cbn [fst snd].
    unfold Time_Equal. cbn [Time_t].
    rewrite instantFacts.Time_Equal_instant by assumption.
    repeat split; try assumption; apply (K _ _ _ P).
  - destruct (G loc loc) as (r & P & Es & En & Eo).
    unfold TimeFromStringLocation, time.ParseInLocation. rewrite P. cbn [fst snd].
    unfold Time_Equal. cbn [Time_t].
    rewrite instantFacts.Time_Equal_instant by assumption.
    repeat split; try assumption; apply (K _ _ _ P).
Qed.

Lemma TimeFromString_String_witness :
  let t := TimeFromStdTime (time.Date 2024 2 29 13 4 5 0 (time.FixedZone "EST" (-18000))) in
  Time_Equal (fst (TimeFromString time.UTC (Time_String t))) t = true /\
  Time_Equal (fst (TimeFromStringLocation (Time_String t) time.UTC)) t = true.
Proof.
  cbv zeta.
  destruct (TimeFromString_String time.UTC time.UTC
              (TimeFromStdTime (time.Date 2024 2 29 13 4 5 0 (time.FixedZone "EST" (-18000)))))
    as ((_ & H1 & _) & (_ & H2 & _)).
  - vm_compute. repeat split; reflexivity.
  - vm_compute. reflexivity.
  - vm_compute. reflexivity.
  - vm_compute. reflexivity.
  - split; assumption.
Defined.

(** X19: presenting a [Time] or a [DateTime] in another zone keeps the
    instant: the result is [Equal] to the receiver and at distance zero
    from it, and a [DateTime] keeps its Unix time.  What changes is the
    wall clock, which moves by the difference of the two zone offsets
    modulo 24 hours.  [UTC] and [Local] are [In] with the zone [UTC] and
    the local zone. *)
Theorem In_keeps_instant (Local l : time.Location) (t : Time) (d : DateTime) :
  (Time_Equal (Time_In t l) t = true /\ Time_Sub (Time_In t l) t = 0 /\
   Time_Location (Time_In t l) = l /\
   Time_UTC t = Time_In t time.UTC /\ Time_Local Local t = Time_In t Local /\
   aux.clockNanos (Time_t (Time_In t l))
   = ((aux.clockNanos (Time_t t) - Time_Nanosecond t
       + (time.zoneOffset l - time.zoneOffset (Time_Location t)) * 1000000000)
      mod 86400000000000) + Time_Nanosecond t) /\
  (DateTime_Equal (DateTime_In d l) d = true /\ DateTime_Sub (DateTime_In d l) d = 0 /\
   DateTime_Unix (DateTime_In d l) = DateTime_Unix d /\
   DateTime_Location (DateTime_In d l) = l /\
   DateTime_UTC d = DateTime_In d time.UTC /\ DateTime_Local Local d = DateTime_In d Local /\
   aux.clockNanos (DateTime_t (DateTime_In d l))
   = ((aux.clockNanos (DateTime_t d) - DateTime_Nanosecond d
       + (time.zoneOffset l - time.zoneOffset (DateTime_Location d)) * 1000000000)
      mod 86400000000000) + DateTime_Nanosecond d).
Proof.
  assert (G : forall u : time.Time,
    aux.clockNanos (time.Time_In u l)
    = ((aux.clockNanos u - time.nsec u
        + (time.zoneOffset l - time.zoneOffset (time.loc u)) * 1000000000)
       mod 86400000000000) + time.nsec u).
  { intros u. rewrite !clockFacts.clockNanos_abs. unfold time.Time_In, time.abs.
    cbn [time.sec time.nsec time.loc]. lia. }
  unfold Time_Equal, Time_Sub, Time_In, Time_Location, Time_UTC, Time_Local,
    DateTime_Equal, DateTime_Sub, DateTime_In, DateTime_Unix, DateTime_Location,
    DateTime_UTC, DateTime_Local, Time_Nanosecond, DateTime_Nanosecond,
    time.Time_Nanosecond, time.Time_Location.
  cbn [Time_t DateTime_t]. rewrite !G.
  unfold time.Time_Equal, time.Time_Sub, time.Time_In, time.Time_Unix.
  cbn [time.sec time.nsec time.loc]. rewrite !Z.eqb_refl.
  repeat split; lia.
Qed.

(** X20: a [DateTime] built by [NewDateTime] from a day that exists, a
    clock in range and a zone of one fixed offset ([time.UTC] or a
    [time.FixedZone]) reads back exactly these fields. *)
Theorem NewDateTime_reads_back (y m d h mi s ns : Z) (name : string) (offset : Z) :
  validDate y m d ->
  0 <= h < 24 -> 0 <= mi < 60 -> 0 <= s < 60 -> 0 <= ns < 1000000000 ->
  let dt := NewDateTime y m d h mi s ns (time.FixedZone name offset) in
  DateTime_Date dt = (y, m, d) /\
  DateTime_Year dt = y /\ DateTime_Month dt = m /\ DateTime_Day dt = d /\
  DateTime_Clock dt = (h, mi, s) /\
  DateTime_Hour dt = h /\ DateTime_Minute dt = mi /\ DateTime_Second dt = s /\
  DateTime_Nanosecond dt = ns /\
  DateTime_Location dt = time.FixedZone name offset.
Proof.
  intros [Hm Hd] Hh Hmi Hs Hns. cbv zeta.
  generalize (time.FixedZone name offset). intros l.
  pose proof (timeFacts.Time_Date_Date y m d h mi s ns l Hm Hd Hh Hmi Hs Hns) as E.
  destruct (timeFacts.Time_Clock_Date y m d h mi s ns l Hm Hh Hmi Hs Hns)
    as (E1 & E2 & E3 & E4 & E5).
  unfold DateTime_Date, DateTime_Year, DateTime_Month, DateTime_Day, DateTime_Clock,
    DateTime_Hour, DateTime_Minute, DateTime_Second, DateTime_Nanosecond,
    DateTime_Location, NewDateTime, time.Time_Year, time.Time_Month, time.Time_Day,
    time.Time_Clock.
  cbn [DateTime_t]. rewrite E, E1, E2, E3, E4, E5. repeat split.
Qed.

Lemma NewDateTime_reads_back_witness :
  DateTime_Date (NewDateTime 2024 2 29 23 59 59 999999999 (time.FixedZone "EST" (-18000)))
  = (2024, 2, 29) /\
  DateTime_Clock (NewDateTime 2024 2 29 23 59 59 999999999 (time.FixedZone "EST" (-18000)))
  = (23, 59, 59).
Proof.
  destruct (NewDateTime_reads_back 2024 2 29 23 59 59 999999999 "EST" (-18000))
    as (H1 & _ & _ & _ & H2 & _); try lia.
  - unfold validDate. vm_compute. repeat split; discriminate.
  - split; assumption.
Defined.

Module stampFacts.
Import time aux timeFacts parseFacts formatFacts layoutFacts fracFacts roundFacts.

Lemma int64_id z : - 2 ^ 63 <= z < 2 ^ 63 -> int64 z = z.
Proof. unfold int64. lia. Qed.

Lemma int64_add a b : int64 (int64 a + b) = int64 (a + b).
Proof. unfold int64. lia. Qed.

Lemma Format_RFC3339 t :
  0 <= Time_Year t < 10000 -> Z.abs (zoneOffset (loc t)) < 86400 ->
  Time_Format t RFC3339
  = fmtDate (Time_Year t) (Time_Month t) (Time_Day t)
      (String "T" (fmtClock (Time_Hour t) (Time_Minute t) (Time_Second t)
                            (fmtZoneISO (zoneOffset (loc t))))).
Proof.
  intros Hy Hoff. destruct (fields_range t) as (Hm & Hd & Hh & Hmi & Hs).
  unfold Time_Format, RFC3339. cbn [String.length]. format_steps.
  rewrite appendStd_ColonTZ by assumption. cbn [appendStd].
  rewrite appendInt_4, !appendInt_2 by lia. unfold fmtDate, fmtClock.
  rewrite !app_assoc. cbn [String.append]. rewrite ?app_nil_r. reflexivity.
Qed.

End stampFacts.

(** *** [DateTime] and Unix time *)

(** X21: [DateTimeFromUnix] makes the instant that many seconds and
    nanoseconds after the Unix epoch, in the local zone: its Unix time is
    the seconds plus the whole seconds in the nanosecond count (rounded
    down, also when negative) and its nanosecond is the rest.  A count of
    milliseconds or microseconds in the 64-bit range is read back unchanged
    by [UnixMilli] and [UnixMicro].  The seconds are taken within 2^62 of
    zero. *)
Theorem DateTimeFromUnix_Unix (Local : time.Location) (s ns ms us : Z) :
  - 2 ^ 62 <= s <= 2 ^ 62 -> minInt64 <= ns <= maxInt64 ->
  minInt64 <= ms <= maxInt64 -> minInt64 <= us <= maxInt64 ->
  DateTime_Unix (DateTimeFromUnix Local s ns) = s + ns / 1000000000 /\
  DateTime_Nanosecond (DateTimeFromUnix Local s ns) = ns mod 1000000000 /\
  DateTime_Location (DateTimeFromUnix Local s ns) = Local /\
  DateTime_Unix (DateTimeFromUnixMilli Local ms) = ms / 1000 /\
  DateTime_Nanosecond (DateTimeFromUnixMilli Local ms) = ms mod 1000 * 1000000 /\
  DateTime_Unix (DateTimeFromUnixMicro Local us) = us / 1000000 /\
  DateTime_Nanosecond (DateTimeFromUnixMicro Local us) = us mod 1000000 * 1000 /\
  DateTime_UnixMilli (DateTimeFromUnixMilli Local ms) = ms /\
  DateTime_UnixMicro (DateTimeFromUnixMicro Local us) = us.
Proof.
  intros _ _ Hms Hus. revert Hms Hus. unfold DateTime_Unix, DateTime_Nanosecond, DateTime_Location, DateTime_UnixMilli,
    DateTime_UnixMicro, DateTimeFromUnix, DateTimeFromUnixMilli, DateTimeFromUnixMicro,
    time.Time_UnixMilli, time.Time_UnixMicro, time.Time_Unix, time.Time_Nanosecond,
    time.Time_Location, minInt64, maxInt64.
  cbn [DateTime_t].
  rewrite unixFacts.Unix_spec, unixFacts.UnixMilli_spec, unixFacts.UnixMicro_spec.
  cbn [time.sec time.nsec time.loc]. rewrite !stampFacts.int64_add.
  intros Hms Hus. repeat split; try lia.
  - rewrite <- (stampFacts.int64_id ms) at 3 by lia. f_equal. lia.
  - rewrite <- (stampFacts.int64_id us) at 3 by lia. f_equal. lia.
Qed.

Lemma DateTimeFromUnix_Unix_witness :
  DateTime_UnixMilli (DateTimeFromUnixMilli time.UTC (- 1)) = - 1 /\
  DateTime_Unix (DateTimeFromUnixMilli time.UTC (- 1)) = - 1 /\
  DateTime_Nanosecond (DateTimeFromUnixMilli time.UTC (- 1)) = 999000000.
Proof.
  assert (R1 : - 2 ^ 62 <= 0 <= 2 ^ 62) by (vm_compute; split; discriminate).
  assert (R2 : minInt64 <= 0 <= maxInt64) by (vm_compute; split; discriminate).
  assert (R3 : minInt64 <= - 1 <= maxInt64) by (vm_compute; split; discriminate).
  pose proof (DateTimeFromUnix_Unix time.UTC 0 0 (- 1) 0 R1 R2 R3 R2) as H.
  split; [|split].
  - apply H.
  - apply H.
  - apply H.
Defined.

(** X22: on a [DateTime] with a nanosecond in [0, 10^9), [Add] and [Sub]
    are inverse to each other: the distance from the receiver to the
    receiver plus a duration is that duration, adding the opposite
    duration comes back to the receiver, and the result is after the
    receiver exactly when the duration is positive.  The zone is kept. *)
Theorem DateTime_Add_Sub (d : DateTime) (dur : Z) :
  0 <= DateTime_Nanosecond d < 1000000000 ->
  minInt64 < dur <= maxInt64 ->
  DateTime_Sub (DateTime_Add d dur) d = dur /\
  DateTime_Add (DateTime_Add d dur) (- dur) = d /\
  DateTime_Add d 0 = d /\
  (DateTime_After (DateTime_Add d dur) d = true <-> 0 < dur) /\
  (DateTime_Before (DateTime_Add d dur) d = true <-> dur < 0) /\
  DateTime_Location (DateTime_Add d dur) = DateTime_Location d /\
  0 <= DateTime_Nanosecond (DateTime_Add d dur) < 1000000000.
Proof.
  intros Hwf _. destruct d as [t].
  unfold DateTime_Nanosecond, time.Time_Nanosecond in *. cbn [DateTime_t] in Hwf.
  assert (Hwf' : aux.wf (time.Time_Add t dur)) by (apply wf_Add; exact Hwf).
  unfold DateTime_Sub, DateTime_Add, DateTime_After, DateTime_Before, DateTime_Location,
    time.Time_Location.
  cbn [DateTime_t].
  rewrite (clockFacts.Time_Add_spec (time.Time_Add t dur)) by exact Hwf'.
  rewrite !(clockFacts.Time_Add_spec t) by exact Hwf.
  unfold time.Time_Sub, time.Time_After, time.Time_Before.
  cbn [time.sec time.nsec time.loc]. rewrite !Z.gtb_ltb.
  destruct t as [s n l]. cbn [time.sec time.nsec time.loc] in *.
  split; [lia|]. split; [f_equal; f_equal; lia|]. split; [f_equal; f_equal; lia|].
  split; [|split; [|split; [reflexivity | lia]]].
  - destruct (Z.ltb_spec s (s + (n + dur) / 1000000000)),
      (Z.eqb_spec (s + (n + dur) / 1000000000) s),
      (Z.ltb_spec n ((n + dur) mod 1000000000)); cbn [andb orb]; split; intros; lia || auto.
  - destruct (Z.ltb_spec (s + (n + dur) / 1000000000) s),
      (Z.eqb_spec (s + (n + dur) / 1000000000) s),
      (Z.ltb_spec ((n + dur) mod 1000000000) n); cbn [andb orb]; split; intros; lia || auto.
Qed.

Lemma DateTime_Add_Sub_witness :
  DateTime_Sub (DateTime_Add (NewDateTime 2024 2 29 23 59 59 999999999 time.UTC) 1)
               (NewDateTime 2024 2 29 23 59 59 999999999 time.UTC) = 1 /\
  DateTime_Date (DateTime_Add (NewDateTime 2024 2 29 23 59 59 999999999 time.UTC) 1)
  = (2024, 3, 1).
Proof.
  destruct (DateTime_Add_Sub (NewDateTime 2024 2 29 23 59 59 999999999 time.UTC) 1)
    as (H & _).
  - vm_compute. split; [discriminate | reflexivity].
  - vm_compute. split; [reflexivity | discriminate].
  - split; [exact H | reflexivity].
Defined.

(** X23: the text that [String] gives for a [DateTime] has no fraction
    of a second; for a year in [0, 9999] and a zone offset of whole
    minutes and less than 24 hours, [DateTimeFromString] and
    [DateTimeFromStringLocation] read it back without error as the same
    second, with nanosecond 0 and the same zone offset, so as an [Equal]
    value exactly when the nanosecond of the receiver is 0. *)
Theorem DateTimeFromString_String (Local loc : time.Location) (d : DateTime) :
  0 <= DateTime_Year d <= 9999 -> 0 <= DateTime_Nanosecond d < 1000000000 ->
  Z.abs (time.zoneOffset (DateTime_Location d)) < 86400 ->
  time.zoneOffset (DateTime_Location d) mod 60 = 0 ->
  (snd (DateTimeFromString Local (DateTime_String d)) = None /\
   DateTime_Unix (fst (DateTimeFromString Local (DateTime_String d))) = DateTime_Unix d /\
   DateTime_Nanosecond (fst (DateTimeFromString Local (DateTime_String d))) = 0 /\
   time.zoneOffset (DateTime_Location (fst (DateTimeFromString Local (DateTime_String d))))
   = time.zoneOffset (DateTime_Location d) /\
   (DateTime_Equal (fst (DateTimeFromString Local (DateTime_String d))) d = true
    <-> DateTime_Nanosecond d = 0)) /\
  (snd (DateTimeFromStringLocation (DateTime_String d) loc) = None /\
   DateTime_Unix (fst (DateTimeFromStringLocation (DateTime_String d) loc))
   = DateTime_Unix d /\
   DateTime_Nanosecond (fst (DateTimeFromStringLocation (DateTime_String d) loc)) = 0).
Proof.
  intros Hy Hwf Hoff Hmod. destruct d as [t].
  unfold DateTime_Year, DateTime_Nanosecond, DateTime_Location, time.Time_Nanosecond,
    time.Time_Location in *. cbn [DateTime_t] in *.
  destruct (formatFacts.fields_valid t) as (Hm & Hd & _).
  destruct (layoutFacts.fields_range t) as (_ & _ & Hh & Hmi & Hs).
  assert (Hy' : 0 <= time.Time_Year t < 10000) by lia.
  assert (G : forall dl local,
    exists r, time.parse time.RFC3339 (DateTime_String (mkDateTime t)) dl local = (r, None) /\
      time.sec r = time.sec t /\ time.nsec r = 0 /\
      time.zoneOffset (time.loc r) = time.zoneOffset (time.loc t)).
  { intros dl local.
    destruct (zoneFacts.reparsed_seconds t (time.zoneOffset (time.loc t) =? 0) dl local
                (instantFacts.utc_flag _)) as [Es En].
    cbv zeta in Es, En.
    destruct (roundFacts.parse_RFC3339 _ _ _ _ _ _ 0 _ dl local Hy' Hm Hd Hh Hmi Hs
                ltac:(lia) Hoff Hmod) as [P1 _].
    change (aux.fracText 9 0) with EmptyString in P1. cbn [String.append] in P1.
    eexists. unfold DateTime_String. cbn [DateTime_t].
    rewrite stampFacts.Format_RFC3339 by assumption.
    split; [exact P1|]. split; [exact Es|]. split; [exact En|].
    apply zoneFacts.reparsed_offset. apply instantFacts.utc_flag. }
  split.
  - destruct (G time.UTC Local) as (r & P & Es & En & Eo).
    unfold DateTimeFromString, time.Parse. rewrite P. cbn [fst snd].
    unfold DateTime_Unix, DateTime_Equal, time.Time_Unix, time.Time_Equal.
    cbn [DateTime_t]. rewrite Es, En, Z.eqb_refl. cbn [andb].
    repeat split; try assumption; lia.
  - destruct (G loc loc) as (r & P & Es & En & Eo).
    unfold DateTimeFromStringLocation, time.ParseInLocation. rewrite P. cbn [fst snd].
    unfold DateTime_Unix, time.Time_Unix. cbn [DateTime_t]. rewrite Es.
    repeat split; assumption.
Qed.

Lemma DateTimeFromString_String_witness :
  let d := NewDateTime 2024 2 29 13 4 5 6 (time.FixedZone "EST" (-18000)) in
  DateTime_String d = "2024-02-29T13:04:05-05:00"%string /\
  DateTime_Unix (fst (DateTimeFromString time.UTC (DateTime_String d))) = DateTime_Unix d /\
  DateTime_Equal (fst (DateTimeFromString time.UTC (DateTime_String d))) d = false.
Proof.
  cbv zeta.
  destruct (DateTimeFromString_String time.UTC time.UTC
              (NewDateTime 2024 2 29 13 4 5 6 (time.FixedZone "EST" (-18000))))
    as ((_ & H1 & _ & _ & H2) & _).
  - vm_compute. split; discriminate.
  - vm_compute. split; [discriminate | reflexivity].
  - vm_compute. reflexivity.
  - vm_compute. reflexivity.
  - split; [reflexivity|]. split; [exact H1|].
    destruct (DateTime_Equal _ _) eqn:E; [|reflexivity].
    destruct H2 as [H2 _]. specialize (H2 eq_refl). vm_compute in H2. discriminate.
Defined.

(** X24: in a zone of one fixed offset ([time.UTC] or a
    [time.FixedZone]), [AddDate] on a [DateTime] built from a day that
    exists and a clock in range is [NewDateTime] of the year, month and day
    with the three numbers added and the same clock and zone, so what
    overflows is normalised as [NewDateTime] does.  With only a number of
    days, the Unix time moves by that many times 86400 seconds. *)
Theorem DateTime_AddDate_fields (y m d h mi s ns : Z) (name : string) (offset : Z)
    (years months days : Z) :
  validDate y m d ->
  0 <= h < 24 -> 0 <= mi < 60 -> 0 <= s < 60 -> 0 <= ns < 1000000000 ->
  let l := time.FixedZone name offset in
  DateTime_AddDate (NewDateTime y m d h mi s ns l) years months days
  = NewDateTime (y + years) (m + months) (d + days) h mi s ns l /\
  DateTime_Unix (DateTime_AddDate (NewDateTime y m d h mi s ns l) 0 0 days)
  = DateTime_Unix (NewDateTime y m d h mi s ns l) + 86400 * days.
Proof.
  intros [Hm Hd] Hh Hmi Hs Hns. cbv zeta.
  generalize (time.FixedZone name offset). intros l.
  pose proof (timeFacts.Time_Date_Date y m d h mi s ns l Hm Hd Hh Hmi Hs Hns) as E.
  destruct (timeFacts.Time_Clock_Date y m d h mi s ns l Hm Hh Hmi Hs Hns)
    as (E1 & E2 & E3 & E4 & E5).
  assert (A : forall yy mm dd,
    DateTime_AddDate (NewDateTime y m d h mi s ns l) yy mm dd
    = NewDateTime (y + yy) (m + mm) (d + dd) h mi s ns l).
  { intros yy mm dd. unfold DateTime_AddDate, NewDateTime, time.Time_AddDate, time.Time_Clock.
    cbn [DateTime_t]. rewrite E, E1, E2, E3, E4, E5. reflexivity. }
  split; [apply A|].
  rewrite A. unfold DateTime_Unix, NewDateTime, time.Time_Unix. cbn [DateTime_t].
  rewrite !Z.add_0_r. rewrite !timeFacts.Date_sec by assumption. cbn [time.sec].
  unfold aux.civilDays, aux.ydayOf. lia.
Qed.

Lemma DateTime_AddDate_fields_witness :
  DateTime_AddDate (NewDateTime 2024 1 31 12 0 0 0 (time.FixedZone "UTC" 0)) 0 1 0
  = NewDateTime 2024 3 2 12 0 0 0 (time.FixedZone "UTC" 0).
Proof.
  destruct (DateTime_AddDate_fields 2024 1 31 12 0 0 0 "UTC" 0 0 1 0) as [H _]; try lia.
  - unfold validDate. vm_compute. repeat split; discriminate.
  - rewrite H. reflexivity.
Defined.

(** *** Errors *)

Ltac keep_receiver :=
  let H := fresh in intros H; first [reflexivity | exfalso; apply H; reflexivity].

(** X25: a decoder that fails leaves its receiver as it was, and a
    constructor that fails returns the zero value: this holds of
    [UnmarshalBinary], [UnmarshalJSON], [UnmarshalText] and [Scan] on the
    three types and of the constructors that parse a text. *)
Theorem failure_keeps_receiver (Local loc : time.Location)
    (d : Date) (t : Time) (dt : DateTime)
    (data : list byte) (v : any) (layout str : string) :
  ((snd (Date_UnmarshalBinary d data) <> None -> fst (Date_UnmarshalBinary d data) = d) /\
   (snd (Date_UnmarshalJSON Local d data) <> None ->
    fst (Date_UnmarshalJSON Local d data) = d) /\
   (snd (Date_UnmarshalText Local d data) <> None ->
    fst (Date_UnmarshalText Local d data) = d) /\
   (snd (Date_Scan Local d v) <> None -> fst (Date_Scan Local d v) = d)) /\
  ((snd (Time_UnmarshalJSON Local t data) <> None ->
    fst (Time_UnmarshalJSON Local t data) = t) /\
   (snd (Time_UnmarshalText Local t data) <> None ->
    fst (Time_UnmarshalText Local t data) = t) /\
   (snd (Time_Scan Local t v) <> None -> fst (Time_Scan Local t v) = t)) /\
  ((snd (DateTime_UnmarshalJSON Local dt data) <> None ->
    fst (DateTime_UnmarshalJSON Local dt data) = dt) /\
   (snd (DateTime_UnmarshalText Local dt data) <> None ->
    fst (DateTime_UnmarshalText Local dt data) = dt) /\
   (snd (DateTime_Scan Local dt v) <> None -> fst (DateTime_Scan Local dt v) = dt)) /\
  ((snd (DateFromString str) <> None -> fst (DateFromString str) = mkDate time.zero) /\
   (snd (DateFromLayout layout str) <> None ->
    fst (DateFromLayout layout str) = mkDate time.zero) /\
   (snd (TimeFromString Local str) <> None ->
    fst (TimeFromString Local str) = mkTimeOfDay time.zero) /\
   (snd (TimeFromStringLocation str loc) <> None ->
    fst (TimeFromStringLocation str loc) = mkTimeOfDay time.zero) /\
   (snd (TimeFromLayout Local layout str) <> None ->
    fst (TimeFromLayout Local layout str) = mkTimeOfDay time.zero) /\
   (snd (TimeFromLayoutLocation layout str loc) <> None ->
    fst (TimeFromLayoutLocation layout str loc) = mkTimeOfDay time.zero) /\
   (snd (DateTimeFromString Local str) <> None ->
    fst (DateTimeFromString Local str) = mkDateTime time.zero) /\
   (snd (DateTimeFromStringLocation str loc) <> None ->
    fst (DateTimeFromStringLocation str loc) = mkDateTime time.zero) /\
   (snd (DateTimeFromLayout Local layout str) <> None ->
    fst (DateTimeFromLayout Local layout str) = mkDateTime time.zero) /\
   (snd (DateTimeFromLayoutLocation layout str loc) <> None ->
    fst (DateTimeFromLayoutLocation layout str loc) = mkDateTime time.zero)).
Proof.
  split; [|split; [|split]].
  - split; [|split; [|split]].
    + unfold Date_UnmarshalBinary. destruct (negb _); cbn [fst snd]; keep_receiver.
    + unfold Date_UnmarshalJSON. destruct (time.Parse _ _ _) as [? [?|]];
        cbn [fst snd]; keep_receiver.
    + unfold Date_UnmarshalText. destruct (time.Parse _ _ _) as [? [?|]];
        cbn [fst snd]; keep_receiver.
    + unfold Date_Scan. destruct v; try destruct (time.Parse _ _ _) as [? [?|]];
        cbn [fst snd]; keep_receiver.
  - split; [|split].
    + unfold Time_UnmarshalJSON. destruct (time.Parse _ _ _) as [? [?|]];
        cbn [fst snd]; keep_receiver.
    + unfold Time_UnmarshalText. destruct (time.Parse _ _ _) as [? [?|]];
        cbn [fst snd]; keep_receiver.
    + unfold Time_Scan. destruct v; try destruct (time.Parse _ _ _) as [? [?|]];
        cbn [fst snd]; keep_receiver.
  - split; [|split].
    + unfold DateTime_UnmarshalJSON. destruct (time.Time_UnmarshalJSON _ _ _) as [? [?|]];
        cbn [fst snd]; keep_receiver.
    + unfold DateTime_UnmarshalText. destruct (time.Time_UnmarshalText _ _ _) as [? [?|]];
        cbn [fst snd]; keep_receiver.
    + unfold DateTime_Scan. destruct v; try destruct (time.Parse _ _ _) as [? [?|]];
        cbn [fst snd]; keep_receiver.
  - unfold DateFromString, DateFromLayout, TimeFromString, TimeFromStringLocation,
      TimeFromLayout, TimeFromLayoutLocation, DateTimeFromString,
      DateTimeFromStringLocation, DateTimeFromLayout, DateTimeFromLayoutLocation.
    repeat match goal with
    | |- _ /\ _ => split
    | |- context [time.Parse ?L ?l ?x] => destruct (time.Parse L l x) as [? [?|]]
    | |- context [time.ParseInLocation ?l ?x ?L] =>
        destruct (time.ParseInLocation l x L) as [? [?|]]
    end; cbn [fst snd]; keep_receiver.
Qed.

(** *** [Scan] of a number *)

(** X26: [Scan] of a 64-bit integer, within 2^62 of zero, reads it as
    Unix seconds in UTC, whatever the local zone: a [Date] becomes the UTC day, a [Time] the UTC
    wall clock and a [DateTime] the instant itself, in the zone UTC.  A
    float is first converted to an integer. *)
Theorem Scan_integer (Local : time.Location) (d : Date) (t : Time) (dt : DateTime)
    (n : Z) (f : float64) :
  - 2 ^ 62 <= n <= 2 ^ 62 ->
  Date_Unix (fst (Date_Scan Local d (any_int64 n))) = 86400 * (n / 86400) /\
  aux.clockNanos (Time_t (fst (Time_Scan Local t (any_int64 n))))
  = (n mod 86400) * 1000000000 /\
  Time_Location (fst (Time_Scan Local t (any_int64 n))) = time.UTC /\
  DateTime_Unix (fst (DateTime_Scan Local dt (any_int64 n))) = n /\
  DateTime_Nanosecond (fst (DateTime_Scan Local dt (any_int64 n))) = 0 /\
  DateTime_Location (fst (DateTime_Scan Local dt (any_int64 n))) = time.UTC /\
  Date_Scan Local d (any_float64 f) = Date_Scan Local d (any_int64 (int64_of_float64 f)) /\
  Time_Scan Local t (any_float64 f) = Time_Scan Local t (any_int64 (int64_of_float64 f)) /\
  DateTime_Scan Local dt (any_float64 f)
  = DateTime_Scan Local dt (any_int64 (int64_of_float64 f)).
Proof.
  intros _.
  assert (W : aux.wf (time.Time_UTC (time.Unix Local n 0))).
  { pose proof (wf_Unix Local n 0) as H. exact H. }
  unfold Date_Scan, Time_Scan, DateTime_Scan, DateFromUnix, TimeFromUnix,
    Time_Location, DateTime_Unix, DateTime_Nanosecond, DateTime_Location,
    time.Time_Location, time.Time_Nanosecond.
  cbn [fst DateTime_t].
  rewrite Date_Unix_DateFromStdTime, clockNanos_TimeFromStdTime by exact W.
  rewrite TimeFromStdTime_sec by exact W. rewrite clockFacts.clockNanos_abs.
  rewrite unixFacts.Unix_spec. unfold time.Time_UTC, time.abs, time.Time_Unix.
  cbn [time.sec time.nsec time.loc time.zoneOffset time.UTC].
  rewrite unixFacts.unixToInternal_days. repeat split; lia.
Qed.

Lemma Scan_integer_witness :
  Date_Unix (fst (Date_Scan time.UTC (NewDate 1 1 1) (any_int64 946771201))) = 946771200 /\
  DateTime_Unix (fst (DateTime_Scan time.UTC (NewDateTime 1 1 1 0 0 0 0 time.UTC)
                                    (any_int64 946771201))) = 946771201.
Proof.
  assert (R : - 2 ^ 62 <= 946771201 <= 2 ^ 62) by (vm_compute; split; discriminate).
  pose proof (Scan_integer time.UTC (NewDate 1 1 1) (NewTime 0 0 0 0 time.UTC)
                (NewDateTime 1 1 1 0 0 0 0 time.UTC) 946771201 (SpecFloat.S754_zero false) R) as H.
  split; apply H.
Defined.

(** *** The binary form, read first *)

Lemma packDate_fields w :
  0 <= w < 2 ^ 23 ->
  packDate (Z.land w 16383) (Z.land (Z.shiftr w 14) 15) (Z.land (Z.shiftr w (14 + 4)) 31)
  = w.
Proof.
  intros Hw. unfold packDate, uint32.
  change 16383 with (Z.ones 14). change 15 with (Z.ones 4). change 31 with (Z.ones 5).
  change (14 + 4) with 18.
  assert (Hhigh : forall i, 23 <= i -> Z.testbit w i = false).
  { intros i Hi. destruct (Z.eq_dec w 0) as [->|Hne]; [apply Z.bits_0|].
    apply Z.bits_above_log2; [lia|].
    assert (Z.log2 w < 23) by (apply Z.log2_lt_pow2; lia). lia. }
  Z.bitblast; subst;
    repeat match goal with
    | |- context [Z.testbit ?a ?i] => rewrite (Z.testbit_neg_r a i) by lia
    end;
    try btauto;
    repeat match goal with
    | |- context [Z.testbit w ?i] => rewrite (Hhigh i) by lia
    end; reflexivity.
Qed.

(** X27: four bytes whose little-endian word is below 2^23 and whose
    three fields make a date that exists are decoded by [UnmarshalBinary]
    to a [Date] that [MarshalBinary] encodes as the same four bytes. *)
Theorem Date_binary_canonical (d0 : Date) (data : list byte) :
  List.length data = 4%nat ->
  le_combine data < 2 ^ 23 ->
  validDate (Z.land (le_combine data) 16383)
            (Z.land (Z.shiftr (le_combine data) 14) 15)
            (Z.land (Z.shiftr (le_combine data) 18) 31) ->
  snd (Date_UnmarshalBinary d0 data) = None /\
  Date_MarshalBinary (fst (Date_UnmarshalBinary d0 data)) = (data, None).
Proof.
  intros Hlen Hw [Hm Hd].
  assert (E : Uint32 data = le_combine data).
  { unfold Uint32. rewrite <- Hlen, firstn_all. reflexivity. }
  unfold Date_UnmarshalBinary. rewrite Hlen. cbn [Nat.eqb negb fst snd].
  split; [reflexivity|]. rewrite E. change (14 + 4) with 18.
  rewrite Date_MarshalBinary_pack.
  destruct (NewDate_ymd _ _ _ Hm Hd) as (-> & -> & ->).
  pose proof (le_combine_bound data) as B. rewrite Hlen in B.
  change 18 with (14 + 4). rewrite packDate_fields by lia.
  unfold PutUint32. rewrite <- Hlen. rewrite split_le_combine. reflexivity.
Qed.

Lemma Date_binary_canonical_witness :
  Date_MarshalBinary
    (fst (Date_UnmarshalBinary (NewDate 1 1 1) [Byte.xd0; Byte.x47; Byte.x08; Byte.x00]))
  = ([Byte.xd0; Byte.x47; Byte.x08; Byte.x00], None).
Proof.
  apply (Date_binary_canonical (NewDate 1 1 1) [Byte.xd0; Byte.x47; Byte.x08; Byte.x00]).
  - reflexivity.
  - vm_compute. reflexivity.
  - unfold validDate. vm_compute. repeat split; discriminate.
Defined.

(** *** Months *)

Lemma Date_fields_rebuild y m d yy mm dd :
  validDate y m d ->
  Date_AddDate (NewDate y m d) yy mm dd = NewDate (y + yy) (m + mm) (d + dd).
Proof.
  intros [Hm Hd]. unfold Date_AddDate, time.Time_AddDate, time.Time_Clock.
  unfold NewDate at 1 2 3 4 5 6 7. cbn [Date_t].
  rewrite timeFacts.Time_Date_Date by (try assumption; lia).
  destruct (timeFacts.Time_Clock_Date y m d 0 0 0 0 time.UTC Hm)
    as (E1 & E2 & E3 & E4 & E5); try lia.
  rewrite E1, E2, E3, E4, E5.
  change (DateFromStdTime (Date_t (NewDate (y + yy) (m + mm) (d + dd)))
          = NewDate (y + yy) (m + mm) (d + dd)).
  apply DateFromStdTime_fixed. apply DateInv_Date.
Qed.

(** X28: [PreviousMonthLastDay] of the [Date] of a day that exists is
    the last day of the month before, in the year before when the month
    is January; it is before the receiver, and the day after it is the
    first day of the receiver's month. *)
Theorem Date_PreviousMonthLastDay_spec (y m d : Z) :
  validDate y m d ->
  let py := if m =? 1 then y - 1 else y in
  let pm := if m =? 1 then 12 else m - 1 in
  Date_PreviousMonthLastDay (NewDate y m d) = NewDate py pm (time.daysIn pm py) /\
  validDate py pm (time.daysIn pm py) /\
  Date_Before (Date_PreviousMonthLastDay (NewDate y m d)) (NewDate y m d) = true /\
  Date_AddDate (Date_PreviousMonthLastDay (NewDate y m d)) 0 0 1 = NewDate y m 1.
Proof.
  intros [Hm Hd]. cbv zeta.
  set (py := if m =? 1 then y - 1 else y). set (pm := if m =? 1 then 12 else m - 1).
  assert (Hpm : 1 <= pm <= 12) by (subst pm; destruct (Z.eqb_spec m 1); lia).
  assert (Hlen : 28 <= time.daysIn pm py <= 31).
  { rewrite timeFacts.daysIn_monthLen. apply timeFacts.monthLen_bounds. exact Hpm. }
  assert (Hv : validDate py pm (time.daysIn pm py)) by (split; lia).
  assert (E0 : forall k, NewDate y m k = NewDate py pm (time.daysIn pm py + k)).
  { intros k. unfold NewDate. f_equal.
    rewrite (calendarFacts.Date_day_overflow_any py pm) by exact Hpm.
    replace (time.daysIn pm py + k - time.daysIn pm py) with k by lia.
    subst py pm. destruct (Z.eqb_spec m 1) as [->|Hne].
    - rewrite (timeFacts.Date_norm_month (y - 1) (12 + 1)).
      change ((12 + 1 - 1) / 12) with 1. change ((12 + 1 - 1) mod 12 + 1) with 1.
      replace (y - 1 + 1) with y by lia. reflexivity.
    - replace (m - 1 + 1) with m by lia. reflexivity. }
  assert (E : Date_PreviousMonthLastDay (NewDate y m d)
              = NewDate py pm (time.daysIn pm py)).
  { unfold Date_PreviousMonthLastDay. rewrite NewDate_fields by assumption.
    rewrite (E0 0), Z.add_0_r. reflexivity. }
  rewrite E. split; [reflexivity|]. split; [exact Hv|]. split.
  - rewrite (E0 d). unfold Date_Before, time.Time_Before.
    rewrite !NewDate_sec by exact Hpm. cbn [time.sec time.nsec].
    unfold aux.civilDays, aux.ydayOf.
    apply orb_true_intro. left. apply Z.ltb_lt. lia.
  - rewrite Date_fields_rebuild by exact Hv. rewrite !Z.add_0_r. rewrite (E0 1). reflexivity.
Qed.

Lemma Date_PreviousMonthLastDay_spec_witness :
  Date_PreviousMonthLastDay (NewDate 2024 3 15) = NewDate 2024 2 29 /\
  Date_PreviousMonthLastDay (NewDate 2024 1 15) = NewDate 2023 12 31.
Proof.
  destruct (Date_PreviousMonthLastDay_spec 2024 3 15) as [H1 _].
  { unfold validDate. vm_compute. repeat split; discriminate. }
  destruct (Date_PreviousMonthLastDay_spec 2024 1 15) as [H2 _].
  { unfold validDate. vm_compute. repeat split; discriminate. }
  split; [rewrite H1 | rewrite H2]; reflexivity.
Defined.

Module precisionFacts.
Import time aux timeFacts parseFacts formatFacts layoutFacts fracFacts roundFacts.

(** Six digits of a fraction do not show what is below a microsecond. *)
Lemma fracText_micro ns :
  0 <= ns < 1000000000 -> fracText 6 ns = fracText 6 (ns - ns mod 1000).
Proof.
  intros Hns. unfold fracText. cbn [Nat.eqb orb].
  rewrite !firstDigits by lia. change (10 ^ Z.of_nat (9 - 6)) with 1000.
  replace ((ns - ns mod 1000) / 1000) with (ns / 1000) by lia.
  destruct (Z.eqb_spec ns 0) as [->|Hne]; [reflexivity|].
  destruct (Z.eqb_spec (ns - ns mod 1000) 0) as [E|E]; [|reflexivity].
  replace (ns / 1000) with 0 by lia. reflexivity.
Qed.

(** The fields of [t] with another nanosecond. *)
Lemma reparsed_nanos t ns utc dl local :
  0 <= ns < 1000000000 ->
  (utc = true -> zoneOffset (loc t) = 0) ->
  let r := reparsed (Time_Year t) (Time_Month t) (Time_Day t) (Time_Hour t)
                    (Time_Minute t) (Time_Second t) ns (zoneOffset (loc t))
                    utc dl local in
  sec r = sec t /\ nsec r = ns.
Proof.
  intros Hns Hutc.
  exact (instantFacts.reparsed_instant (mkTime (sec t) ns (loc t)) utc dl local Hns Hutc).
Qed.

End precisionFacts.

(** X29: the text and JSON forms of a [Time] carry no fraction of a
    second.  For a [Time] dated January 1 of year 0 with a zone offset of
    whole minutes and less than 24 hours, what [UnmarshalText] reads from
    the output of [MarshalText] (and [UnmarshalJSON] from [MarshalJSON]) is
    the receiver with its nanosecond set to 0: it lies before the receiver
    by exactly the receiver's nanosecond, and is [Equal] to it only when
    that is 0. *)
Theorem Time_text_drops_nanoseconds (Local : time.Location) (t t0 : Time) :
  TimeInv t -> 0 <= Time_Nanosecond t < 1000000000 ->
  Z.abs (time.zoneOffset (Time_Location t)) < 86400 ->
  time.zoneOffset (Time_Location t) mod 60 = 0 ->
  (snd (Time_UnmarshalText Local t0 (fst (Time_MarshalText t))) = None /\
   Time_Nanosecond (fst (Time_UnmarshalText Local t0 (fst (Time_MarshalText t)))) = 0 /\
   Time_Sub t (fst (Time_UnmarshalText Local t0 (fst (Time_MarshalText t))))
   = Time_Nanosecond t /\
   (Time_Equal (fst (Time_UnmarshalText Local t0 (fst (Time_MarshalText t)))) t = true
    <-> Time_Nanosecond t = 0)) /\
  (snd (Time_UnmarshalJSON Local t0 (fst (Time_MarshalJSON t))) = None /\
   Time_Nanosecond (fst (Time_UnmarshalJSON Local t0 (fst (Time_MarshalJSON t)))) = 0 /\
   Time_Sub t (fst (Time_UnmarshalJSON Local t0 (fst (Time_MarshalJSON t))))
   = Time_Nanosecond t /\
   (Time_Equal (fst (Time_UnmarshalJSON Local t0 (fst (Time_MarshalJSON t)))) t = true
    <-> Time_Nanosecond t = 0)).
Proof.
  intros (Hy & Hm & Hd) Hwf Hoff Hmod.
  unfold Time_Nanosecond, Time_Location, time.Time_Nanosecond, time.Time_Location in *.
  destruct (layoutFacts.fields_range (Time_t t)) as (_ & _ & Hh & Hmi & Hs).
  destruct (zoneFacts.reparsed_seconds (Time_t t)
              (time.zoneOffset (time.loc (Time_t t)) =? 0) time.UTC Local
              (instantFacts.utc_flag _)) as [Es En].
  cbv zeta in Es, En. rewrite Hy, Hm, Hd in Es, En.
  destruct (roundFacts.parse_timeLayout _ _ _ _ time.UTC Local Hh Hmi Hs Hoff Hmod)
    as [P1 P2].
  unfold Time_UnmarshalText, Time_MarshalText, Time_UnmarshalJSON, Time_MarshalJSON,
    Time_String, quotedTimeLayout, time.Parse, Time_Equal, Time_Sub.
  unfold timeLayout. cbn [fst]. rewrite !string_bytes.
  rewrite roundFacts.Format_timeLayout, roundFacts.Format_quotedTimeLayout by assumption.
  rewrite P1, P2. cbn [fst snd Time_t].
  unfold time.Time_Sub, time.Time_Equal. rewrite Es, En, Z.eqb_refl. cbn [andb].
  repeat split; try reflexivity; lia.
Qed.

Lemma Time_text_drops_nanoseconds_witness :
  let t := TimeFromStdTime (time.Date 2024 2 29 13 4 5 678 (time.FixedZone "EST" (-18000))) in
  Time_Sub t (fst (Time_UnmarshalText time.UTC t (fst (Time_MarshalText t)))) = 678.
Proof.
  cbv zeta.
  destruct (Time_text_drops_nanoseconds time.UTC
              (TimeFromStdTime (time.Date 2024 2 29 13 4 5 678 (time.FixedZone "EST" (-18000))))
              (TimeFromStdTime (time.Date 2024 2 29 13 4 5 678 (time.FixedZone "EST" (-18000)))))
    as ((_ & _ & H & _) & _).
  - vm_compute. repeat split; reflexivity.
  - vm_compute. split; [discriminate | reflexivity].
  - vm_compute. reflexivity.
  - vm_compute. reflexivity.
  - rewrite H. reflexivity.
Defined.

(** X30: the SQL form of a [Time] has six digits of fraction and that of
    a [DateTime] none.  With a zone offset of whole hours and less than 24
    hours, [Scan] of the output of [Value] gives the receiver with its
    nanosecond rounded down to a whole microsecond for a [Time] dated
    January 1 of year 0, and with its nanosecond set to 0 for a [DateTime]
    with a year in [0, 9999]: the result lies before the receiver by
    exactly what was dropped. *)
Theorem sql_precision (Local : time.Location) (t t0 : Time) (d d0 : DateTime) :
  (TimeInv t -> 0 <= Time_Nanosecond t < 1000000000 ->
   Z.abs (time.zoneOffset (Time_Location t)) < 86400 ->
   time.zoneOffset (Time_Location t) mod 3600 = 0 ->
   snd (Time_Scan Local t0 (fst (Time_Value t))) = None /\
   Time_Nanosecond (fst (Time_Scan Local t0 (fst (Time_Value t))))
   = Time_Nanosecond t - Time_Nanosecond t mod 1000 /\
   Time_Sub t (fst (Time_Scan Local t0 (fst (Time_Value t))))
   = Time_Nanosecond t mod 1000) /\
  (0 <= DateTime_Year d <= 9999 -> 0 <= DateTime_Nanosecond d < 1000000000 ->
   Z.abs (time.zoneOffset (DateTime_Location d)) < 86400 ->
   time.zoneOffset (DateTime_Location d) mod 3600 = 0 ->
   snd (DateTime_Scan Local d0 (fst (DateTime_Value d))) = None /\
   DateTime_Nanosecond (fst (DateTime_Scan Local d0 (fst (DateTime_Value d)))) = 0 /\
   DateTime_Unix (fst (DateTime_Scan Local d0 (fst (DateTime_Value d)))) = DateTime_Unix d /\
   DateTime_Sub d (fst (DateTime_Scan Local d0 (fst (DateTime_Value d))))
   = DateTime_Nanosecond d).
Proof.
  split.
  - intros (Hy & Hm & Hd) Hwf Hoff Hmod.
    unfold Time_Nanosecond, Time_Location, time.Time_Nanosecond, time.Time_Location in *.
    destruct (layoutFacts.fields_range (Time_t t)) as (_ & _ & Hh & Hmi & Hs).
    set (ns := time.nsec (Time_t t)) in *.
    assert (Hns' : 0 <= ns - ns mod 1000 < 1000000000) by lia.
    destruct (precisionFacts.reparsed_nanos (Time_t t) (ns - ns mod 1000) false
                time.UTC Local Hns' ltac:(discriminate)) as [Es En].
    cbv zeta in Es, En. rewrite Hy, Hm, Hd in Es, En.
    unfold Time_Scan, Time_Value, TimeSQLLayout, time.Parse, Time_Sub.
    cbn [fst]. rewrite roundFacts.Format_TimeSQLLayout by assumption.
    fold ns. rewrite precisionFacts.fracText_micro by exact Hwf.
    rewrite roundFacts.parse_TimeSQLLayout by (try assumption; lia).
    cbn [fst snd Time_t]. unfold time.Time_Sub. rewrite Es, En. fold ns.
    repeat split; lia.
  - intros Hy Hwf Hoff Hmod.
    unfold DateTime_Year, DateTime_Nanosecond, DateTime_Location, time.Time_Nanosecond,
      time.Time_Location in *.
    destruct (formatFacts.fields_valid (DateTime_t d)) as (Hm & Hd & _).
    destruct (layoutFacts.fields_range (DateTime_t d)) as (_ & _ & Hh & Hmi & Hs).
    destruct (zoneFacts.reparsed_seconds (DateTime_t d) false time.UTC Local
                ltac:(discriminate)) as [Es En].
    cbv zeta in Es, En.
    unfold DateTime_Scan, DateTime_Value, dateTimeSQLLayout, time.Parse, DateTime_Sub,
      DateTime_Unix, time.Time_Unix.
    cbn [fst]. rewrite roundFacts.Format_dateTimeSQLLayout by (try assumption; lia).
    rewrite roundFacts.parse_dateTimeSQLLayout by (try assumption; lia).
    cbn [fst snd DateTime_t]. unfold time.Time_Sub. rewrite Es, En.
    repeat split; lia.
Qed.

Lemma sql_precision_witness :
  let t := TimeFromStdTime (time.Date 2024 2 29 13 4 5 123456789 time.UTC) in
  let d := NewDateTime 2024 2 29 13 4 5 123456789 time.UTC in
  Time_Nanosecond (fst (Time_Scan time.UTC t (fst (Time_Value t)))) = 123456000 /\
  DateTime_Nanosecond (fst (DateTime_Scan time.UTC d (fst (DateTime_Value d)))) = 0.
Proof.
  cbv zeta.
  destruct (sql_precision time.UTC
              (TimeFromStdTime (time.Date 2024 2 29 13 4 5 123456789 time.UTC))
              (TimeFromStdTime (time.Date 2024 2 29 13 4 5 123456789 time.UTC))
              (NewDateTime 2024 2 29 13 4 5 123456789 time.UTC)
              (NewDateTime 2024 2 29 13 4 5 123456789 time.UTC)) as [HT HD].
  destruct HT as (_ & HT & _).
  { vm_compute. repeat split; reflexivity. }
  { vm_compute. split; [discriminate | reflexivity]. }
  { vm_compute. reflexivity. }
  { vm_compute. reflexivity. }
  destruct HD as (_ & HD & _).
  { vm_compute. split; discriminate. }
  { vm_compute. split; [discriminate | reflexivity]. }
  { vm_compute. reflexivity. }
  { vm_compute. reflexivity. }
  split; [rewrite HT; reflexivity | exact HD].
Defined.
